(** * earnx50: the accounting and maturation engine of the referral bot

    A shallow embedding of [main.py]: the sqlite tables become records in a
    store that every operation takes and returns, [time.time()] becomes an
    argument, and the replies the handlers send become values of result
    types.  A handler that raises gives [Raised], with what it had
    committed before.  The arithmetic on REAL columns and Python floats is
    an interface ([Real]) with two instances: binary64 as CPython and
    sqlite compute it ([float64]) and exact rationals ([exact]). *)

From Stdlib Require Import ZArith Bool Lia.
From Stdlib Require Import QArith Qcanon Lqa.
From Stdlib Require Import Floats.
From stdpp Require Import gmap strings list.

Set Warnings "-inexact-float".
Local Open Scope Z_scope.

(** ** Arithmetic on REAL values *)

(** What the program does with a float: the literal [0.0], [+], [-], [*],
    [<], [==] (behind truthiness), [float(int)] and [round(x, ndigits)].

    A value of [R] is also what a REAL column holds, a number or NULL:
    [is_null] tells the NULL, which sqlite3 hands to Python as [None], and
    [to_db x] is what the column holds once the Python float [x] has been
    bound to it.  In SQL [NULL + x] and [NULL - x] are NULL, and so is a
    sum or difference that is not a number; [radd] and [rsub] are those
    operations as well. *)
Class Real (R : Type) := {
  rzero : R;
  radd : R -> R -> R;
  rsub : R -> R -> R;
  rmul : R -> R -> R;
  rltb : R -> R -> bool;
  reqb : R -> R -> bool;
  of_int : Z -> R;
  round : R -> Z -> R;
  is_null : R -> bool;
  to_db : R -> R
}.

(** [a > b] is [b < a]; a float is truthy when it is not [0.0]. *)
Definition rgtb `{Real R} (a b : R) : bool := rltb b a.
Definition truthy `{Real R} (a : R) : bool := negb (reqb a rzero).

(** ** Order laws *)

(** What the ordering arguments below use of the arithmetic, each law
    written with [<] alone: [rltb b a = false] reads "a <= b, or the two do
    not compare".  The laws are proved below for exact rationals; for
    binary64 they are not proved here. *)
Class RealOrder (R : Type) `{Real R} : Prop := {
  rltb_irrefl : forall a : R, rltb a a = false;
  rltb_trans : forall a b c : R, rltb a b = true -> rltb b c = true -> rltb a c = true;
  rsub_not_neg : forall a b : R, rltb b a = false -> rltb (rsub b a) rzero = false;
  rsub_mono : forall c a b : R,
    rltb b a = false -> rltb (rsub c a) (rsub c b) = false;
  rmul_of_int_mono : forall (c : R) (n m : Z),
    rltb c rzero = false -> n <= m ->
    rltb (rmul c (of_int m)) (rmul c (of_int n)) = false;
  round_mono : forall (a b : R) (n : Z),
    rltb b a = false -> rltb (round b n) (round a n) = false
}.

(** *** binary64 *)

(** Round half to even of the rational [num / den] ([den > 0]). *)
Definition round_half_even (num den : Z) : Z :=
  let q := num / den in
  let r := num mod den in
  match 2 * r ?= den with
  | Lt => q
  | Gt => q + 1
  | Eq => if Z.even q then q else q + 1
  end.

Module F64.

(** The double nearest to [num / den] ([num >= 0], [den > 0]), ties to
    even, with the sign [s]: the quotient is taken with 64 further bits
    and a sticky bit, then rounded by [binary_normalize]. *)
Definition nearest (s : bool) (num den : Z) : spec_float :=
  if num =? 0 then S754_zero s
  else
    let sh := Z.max 0 (64 + Z.log2_up den - Z.log2 num) in
    let q := (num * 2 ^ sh) / den in
    let r := (num * 2 ^ sh) mod den in
    let m := if r =? 0 then q else Z.lor q 1 in
    binary_normalize prec emax (if s then - m else m) (- sh) s.

(** [float(z)] for a Python int. *)
Definition of_Z (z : Z) : float :=
  SF2Prim (nearest (z <? 0) (Z.abs z) 1).

(** [round(x, n)] on a float, as CPython's [double_round] does it: nan,
    infinities and zeros are returned as they are; otherwise the exact
    binary value is rounded half-even to [n] decimals and the decimal
    converted back to the nearest double. *)
Definition py_round (x : float) (n : Z) : float :=
  match Prim2SF x with
  | S754_finite s m e =>
      let num := Zpos m * 2 ^ Z.max 0 e * 10 ^ Z.max 0 n in
      let den := 2 ^ Z.max 0 (- e) * 10 ^ Z.max 0 (- n) in
      let k := round_half_even num den in
      SF2Prim (nearest s (k * 10 ^ Z.max 0 (- n)) (10 ^ Z.max 0 n))
  | _ => x
  end.

(** What a REAL column holds after the double [x] was bound to it: sqlite
    writes a double without fractional part as an integer, which turns
    [-0.0] into [0.0]; every other double comes back as it went in. *)
Definition to_db (x : float) : float :=
  if PrimFloat.eqb x 0 then 0%float else x.

End F64.

(** sqlite3 binds a NaN as NULL and stores a NaN result as NULL: the NaN
    is the NULL of a column here. *)
#[export] Instance float64 : Real float := {
  rzero := 0%float;
  radd := PrimFloat.add;
  rsub := PrimFloat.sub;
  rmul := PrimFloat.mul;
  rltb := PrimFloat.ltb;
  reqb := PrimFloat.eqb;
  of_int := F64.of_Z;
  round := F64.py_round;
  is_null := PrimFloat.is_nan;
  to_db := F64.to_db
}.

(** *** Exact rationals *)

Module Exact.

Definition ltb (a b : Qc) : bool :=
  match Qccompare a b with Lt => true | _ => false end.

Definition eqb (a b : Qc) : bool :=
  match Qccompare a b with Eq => true | _ => false end.

Definition of_Z (z : Z) : Qc := Q2Qc (inject_Z z).

(** [x] rounded half-even to a multiple of [10^-n]. *)
Definition round (x : Qc) (n : Z) : Qc :=
  let up := 10 ^ Z.max 0 n in
  let down := 10 ^ Z.max 0 (- n) in
  let k := round_half_even (Qnum x * up) (Zpos (Qden x) * down) in
  Q2Qc (Qmake (k * down) (Z.to_pos up)).

End Exact.

(** Every rational is a number, stored as it is. *)
#[export] Instance exact : Real Qc := {
  rzero := Q2Qc 0;
  radd := Qcplus;
  rsub := Qcminus;
  rmul := Qcmult;
  rltb := Exact.ltb;
  reqb := Exact.eqb;
  of_int := Exact.of_Z;
  round := Exact.round;
  is_null := fun _ => false;
  to_db := fun x => x
}.

(** ** Calls that may raise *)

(** What a call gives: the value it returns, or the exception it raises.
    The only exception followed here is the TypeError of [<], [*] or a
    float format applied to the [None] of a NULL column. *)
Inductive outcome (A : Type) :=
  | Returned (a : A)
  | Raised.

Arguments Returned {A} a.
Arguments Raised {A}.

(** ** The ledger store *)

(** The [status] TEXT column of deposits and withdrawals. *)
Inductive status := PENDING | APPROVED | REJECTED | PAID.

Definition status_eqb (a b : status) : bool :=
  match a, b with
  | PENDING, PENDING | APPROVED, APPROVED | REJECTED, REJECTED | PAID, PAID => true
  | _, _ => false
  end.

Section Ledger.
Context {R : Type} `{Real R}.

(** The environment-supplied constants, and [launch_ts] as read from the
    [meta] table at start-up. *)
Record config := {
  MIN_DEPOSIT : R;
  PAYOUT_SECONDS : Z;
  PAYOUT_MULT_START : R;
  PAYOUT_MULT_MIN : R;
  PAYOUT_DECAY_PER_DAY : R;
  REF_BONUS_JOIN : R;
  REF_BONUS_DEPOSIT_PERCENT : R;
  MIN_WITHDRAW : R;
  MIN_COUNTED_REFERRALS_FOR_WITHDRAW : Z;
  launch_ts : Z
}.

(** A row of [users], keyed by [user_id].  The two INTEGER flags are only
    ever written as 1 and tested against 0, so they are booleans here;
    [referred_by] is NULL ([None]) or an integer. *)
Record user := {
  username : string;
  balance : R;
  referred_by : option Z;
  counted_for_referrer : bool;
  counted_referrals : Z;
  total_referrals : Z;
  has_deposited : bool
}.

Record deposit := {
  dep_id : Z;
  dep_user_id : Z;
  dep_amount : R;
  dep_chain : string;
  dep_txid : string;
  dep_ts : Z;
  dep_status : status;
  dep_payout_mult : R;
  dep_payout_ts : Z
}.

Record withdrawal := {
  wd_id : Z;
  wd_user_id : Z;
  wd_amount : R;
  wd_network : string;
  wd_address : string;
  wd_ts : Z;
  wd_status : status
}.

(** The database: [users] by primary key, the two AUTOINCREMENT tables as
    their rows in rowid order together with the last rowid handed out. *)
Record db := {
  users : gmap Z user;
  deposits : list deposit;
  deposits_seq : Z;
  withdrawals : list withdrawal;
  withdrawals_seq : Z
}.

Definition empty_db : db :=
  {| users := ∅; deposits := []; deposits_seq := 0;
     withdrawals := []; withdrawals_seq := 0 |}.

Definition with_users (m : gmap Z user) (s : db) : db :=
  {| users := m; deposits := deposits s; deposits_seq := deposits_seq s;
     withdrawals := withdrawals s; withdrawals_seq := withdrawals_seq s |}.
Definition with_deposits (l : list deposit) (s : db) : db :=
  {| users := users s; deposits := l; deposits_seq := deposits_seq s;
     withdrawals := withdrawals s; withdrawals_seq := withdrawals_seq s |}.
Definition with_withdrawals (l : list withdrawal) (s : db) : db :=
  {| users := users s; deposits := deposits s; deposits_seq := deposits_seq s;
     withdrawals := l; withdrawals_seq := withdrawals_seq s |}.

(** *** Column updates *)

Definition set_username (n : string) (u : user) : user :=
  {| username := n; balance := balance u; referred_by := referred_by u;
     counted_for_referrer := counted_for_referrer u;
     counted_referrals := counted_referrals u;
     total_referrals := total_referrals u; has_deposited := has_deposited u |}.
Definition set_balance (b : R) (u : user) : user :=
  {| username := username u; balance := b; referred_by := referred_by u;
     counted_for_referrer := counted_for_referrer u;
     counted_referrals := counted_referrals u;
     total_referrals := total_referrals u; has_deposited := has_deposited u |}.
Definition set_counted_for_referrer (c : bool) (u : user) : user :=
  {| username := username u; balance := balance u; referred_by := referred_by u;
     counted_for_referrer := c;
     counted_referrals := counted_referrals u;
     total_referrals := total_referrals u; has_deposited := has_deposited u |}.
Definition set_counted_referrals (n : Z) (u : user) : user :=
  {| username := username u; balance := balance u; referred_by := referred_by u;
     counted_for_referrer := counted_for_referrer u;
     counted_referrals := n;
     total_referrals := total_referrals u; has_deposited := has_deposited u |}.
Definition set_total_referrals (n : Z) (u : user) : user :=
  {| username := username u; balance := balance u; referred_by := referred_by u;
     counted_for_referrer := counted_for_referrer u;
     counted_referrals := counted_referrals u;
     total_referrals := n; has_deposited := has_deposited u |}.
Definition set_has_deposited (d : bool) (u : user) : user :=
  {| username := username u; balance := balance u; referred_by := referred_by u;
     counted_for_referrer := counted_for_referrer u;
     counted_referrals := counted_referrals u;
     total_referrals := total_referrals u; has_deposited := d |}.

Definition set_dep_status (st : status) (d : deposit) : deposit :=
  {| dep_id := dep_id d; dep_user_id := dep_user_id d; dep_amount := dep_amount d;
     dep_chain := dep_chain d; dep_txid := dep_txid d; dep_ts := dep_ts d;
     dep_status := st; dep_payout_mult := dep_payout_mult d;
     dep_payout_ts := dep_payout_ts d |}.
Definition set_dep_payout_mult (m : R) (d : deposit) : deposit :=
  {| dep_id := dep_id d; dep_user_id := dep_user_id d; dep_amount := dep_amount d;
     dep_chain := dep_chain d; dep_txid := dep_txid d; dep_ts := dep_ts d;
     dep_status := dep_status d; dep_payout_mult := m;
     dep_payout_ts := dep_payout_ts d |}.
Definition set_dep_payout_ts (t : Z) (d : deposit) : deposit :=
  {| dep_id := dep_id d; dep_user_id := dep_user_id d; dep_amount := dep_amount d;
     dep_chain := dep_chain d; dep_txid := dep_txid d; dep_ts := dep_ts d;
     dep_status := dep_status d; dep_payout_mult := dep_payout_mult d;
     dep_payout_ts := t |}.
Definition set_wd_status (st : status) (w : withdrawal) : withdrawal :=
  {| wd_id := wd_id w; wd_user_id := wd_user_id w; wd_amount := wd_amount w;
     wd_network := wd_network w; wd_address := wd_address w; wd_ts := wd_ts w;
     wd_status := st |}.

(** [UPDATE t SET ... WHERE id=?] on a table kept as its list of rows. *)
Definition update_where {A} (key : A -> Z) (id : Z) (f : A -> A) (rows : list A)
  : list A :=
  map (fun r => if key r =? id then f r else r) rows.

(** [SELECT ... WHERE id=?] followed by [fetchone()]. *)
Definition select_one {A} (key : A -> Z) (id : Z) (rows : list A) : option A :=
  find (fun r => key r =? id) rows.

(** Python truthiness of an optional integer: [None] and [0] are false. *)
Definition truthy_id (o : option Z) : option Z :=
  match o with
  | Some r => if r =? 0 then None else Some r
  | None => None
  end.

(** *** The [db_*] helpers *)

Definition db_user (user_id : Z) (s : db) : option user := users s !! user_id.

Definition new_user (name : string) (ref : option Z) : user :=
  {| username := name; balance := rzero; referred_by := ref;
     counted_for_referrer := false; counted_referrals := 0;
     total_referrals := 0; has_deposited := false |}.

(** [INSERT OR IGNORE] keeps an existing row; the referrer's
    [total_referrals] is bumped whenever [referred_by] is truthy. *)
Definition db_create_user (user_id : Z) (name : string) (ref : option Z) (s : db) : db :=
  let m := match users s !! user_id with
           | Some _ => users s
           | None => <[user_id := new_user name ref]> (users s)
           end in
  match truthy_id ref with
  | Some r =>
      with_users (alter (fun u => set_total_referrals (total_referrals u + 1) u) r m) s
  | None => with_users m s
  end.

Definition db_update_username (user_id : Z) (name : string) (s : db) : db :=
  with_users (alter (set_username name) user_id (users s)) s.

Definition db_add_balance (user_id : Z) (amount : R) (s : db) : db :=
  with_users (alter (fun u => set_balance (radd (balance u) amount) u) user_id (users s)) s.

Definition db_set_counted_for_referrer (user_id : Z) (s : db) : db :=
  with_users (alter (set_counted_for_referrer true) user_id (users s)) s.

Definition db_inc_counted_referrals (ref_id : Z) (inc : Z) (s : db) : db :=
  with_users
    (alter (fun u => set_counted_referrals (counted_referrals u + inc) u) ref_id (users s)) s.

Definition db_mark_deposited (user_id : Z) (s : db) : db :=
  with_users (alter (set_has_deposited true) user_id (users s)) s.

(** The new row takes the column defaults; the result is [lastrowid]. *)
Definition db_insert_deposit (user_id : Z) (amount : R) (chain txid : string)
    (now : Z) (s : db) : db * Z :=
  let id := deposits_seq s + 1 in
  let row := {| dep_id := id; dep_user_id := user_id; dep_amount := to_db amount;
                dep_chain := chain; dep_txid := txid; dep_ts := now;
                dep_status := PENDING; dep_payout_mult := rzero;
                dep_payout_ts := 0 |} in
  ({| users := users s; deposits := deposits s ++ [row]; deposits_seq := id;
      withdrawals := withdrawals s; withdrawals_seq := withdrawals_seq s |}, id).

Definition db_get_pending_deposits (s : db) : list deposit :=
  filter (fun d => status_eqb (dep_status d) PENDING = true) (deposits s).

Definition db_get_deposit (dep_id' : Z) (s : db) : option deposit :=
  select_one dep_id dep_id' (deposits s).

Definition db_approve_deposit (dep_id' : Z) (payout_mult : R) (s : db) : db :=
  with_deposits
    (update_where dep_id dep_id'
       (fun d => set_dep_payout_mult (to_db payout_mult) (set_dep_status APPROVED d))
       (deposits s)) s.

Definition db_reject_deposit (dep_id' : Z) (s : db) : db :=
  with_deposits (update_where dep_id dep_id' (set_dep_status REJECTED) (deposits s)) s.

(** [status='PAID', payout_ts=now] *)
Definition paid_at (now : Z) (d : deposit) : deposit :=
  set_dep_payout_ts now (set_dep_status PAID d).

Definition db_mark_deposit_paid (dep_id' : Z) (now : Z) (s : db) : db :=
  with_deposits (update_where dep_id dep_id' (paid_at now) (deposits s)) s.

Definition db_insert_withdrawal (user_id : Z) (amount : R) (network address : string)
    (now : Z) (s : db) : db * Z :=
  let id := withdrawals_seq s + 1 in
  let row := {| wd_id := id; wd_user_id := user_id; wd_amount := to_db amount;
                wd_network := network; wd_address := address; wd_ts := now;
                wd_status := PENDING |} in
  ({| users := users s; deposits := deposits s; deposits_seq := deposits_seq s;
      withdrawals := withdrawals s ++ [row]; withdrawals_seq := id |}, id).

Definition db_get_pending_withdrawals (s : db) : list withdrawal :=
  filter (fun w => status_eqb (wd_status w) PENDING = true) (withdrawals s).

Definition db_update_withdrawal_status (req_id : Z) (st : status) (s : db) : db :=
  with_withdrawals (update_where wd_id req_id (set_wd_status st) (withdrawals s)) s.

(** ** The multiplier *)

Variable cfg : config.

(** [floor((now - launch_ts) / 86400)]: the true division is exact enough
    for [Z.div] to give the same integer for any |difference| below 2^53. *)
Definition days_since_launch (now : Z) : Z :=
  Z.max 0 ((now - launch_ts cfg) / 86400).

Definition current_multiplier (now : Z) : R :=
  let mult := rsub (PAYOUT_MULT_START cfg)
                   (rmul (PAYOUT_DECAY_PER_DAY cfg) (of_int (days_since_launch now))) in
  let mult := if rltb mult (PAYOUT_MULT_MIN cfg) then PAYOUT_MULT_MIN cfg else mult in
  round mult 4.

(** ** Business logic *)

(** The tuples [("counted", REF_BONUS_JOIN)] and [("queued", 0.0)]. *)
Inductive join_result := Counted (amount : R) | Queued (amount : R).

Definition handle_new_ref_join (referrer_id new_user_id : Z) (s : db)
  : db * option join_result :=
  match db_user referrer_id s, db_user new_user_id s with
  | Some ref, Some newu =>
      if (counted_referrals ref <? 3) && negb (counted_for_referrer newu) then
        let s := db_set_counted_for_referrer new_user_id s in
        let s := db_inc_counted_referrals referrer_id 1 s in
        let s := db_add_balance referrer_id (REF_BONUS_JOIN cfg) s in
        (s, Some (Counted (REF_BONUS_JOIN cfg)))
      else (s, Some (Queued rzero))
  | _, _ => (s, None)
  end.

(** [("approved_ref_bonus", bonus, mult)] and [("approved_no_ref", 0.0, mult)]. *)
Inductive approve_result :=
  | ApprovedRefBonus (bonus mult : R)
  | ApprovedNoRef (bonus mult : R).

(** [dep] is the row as read on entry.  Every helper commits on its own,
    so when [amount * REF_BONUS_DEPOSIT_PERCENT] raises on the [None] of a
    NULL amount, the approval, the deposited mark and the counting stay
    written while the bonus is not credited. *)
Definition handle_deposit_approved (dep_id' : Z) (now : Z) (s : db)
  : db * outcome (option approve_result) :=
  match db_get_deposit dep_id' s with
  | None => (s, Returned None)
  | Some dep =>
      let user_id := dep_user_id dep in
      let amount := dep_amount dep in
      let mult := current_multiplier now in
      let s := db_approve_deposit dep_id' mult s in
      let s := db_mark_deposited user_id s in
      match db_user user_id s with
      | Some u =>
          match truthy_id (referred_by u) with
          | Some ref =>
              let s := if counted_for_referrer u then s
                       else db_inc_counted_referrals ref 1
                              (db_set_counted_for_referrer user_id s) in
              if is_null amount then (s, Raised)
              else
                let bonus := round (rmul amount (REF_BONUS_DEPOSIT_PERCENT cfg)) 6 in
                (db_add_balance ref bonus s, Returned (Some (ApprovedRefBonus bonus mult)))
          | None => (s, Returned (Some (ApprovedNoRef rzero mult)))
          end
      | None => (s, Returned (Some (ApprovedNoRef rzero mult)))
      end
  end.

(** ** The payout worker *)

(** The WHERE clause of the worker's SELECT, [cutoff] being
    [now - PAYOUT_SECONDS]. *)
Definition matured (cutoff : Z) (d : deposit) : bool :=
  status_eqb (dep_status d) APPROVED && (dep_payout_ts d =? 0) && (dep_ts d <=? cutoff).

(** [payout_mult and payout_mult > 0], the NULL being [None]. *)
Definition usable_mult (d : deposit) : bool :=
  negb (is_null (dep_payout_mult d)) && truthy (dep_payout_mult d)
  && rgtb (dep_payout_mult d) rzero.

(** The rows the worker's SELECT returns at [now]. *)
Definition matured_rows (now : Z) (s : db) : list deposit :=
  filter (fun d => matured (now - PAYOUT_SECONDS cfg) d = true) (deposits s).

(** The clock during a pass: [last] is the reading taken last and [later]
    the readings the next calls of [time.time()] give, in order; once they
    are used up the clock stands still. *)
Definition read_clock (last : Z) (later : list Z) : Z * list Z :=
  match later with
  | t :: later' => (t, later')
  | [] => (last, [])
  end.

(** The [for] loop over the fetched rows.  [current_multiplier()] reads
    the clock when the stored multiplier is not usable, and
    [db_mark_deposit_paid] reads it again.  [amount * use_mult] raises on
    the [None] of a NULL amount; the [try] around the loop catches that,
    which ends the pass with the rows before this one paid. *)
Fixpoint pay_rows (last : Z) (later : list Z) (rows : list deposit) (s : db) : db :=
  match rows with
  | [] => s
  | d :: rows' =>
      let '(t_mult, later) :=
        if usable_mult d then (last, later) else read_clock last later in
      let use_mult :=
        if usable_mult d then dep_payout_mult d else current_multiplier t_mult in
      if is_null (dep_amount d) then s
      else
        let payout_amount := round (rmul (dep_amount d) use_mult) 6 in
        let s := db_add_balance (dep_user_id d) payout_amount s in
        let '(t_paid, later) := read_clock t_mult later in
        pay_rows t_paid later rows' (db_mark_deposit_paid (dep_id d) t_paid s)
  end.

(** One pass of the worker's loop body: [now] is the reading the cutoff
    is computed from; the rows are fetched first, then paid one after the
    other. *)
Definition payout_sweep (now : Z) (later : list Z) (s : db) : db :=
  pay_rows now later (matured_rows now s) s.

(** ** Bot handlers *)

(** [/start [refcode]]: [refcode] is the parsed first argument, [None] when
    absent or not an integer.  The second component is [res]. *)
Definition cmd_start (user_id : Z) (name : string) (refcode : option Z) (s : db)
  : db * option join_result :=
  let s := db_create_user user_id name refcode s in
  let s := db_update_username user_id name s in
  match truthy_id refcode with
  | Some r => handle_new_ref_join r user_id s
  | None => (s, None)
  end.

(** The keys of [DEPOSIT_ADDRESSES]. *)
Definition DEPOSIT_CHAINS : list string := ["SOL"; "ERC20"; "BEP20"; "TRC20"]%string.

Inductive deposit_reply :=
  | BadChain
  | BelowMinDeposit
  | DepositRecorded (dep_id' : Z).

(** [/deposit <amount> <chain> <txid>] with the amount parsed and the chain
    upper-cased. *)
Definition cmd_deposit_short (user_id : Z) (amount : R) (chain txid : string)
    (now : Z) (s : db) : db * deposit_reply :=
  if negb (bool_decide (chain ∈ DEPOSIT_CHAINS)) then (s, BadChain)
  else if rltb amount (MIN_DEPOSIT cfg) then (s, BelowMinDeposit)
  else let '(s, id) := db_insert_deposit user_id amount chain txid now s in
       (s, DepositRecorded id).

(** *** The withdraw conversation *)

Inductive conv_state := W_ASK_AMOUNT | W_ASK_NETWORK | W_ASK_ADDRESS | CONV_END.

(** [context.user_data]: the two keys the conversation stores. *)
Record user_data := {
  ud_wd_amount : option R;
  ud_wd_network : option string
}.

Definition empty_user_data : user_data :=
  {| ud_wd_amount := None; ud_wd_network := None |}.

Inductive withdraw_reply :=
  | RegisterFirst
  | RulesNotRevealed
  | EnterAmount
  | InvalidAmount
  | MinimumBalance
  | MinimumReferrals
  | InsufficientBalanceReq
  | ChooseNetwork
  | SendAddress
  | RequestSubmitted (req_id : Z).

Definition cmd_withdraw_start (user_id : Z) (s : db) : conv_state * withdraw_reply :=
  match db_user user_id s with
  | None => (CONV_END, RegisterFirst)
  | Some row =>
      if negb (has_deposited row) then (CONV_END, RulesNotRevealed)
      else (W_ASK_AMOUNT, EnterAmount)
  end.

(** [text] is [float(update.message.text.strip())], [None] when that
    raises.  The handler itself raises (the result is [None]) when the
    user has no row, and in [row[2] < MIN_WITHDRAW] when the balance is
    NULL. *)
Definition withdraw_amount (user_id : Z) (text : option R) (s : db) (ud : user_data)
  : option (conv_state * user_data * withdraw_reply) :=
  match text with
  | None => Some (W_ASK_AMOUNT, ud, InvalidAmount)
  | Some amount =>
      match db_user user_id s with
      | None => None
      | Some row =>
          if is_null (balance row) then None
          else if rltb (balance row) (MIN_WITHDRAW cfg) then
            Some (CONV_END, ud, MinimumBalance)
          else if counted_referrals row <? MIN_COUNTED_REFERRALS_FOR_WITHDRAW cfg then
            Some (CONV_END, ud, MinimumReferrals)
          else if rgtb amount (balance row) then
            Some (CONV_END, ud, InsufficientBalanceReq)
          else
            Some (W_ASK_NETWORK,
                  {| ud_wd_amount := Some amount; ud_wd_network := ud_wd_network ud |},
                  ChooseNetwork)
      end
  end.

Definition withdraw_network (net : string) (ud : user_data)
  : conv_state * user_data * withdraw_reply :=
  (W_ASK_ADDRESS,
   {| ud_wd_amount := ud_wd_amount ud; ud_wd_network := Some net |},
   SendAddress).

(** The amount and network are what the two earlier steps stored; the
    conversation reaches this state only through them, and the result is
    [None] when either key is missing. *)
Definition withdraw_address (user_id : Z) (addr : string) (now : Z) (s : db)
    (ud : user_data) : option (db * conv_state * withdraw_reply) :=
  match ud_wd_amount ud, ud_wd_network ud with
  | Some amount, Some net =>
      let '(s, req_id) := db_insert_withdrawal user_id amount net addr now s in
      Some (s, CONV_END, RequestSubmitted req_id)
  | _, _ => None
  end.

(** A whole request: [/withdraw], then the amount, the network button and
    the address, with no other update of the store in between. *)
Definition withdraw_request (user_id : Z) (text : option R) (net addr : string)
    (now : Z) (s : db) : option (db * conv_state * withdraw_reply) :=
  match cmd_withdraw_start user_id s with
  | (W_ASK_AMOUNT, _) =>
      match withdraw_amount user_id text s empty_user_data with
      | Some (W_ASK_NETWORK, ud, _) =>
          let '(_, ud, _) := withdraw_network net ud in
          withdraw_address user_id addr now s ud
      | Some (st, _, r) => Some (s, st, r)
      | None => None
      end
  | (st, r) => Some (s, st, r)
  end.

(** *** Admin callbacks *)

(** The callback data [<cmd>:<id>] the admin's buttons carry.  In
    [approve_withdraw], [rr[0] < amt] raises when the balance or the
    requested amount is NULL, before anything is written. *)
Inductive admin_cmd :=
  | approve_deposit (depid : Z)
  | reject_deposit (depid : Z)
  | approve_withdraw (reqid : Z)
  | decline_withdraw (reqid : Z).

(** What the admin is told; [HandlerRaised] when the callback raises
    before it replies. *)
Inductive admin_reply :=
  | DepositNotFound
  | DepositApproved (res : option approve_result)
  | DepositRejected
  | RequestNotFound
  | InsufficientBalance
  | WithdrawalPaid
  | WithdrawalDeclined
  | HandlerRaised.

Definition cb_admin (data : admin_cmd) (now : Z) (s : db) : db * admin_reply :=
  match data with
  | approve_deposit depid =>
      match db_get_deposit depid s with
      | None => (s, DepositNotFound)
      | Some _ =>
          match handle_deposit_approved depid now s with
          | (s, Returned res) => (s, DepositApproved res)
          | (s, Raised) => (s, HandlerRaised)
          end
      end
  | reject_deposit depid =>
      match db_get_deposit depid s with
      | None => (s, DepositNotFound)
      | Some _ => (db_reject_deposit depid s, DepositRejected)
      end
  | approve_withdraw reqid =>
      match select_one wd_id reqid (withdrawals s) with
      | None => (s, RequestNotFound)
      | Some row =>
          let uid := wd_user_id row in
          let amt := wd_amount row in
          match balance <$> users s !! uid with
          | Some bal =>
              if is_null bal || is_null amt then (s, HandlerRaised)
              else if rltb bal amt then (s, InsufficientBalance)
              else
                let s := with_users
                           (alter (fun u => set_balance (rsub (balance u) amt) u) uid
                                  (users s)) s in
                (db_update_withdrawal_status reqid PAID s, WithdrawalPaid)
          | None => (s, InsufficientBalance)
          end
      end
  | decline_withdraw reqid =>
      match select_one wd_id reqid (withdrawals s) with
      | None => (s, RequestNotFound)
      | Some _ => (db_update_withdrawal_status reqid REJECTED s, WithdrawalDeclined)
      end
  end.

End Ledger.

Arguments config R : clear implicits.
Arguments user R : clear implicits.
Arguments deposit R : clear implicits.
Arguments withdrawal R : clear implicits.
Arguments db R : clear implicits.
Arguments user_data R : clear implicits.
Arguments join_result R : clear implicits.
Arguments approve_result R : clear implicits.
Arguments admin_reply R : clear implicits.

(** ** The default configuration and the specification's scenarios, on binary64 *)

Module Scenario.

Definition T0 : Z := 1700000000.
Definition day : Z := 86400.

(** The defaults of the [os.getenv] calls, launched at [T0]. *)
Definition cfg : config float :=
  {| MIN_DEPOSIT := 5%float;
     PAYOUT_SECONDS := 24 * 3600;
     PAYOUT_MULT_START := 5%float;
     PAYOUT_MULT_MIN := 2%float;
     PAYOUT_DECAY_PER_DAY := 0.05%float;
     REF_BONUS_JOIN := 1%float;
     REF_BONUS_DEPOSIT_PERCENT := 0.20%float;
     MIN_WITHDRAW := 45%float;
     MIN_COUNTED_REFERRALS_FOR_WITHDRAW := 5;
     launch_ts := T0 |}.

Definition A : Z := 101.
Definition B : Z := 102.
Definition C : Z := 103.
Definition D : Z := 104.
Definition E : Z := 105.
Definition F : Z := 106.

(** [/start] by A, then by B, C, D, E and F with A's code. *)
Definition registered : db float :=
  let s := (cmd_start cfg A "A" None empty_db).1 in
  let s := (cmd_start cfg B "B" (Some A) s).1 in
  let s := (cmd_start cfg C "C" (Some A) s).1 in
  let s := (cmd_start cfg D "D" (Some A) s).1 in
  let s := (cmd_start cfg E "E" (Some A) s).1 in
  (cmd_start cfg F "F" (Some A) s).1.

(** F deposits $100 twenty days after launch, when the multiplier is 4.0. *)
Definition deposited : db float :=
  (cmd_deposit_short cfg F 100%float "TRC20" "txF" (T0 + 20 * day) registered).1.

Definition approved : db float :=
  (cb_admin cfg (approve_deposit 1) (T0 + 20 * day + 3600) deposited).1.

End Scenario.

(** A user who opens the bot with their own id as the referral code, then
    has a $100 deposit approved. *)
Module SelfReferral.

Definition S : Z := 107.

Definition registered : db float :=
  (cmd_start Scenario.cfg S "S" (Some S) empty_db).1.

Definition deposited : db float :=
  (cmd_deposit_short Scenario.cfg S 100%float "SOL" "txS" (Scenario.T0 + 3600)
     registered).1.

Definition approved : db float :=
  (cb_admin Scenario.cfg (approve_deposit 1) (Scenario.T0 + 7200) deposited).1.

End SelfReferral.

(** The admin presses Approve on F's deposit a second time, two days after
    the first approval. *)
Module Reapproval.

Definition again : db float * admin_reply float :=
  cb_admin Scenario.cfg (approve_deposit 1)
    (Scenario.T0 + 22 * Scenario.day) Scenario.approved.

End Reapproval.

(** F, referred by A, submits [/deposit nan TRC20 txF], and the admin
    presses Approve on it. *)
Module NanDeposit.

Definition submitted : db float * deposit_reply :=
  cmd_deposit_short Scenario.cfg Scenario.F nan "TRC20" "txF"
    (Scenario.T0 + 20 * Scenario.day) Scenario.registered.

Definition deposited : db float := submitted.1.

Definition approval : db float * outcome (option (approve_result float)) :=
  handle_deposit_approved Scenario.cfg 1 (Scenario.T0 + 20 * Scenario.day + 3600)
    deposited.

Definition approved : db float * admin_reply float :=
  cb_admin Scenario.cfg (approve_deposit 1) (Scenario.T0 + 20 * Scenario.day + 3600)
    deposited.

End NanDeposit.

(** ** The withdrawal scenario of the specification, on exact rationals *)

Module WithdrawScenario.

Definition dollars (n : Z) : Qc := Q2Qc (inject_Z n).

(** The default configuration again. *)
Definition cfg : config Qc :=
  {| MIN_DEPOSIT := dollars 5;
     PAYOUT_SECONDS := 24 * 3600;
     PAYOUT_MULT_START := dollars 5;
     PAYOUT_MULT_MIN := dollars 2;
     PAYOUT_DECAY_PER_DAY := Q2Qc (5 # 100);
     REF_BONUS_JOIN := dollars 1;
     REF_BONUS_DEPOSIT_PERCENT := Q2Qc (20 # 100);
     MIN_WITHDRAW := dollars 45;
     MIN_COUNTED_REFERRALS_FOR_WITHDRAW := 5;
     launch_ts := Scenario.T0 |}.

Definition W : Z := 201.

(** W has $50, five counted referrals and an approved deposit. *)
Definition funded : db Qc :=
  {| users := {[ W := {| username := "W"; balance := dollars 50;
                         referred_by := None; counted_for_referrer := false;
                         counted_referrals := 5; total_referrals := 5;
                         has_deposited := true |} ]};
     deposits := []; deposits_seq := 0;
     withdrawals := []; withdrawals_seq := 0 |}.

Definition request_time : Z := Scenario.T0 + 30 * Scenario.day.

(** W asks for $50 on TRC20. *)
Definition requested : db Qc :=
  match withdraw_request cfg W (Some (dollars 50)) "TRC20" "TWaddr" request_time funded with
  | Some (s, _, _) => s
  | None => funded
  end.

End WithdrawScenario.

(** The sweep one day after F's deposit was submitted. *)
Module Maturation.

Definition sweep_time : Z := Scenario.T0 + 21 * Scenario.day.

Definition swept : db float := payout_sweep Scenario.cfg sweep_time [] Scenario.approved.

End Maturation.

(** After the approval of F's [nan] deposit, B has a $100 deposit
    approved, and the worker makes a pass two days later. *)
Module Blocked.

Definition deposited : db float :=
  (cmd_deposit_short Scenario.cfg Scenario.B 100%float "SOL" "txB"
     (Scenario.T0 + 20 * Scenario.day + 7200) NanDeposit.approved.1).1.

Definition approved : db float :=
  (cb_admin Scenario.cfg (approve_deposit 2) (Scenario.T0 + 20 * Scenario.day + 10800)
     deposited).1.

Definition sweep_time : Z := Scenario.T0 + 22 * Scenario.day.

Definition swept : db float :=
  payout_sweep Scenario.cfg sweep_time [sweep_time + 1; sweep_time + 2] approved.

End Blocked.

(** ** The updates that write the store *)

Section Updates.
Context {R : Type} `{Real R}.
Variable cfg : config R.

(** The handlers [main] registers that write to the database, and the
    worker's sweep with the readings of its clock.  Of the withdraw
    conversation only the last step writes; it inserts whatever amount and
    network [user_data] holds. *)
Inductive update :=
  | Start (user_id : Z) (name : string) (refcode : option Z)
  | DepositCmd (user_id : Z) (amount : R) (chain txid : string) (now : Z)
  | WithdrawAddress (user_id : Z) (addr : string) (now : Z) (ud : user_data R)
  | AdminCallback (data : admin_cmd) (now : Z)
  | WorkerSweep (now : Z) (later : list Z).

Definition handle (o : update) (s : db R) : db R :=
  match o with
  | Start user_id name refcode => (cmd_start cfg user_id name refcode s).1
  | DepositCmd user_id amount chain txid now =>
      (cmd_deposit_short cfg user_id amount chain txid now s).1
  | WithdrawAddress user_id addr now ud =>
      match withdraw_address user_id addr now s ud with
      | Some (s', _, _) => s'
      | None => s
      end
  | AdminCallback data now => (cb_admin cfg data now s).1
  | WorkerSweep now later => payout_sweep cfg now later s
  end.

(** The store after a sequence of updates, oldest first. *)
Definition run (ops : list update) (s : db R) : db R :=
  fold_left (fun s o => handle o s) ops s.

(** The clock readings of the sweeps among [ops]. *)
Definition sweep_times (ops : list update) : list Z :=
  ops ≫= (fun o => match o with WorkerSweep now later => now :: later | _ => [] end).

(** Ids are distinct and none exceeds the last one handed out. *)
Definition wf (s : db R) : Prop :=
  NoDup (dep_id <$> deposits s)
  /\ Forall (fun i => i <= deposits_seq s) (dep_id <$> deposits s)
  /\ NoDup (wd_id <$> withdrawals s)
  /\ Forall (fun i => i <= withdrawals_seq s) (wd_id <$> withdrawals s).

(** The columns of a deposit that no statement of the program updates. *)
Definition same_deposit (d d' : deposit R) : Prop :=
  dep_id d' = dep_id d /\ dep_user_id d' = dep_user_id d
  /\ dep_amount d' = dep_amount d /\ dep_chain d' = dep_chain d
  /\ dep_txid d' = dep_txid d /\ dep_ts d' = dep_ts d.

Definition same_withdrawal (w w' : withdrawal R) : Prop :=
  wd_id w' = wd_id w /\ wd_user_id w' = wd_user_id w
  /\ wd_amount w' = wd_amount w /\ wd_network w' = wd_network w
  /\ wd_address w' = wd_address w /\ wd_ts w' = wd_ts w.

(** [same_deposit], and a row that has been paid stays marked as paid. *)
Definition keeps_paid (d d' : deposit R) : Prop :=
  same_deposit d d' /\ (dep_payout_ts d <> 0 -> dep_payout_ts d' <> 0).

(** What no update undoes in a user's row: the referrer, the two flags
    once set, and the two referral counters, which only grow. *)
Definition user_kept (u u' : user R) : Prop :=
  referred_by u' = referred_by u
  /\ (has_deposited u = true -> has_deposited u' = true)
  /\ (counted_for_referrer u = true -> counted_for_referrer u' = true)
  /\ counted_referrals u <= counted_referrals u'
  /\ total_referrals u <= total_referrals u'.

(** The four gates of a withdrawal request, on the caller's row. *)
Definition withdraw_gates (row : user R) (amount : R) : bool :=
  has_deposited row
  && negb (rltb (balance row) (MIN_WITHDRAW cfg))
  && negb (counted_referrals row <? MIN_COUNTED_REFERRALS_FOR_WITHDRAW cfg)
  && negb (rgtb amount (balance row)).

(** Every row of [m] is still in [m'], changed only as [user_kept] allows. *)
Definition users_kept (m m' : gmap Z (user R)) : Prop :=
  forall v u, m !! v = Some u -> exists u', m' !! v = Some u' /\ user_kept u u'.

(** Nobody has more than three counted referrals. *)
Definition capped (m : gmap Z (user R)) : Prop :=
  forall v u, m !! v = Some u -> counted_referrals u <= 3.

(** The sum of [f] over the rows of the users table. *)
Definition total (f : user R -> Z) (m : gmap Z (user R)) : Z :=
  map_fold (fun _ u acc => f u + acc) 0 m.

(** How many users are marked as counted, and the counted referrals of
    all referrers together. *)
Definition counted_users (m : gmap Z (user R)) : Z :=
  total (fun u => if counted_for_referrer u then 1 else 0) m.

Definition counted_total (m : gmap Z (user R)) : Z :=
  total counted_referrals m.

(** The updates that touch no row of [users]: a deposit submission, the
    last step of a withdrawal request, a rejection and a decline. *)
Definition writes_no_user (o : update) : bool :=
  match o with
  | DepositCmd _ _ _ _ _ | WithdrawAddress _ _ _ _ => true
  | AdminCallback (reject_deposit _) _ | AdminCallback (decline_withdraw _) _ => true
  | _ => false
  end.

(** [/requests], for a caller who may or may not be the admin.  The
    listing is built from the pending rows; the format [{amount:.2f}]
    raises on the [None] of a NULL amount, and then nothing is shown. *)
Definition cmd_requests (ADMIN_ID user_id : Z) (s : db R)
  : outcome (option (list (deposit R) * list (withdrawal R))) :=
  if negb (user_id =? ADMIN_ID) then Returned None
  else
    let deps := db_get_pending_deposits s in
    let wds := db_get_pending_withdrawals s in
    if existsb (fun d => is_null (dep_amount d)) deps
       || existsb (fun w => is_null (wd_amount w)) wds
    then Raised
    else Returned (Some (deps, wds)).

(** [/balance] and the balance button: balance and counted referrals, or
    nothing for an unregistered user; the format raises on a NULL
    balance. *)
Definition cmd_balance (user_id : Z) (s : db R) : outcome (option (R * Z)) :=
  match db_user user_id s with
  | Some row =>
      if is_null (balance row) then Raised
      else Returned (Some (balance row, counted_referrals row))
  | None => Returned None
  end.

End Updates.

Arguments update R : clear implicits.

(** The updates of the specification's scenario, in order: the six
    [/start]s, F's deposit, its approval and the sweep a day later. *)
Module History.

Definition updates : list (update float) :=
  [ Start Scenario.A "A" None;
    Start Scenario.B "B" (Some Scenario.A);
    Start Scenario.C "C" (Some Scenario.A);
    Start Scenario.D "D" (Some Scenario.A);
    Start Scenario.E "E" (Some Scenario.A);
    Start Scenario.F "F" (Some Scenario.A);
    DepositCmd Scenario.F 100%float "TRC20" "txF" (Scenario.T0 + 20 * Scenario.day);
    AdminCallback (approve_deposit 1) (Scenario.T0 + 20 * Scenario.day + 3600);
    WorkerSweep Maturation.sweep_time [] ].

Definition final : db float := run Scenario.cfg updates empty_db.

End History.

(** After the scenario, the admin approves F's paid deposit once more and
    the worker sweeps again two days later. *)
Module Afterwards.

Definition updates : list (update float) :=
  [ AdminCallback (approve_deposit 1) (Maturation.sweep_time + 3600);
    WorkerSweep (Maturation.sweep_time + 2 * Scenario.day) [] ].

Definition final : db float := run Scenario.cfg updates History.final.

End Afterwards.

(** A, registered without a referrer, later opens the bot with B's code. *)
Module Restart.

Definition again : db float * option (join_result float) :=
  cmd_start Scenario.cfg Scenario.A "A" (Some Scenario.B) Scenario.registered.

End Restart.

(** G opens the bot with a code that belongs to nobody, then has a $100
    deposit approved. *)
Module Orphan.

Definition G : Z := 108.
Definition nobody : Z := 999.

Definition registered : db float * option (join_result float) :=
  cmd_start Scenario.cfg G "G" (Some nobody) empty_db.

Definition deposited : db float :=
  (cmd_deposit_short Scenario.cfg G 100%float "BEP20" "txG" (Scenario.T0 + 3600)
     registered.1).1.

Definition approved : db float * outcome (option (approve_result float)) :=
  handle_deposit_approved Scenario.cfg 1 (Scenario.T0 + 7200) deposited.

End Orphan.

(** N, with $50, five counted referrals and an approved deposit, asks to
    withdraw minus ten dollars. *)
Module NegativeWithdrawal.

Definition N : Z := 301.

Definition funded : db float :=
  {| users := {[ N := {| username := "N"; balance := 50%float;
                         referred_by := None; counted_for_referrer := false;
                         counted_referrals := 5; total_referrals := 5;
                         has_deposited := true |} ]};
     deposits := []; deposits_seq := 0;
     withdrawals := []; withdrawals_seq := 0 |}.

Definition request_time : Z := Scenario.T0 + 30 * Scenario.day.

Definition requested : option (db float * conv_state * withdraw_reply) :=
  withdraw_request Scenario.cfg N (Some (-10)%float) "TRC20" "TNaddr" request_time funded.

(** The admin approves the request a minute later. *)
Definition approved : db float * admin_reply float :=
  match requested with
  | Some (s, _, _) => cb_admin Scenario.cfg (approve_withdraw 1) (request_time + 60) s
  | None => (funded, RequestNotFound)
  end.

End NegativeWithdrawal.

(** N, with $50, five counted referrals and an approved deposit, asks to
    withdraw [nan], and the admin presses Approve a minute later. *)
Module NanWithdrawal.

Definition request : option (db float * conv_state * withdraw_reply) :=
  withdraw_request Scenario.cfg NegativeWithdrawal.N (Some nan) "TRC20" "TNaddr"
    NegativeWithdrawal.request_time NegativeWithdrawal.funded.

Definition requested : db float * conv_state * withdraw_reply :=
  match request with
  | Some r => r
  | None => (NegativeWithdrawal.funded, CONV_END, RegisterFirst)
  end.

Definition approved : db float * admin_reply float :=
  cb_admin Scenario.cfg (approve_withdraw 1) (NegativeWithdrawal.request_time + 60)
    requested.1.1.

End NanWithdrawal.

(** P collects five counted referrals, has a deposit of [inf] approved and
    paid, asks to withdraw [inf], and the admin approves: the balance is
    [inf - inf].  Then P asks to withdraw $10. *)
Module LostBalance.

Definition P : Z := 401.
Definition Q1 : Z := 402.
Definition Q2 : Z := 403.
Definition Q3 : Z := 404.
Definition Q4 : Z := 405.
Definition Q5 : Z := 406.

Definition updates : list (update float) :=
  [ Start P "P" None;
    Start Q1 "Q1" (Some P);
    Start Q2 "Q2" (Some P);
    Start Q3 "Q3" (Some P);
    Start Q4 "Q4" (Some P);
    Start Q5 "Q5" (Some P);
    DepositCmd Q4 5%float "SOL" "tx4" (Scenario.T0 + 3600);
    AdminCallback (approve_deposit 1) (Scenario.T0 + 3660);
    DepositCmd Q5 5%float "SOL" "tx5" (Scenario.T0 + 3720);
    AdminCallback (approve_deposit 2) (Scenario.T0 + 3780);
    DepositCmd P infinity "SOL" "txP" (Scenario.T0 + 3840);
    AdminCallback (approve_deposit 3) (Scenario.T0 + 3900);
    WorkerSweep (Scenario.T0 + 2 * Scenario.day) [] ].

Definition paid : db float := run Scenario.cfg updates empty_db.

Definition requested : option (db float * conv_state * withdraw_reply) :=
  withdraw_request Scenario.cfg P (Some infinity) "TRC20" "TPaddr"
    (Scenario.T0 + 3 * Scenario.day) paid.

Definition approved : db float * admin_reply float :=
  match requested with
  | Some (s, _, _) =>
      cb_admin Scenario.cfg (approve_withdraw 1) (Scenario.T0 + 3 * Scenario.day + 60) s
  | None => (paid, RequestNotFound)
  end.

Definition next_request : option (db float * conv_state * withdraw_reply) :=
  withdraw_request Scenario.cfg P (Some 10%float) "TRC20" "TPaddr"
    (Scenario.T0 + 4 * Scenario.day) approved.1.

End LostBalance.

(** * Properties *)

(** ** [round] on binary64 agrees with CPython on sample values *)

Example py_round_2_675 : round 2.675%float 2 = 2.67%float.
Proof. vm_compute. reflexivity. Qed.
Example py_round_half : round 0.5%float 0 = 0%float /\ round 1.5%float 0 = 2%float
  /\ round 2.5%float 0 = 2%float.
Proof. vm_compute. auto. Qed.
Example py_round_bonus : round (rmul 100%float 0.2%float) 6 = 20%float.
Proof. vm_compute. reflexivity. Qed.
Example py_round_mult : round (rsub 5%float (rmul 0.05%float (of_int 7))) 4 = 4.65%float.
Proof. vm_compute. reflexivity. Qed.
Example py_round_misc :
  round (-0.0000001)%float 6 = (-0)%float /\
  round 1e300%float 6 = 1e300%float /\
  round 123456789.1234565%float 6 = 123456789.123456%float /\
  round 0.1234565%float 6 = 0.123456%float /\
  round (rmul 33.333333%float 4.65%float) 6 = 154.999998%float /\
  round 0.0000005%float 6 = 0%float /\
  round 0.0000015%float 6 = 2e-06%float /\
  round 9007199254.740993%float 6 = 9007199254.740993%float /\
  round 0x1p-1074%float 6 = 0%float.
Proof. vm_compute. repeat split. Qed.

(** ** What a REAL column keeps of a binary64 value *)

Example to_db_samples :
  to_db (-0)%float = 0%float /\ is_null (to_db nan) = true
  /\ to_db 100%float = 100%float /\ is_null (to_db 100%float) = false
  /\ to_db infinity = infinity /\ is_null (to_db infinity) = false
  /\ is_null (rsub infinity infinity) = true.
Proof. vm_compute. repeat split. Qed.

(** ** Exact rationals satisfy the order laws *)

Lemma round_half_even_mono (p1 q1 p2 q2 : Z) :
  0 < q1 -> 0 < q2 -> p1 * q2 <= p2 * q1 ->
  round_half_even p1 q1 <= round_half_even p2 q2.
Proof.
  intros H1 H2 Hle. unfold round_half_even.
  pose proof (Z.div_mod p1 q1 ltac:(lia)) as E1.
  pose proof (Z.div_mod p2 q2 ltac:(lia)) as E2.
  pose proof (Z.mod_pos_bound p1 q1 H1) as B1.
  pose proof (Z.mod_pos_bound p2 q2 H2) as B2.
  set (f1 := p1 / q1) in *. set (r1 := p1 mod q1) in *.
  set (f2 := p2 / q2) in *. set (r2 := p2 mod q2) in *.
  rewrite E1, E2 in Hle. clearbody f1 r1 f2 r2. clear E1 E2.
  assert (Hq : 0 < q1 * q2) by lia.
  assert (Ha : 0 <= r1 * q2) by lia.
  assert (Hb : r2 * q1 < q2 * q1) by (apply Z.mul_lt_mono_pos_r; lia).
  assert (Hf : f1 <= f2).
  { destruct (Z_le_gt_dec f1 f2) as [|Hgt]; [assumption|exfalso].
    assert (q1 * q2 * (f2 + 1) <= q1 * q2 * f1)
      by (apply Z.mul_le_mono_nonneg_l; lia).
    lia. }
  destruct (Z.eq_dec f1 f2) as [Heq|Hne].
  - rewrite <- Heq in *.
    assert (Hr : r1 * q2 <= r2 * q1) by lia.
    destruct (Z.compare_spec (2 * r1) q1), (Z.compare_spec (2 * r2) q2);
      destruct (Z.even f1); try lia; nia.
  - destruct (Z.compare_spec (2 * r1) q1), (Z.compare_spec (2 * r2) q2);
      destruct (Z.even f1); destruct (Z.even f2); lia.
Qed.

Lemma exact_ltb_true (a b : Qc) : Exact.ltb a b = true <-> (a < b)%Qc.
Proof.
  unfold Exact.ltb. rewrite Qclt_alt. 
  change (Qnum a * QDen b ?= Qnum b * QDen a) with (Qccompare a b).
  destruct (Qccompare a b); split; congruence.
Qed.

Lemma exact_ltb_false (a b : Qc) : Exact.ltb a b = false <-> (b <= a)%Qc.
Proof.
  split.
  - intros E. apply Qcnot_lt_le. intros L. apply exact_ltb_true in L. congruence.
  - intros L. destruct (Exact.ltb a b) eqn:E; [|reflexivity].
    apply exact_ltb_true in E. exfalso. exact (Qcle_not_lt _ _ L E).
Qed.

Lemma Q2Qc_le (x y : Q) : (Q2Qc x <= Q2Qc y)%Qc <-> (x <= y)%Q.
Proof. unfold Qcle; simpl. rewrite !Qred_correct. reflexivity. Qed.

Lemma pow10_pos (n : Z) : 0 < 10 ^ Z.max 0 n.
Proof. apply Z.pow_pos_nonneg; lia. Qed.

Lemma exact_round_mono (a b : Qc) (n : Z) :
  (a <= b)%Qc -> (Exact.round a n <= Exact.round b n)%Qc.
Proof.
  intros Hab. unfold Exact.round. apply Q2Qc_le.
  pose proof (pow10_pos n) as Hup. pose proof (pow10_pos (- n)) as Hdown.
  set (up := 10 ^ Z.max 0 n) in *. set (down := 10 ^ Z.max 0 (- n)) in *.
  unfold Qle; simpl. 
  assert (Hk : round_half_even (Qnum a * up) (Zpos (Qden a) * down)
               <= round_half_even (Qnum b * up) (Zpos (Qden b) * down)).
  { apply round_half_even_mono; try lia.
    unfold Qcle, Qle in Hab.
    assert (Qnum a * QDen b * (up * down) <= Qnum b * QDen a * (up * down))
      by (apply Z.mul_le_mono_nonneg_r; [lia | exact Hab]).
    lia. }
  rewrite Z2Pos.id by lia.
  apply Z.mul_le_mono_nonneg_r; [lia|].
  apply Z.mul_le_mono_nonneg_r; [lia | exact Hk].
Qed.

#[export] Instance exact_order : RealOrder Qc.
Proof.
  split; simpl.
  - intros a. apply exact_ltb_false. apply Qcle_refl.
  - intros a b c. rewrite !exact_ltb_true. apply Qclt_trans.
  - intros a b. rewrite !exact_ltb_false. intros Hab.
    unfold Qcle in *. unfold Qcminus, Qcplus, Qcopp. simpl.
    rewrite !Qred_correct. lra.
  - intros c a b. rewrite !exact_ltb_false. unfold Qcle, Qcminus, Qcplus, Qcopp.
    simpl. rewrite !Qred_correct. lra.
  - intros c n m. rewrite !exact_ltb_false. intros Hc Hnm.
    unfold Qcle, Qcmult, Exact.of_Z in *. simpl in *. rewrite !Qred_correct in *.
    assert (inject_Z n <= inject_Z m)%Q by (rewrite <- Zle_Qle; exact Hnm).
    nra.
  - intros a b n. rewrite !exact_ltb_false. apply exact_round_mono.
Qed.

(** ** Reading the store back *)

Section Store_facts.
Context {R : Type} `{Real R}.

Lemma lookup_alter_at {A} (f : A -> A) (m : gmap Z A) (u v : Z) :
  alter f u m !! v = if decide (u = v) then f <$> m !! v else m !! v.
Proof. rewrite lookup_alter. case_decide; subst; reflexivity. Qed.

Lemma db_user_with_users (m : gmap Z (user R)) (s : db R) (u : Z) :
  db_user u (with_users m s) = m !! u.
Proof. reflexivity. Qed.

Lemma db_user_add_balance (u v : Z) (a : R) (s : db R) :
  db_user v (db_add_balance u a s)
  = if decide (u = v)
    then (fun r => set_balance (radd (balance r) a) r) <$> db_user v s
    else db_user v s.
Proof. unfold db_add_balance, db_user; simpl. apply lookup_alter_at. Qed.

Lemma db_user_set_counted (u v : Z) (s : db R) :
  db_user v (db_set_counted_for_referrer u s)
  = if decide (u = v) then set_counted_for_referrer true <$> db_user v s
    else db_user v s.
Proof. unfold db_set_counted_for_referrer, db_user; simpl. apply lookup_alter_at. Qed.

Lemma db_user_inc_counted (u v n : Z) (s : db R) :
  db_user v (db_inc_counted_referrals u n s)
  = if decide (u = v)
    then (fun r => set_counted_referrals (counted_referrals r + n) r) <$> db_user v s
    else db_user v s.
Proof. unfold db_inc_counted_referrals, db_user; simpl. apply lookup_alter_at. Qed.

Lemma db_user_mark_deposited (u v : Z) (s : db R) :
  db_user v (db_mark_deposited u s)
  = if decide (u = v) then set_has_deposited true <$> db_user v s
    else db_user v s.
Proof. unfold db_mark_deposited, db_user; simpl. apply lookup_alter_at. Qed.

Lemma db_user_approve_deposit (i v : Z) (m : R) (s : db R) :
  db_user v (db_approve_deposit i m s) = db_user v s.
Proof. reflexivity. Qed.

End Store_facts.

(** ** Rows of the deposits and withdrawals tables *)

Section Table_facts.
Context {A : Type} (key : A -> Z).

Lemma select_one_update_where (id id' : Z) (f : A -> A) (rows : list A) :
  (forall r, key (f r) = key r) ->
  select_one key id' (update_where key id f rows)
  = (fun r => if key r =? id then f r else r) <$> select_one key id' rows.
Proof.
  intros Hkey. unfold select_one, update_where.
  induction rows as [|r rows IH]; simpl; [reflexivity|].
  destruct (key r =? id) eqn:Hid; rewrite ?Hkey;
    destruct (key r =? id') eqn:Hid'; simpl; rewrite ?Hid; auto.
Qed.

Lemma select_one_key (id : Z) (rows : list A) (r : A) :
  select_one key id rows = Some r -> key r = id.
Proof.
  unfold select_one. intros Hf. apply find_some in Hf as [_ Hk]. lia.
Qed.

Lemma select_one_app_fresh (id : Z) (rows : list A) (r : A) :
  key r <> id -> select_one key id (rows ++ [r]) = select_one key id rows.
Proof.
  intros Hne. unfold select_one.
  induction rows as [|x rows IH]; simpl.
  - destruct (key r =? id) eqn:E; [lia|reflexivity].
  - destruct (key x =? id); auto.
Qed.

End Table_facts.

Section Deposit_rows.
Context {R : Type} `{Real R}.

Lemma db_get_deposit_with_users (i : Z) (m : gmap Z (user R)) (s : db R) :
  db_get_deposit i (with_users m s) = db_get_deposit i s.
Proof. reflexivity. Qed.

Lemma db_get_deposit_approve (i j : Z) (m : R) (s : db R) :
  db_get_deposit j (db_approve_deposit i m s)
  = (fun d => if dep_id d =? i
              then set_dep_payout_mult (to_db m) (set_dep_status APPROVED d) else d)
      <$> db_get_deposit j s.
Proof.
  unfold db_get_deposit, db_approve_deposit; simpl.
  apply select_one_update_where. reflexivity.
Qed.

Lemma db_get_deposit_reject (i j : Z) (s : db R) :
  db_get_deposit j (db_reject_deposit i s)
  = (fun d => if dep_id d =? i then set_dep_status REJECTED d else d)
      <$> db_get_deposit j s.
Proof.
  unfold db_get_deposit, db_reject_deposit; simpl.
  apply select_one_update_where. reflexivity.
Qed.

Lemma db_get_deposit_paid (i j now : Z) (s : db R) :
  db_get_deposit j (db_mark_deposit_paid i now s)
  = (fun d => if dep_id d =? i then paid_at now d else d) <$> db_get_deposit j s.
Proof.
  unfold db_get_deposit, db_mark_deposit_paid; simpl.
  apply select_one_update_where. reflexivity.
Qed.

Lemma db_get_deposit_id (i : Z) (s : db R) (d : deposit R) :
  db_get_deposit i s = Some d -> dep_id d = i.
Proof. apply select_one_key. Qed.

End Deposit_rows.

Create Rewrite HintDb ledger.
#[local] Hint Rewrite @db_user_add_balance @db_user_set_counted
  @db_user_inc_counted @db_user_mark_deposited @db_user_approve_deposit : ledger.

(** Cases on every [decide] and every looked-up row in sight. *)
Ltac ledger_cases :=
  repeat (autorewrite with ledger in *; simpl in *;
          try case_decide; subst; simpl in *; try congruence; try lia).

(** ** The referral engine: joining *)

Section Join.
Context {R : Type} `{Real R}.
Variable cfg : config R.

(** C5. [handle_new_ref_join] on a referrer and a new user that both have a
    row: when the referrer has fewer than 3 counted referrals and the new
    user is not counted yet, the result is [Counted REF_BONUS_JOIN], the new
    user is marked counted, the referrer has one more counted referral and
    [REF_BONUS_JOIN] more balance, and nothing else in the store moves;
    otherwise the result is [Queued 0.0] and the store is the same.  When
    either row is missing the result is [None] and the store is the same. *)
Theorem handle_new_ref_join_spec (referrer_id new_user_id : Z) (s : db R) :
  match db_user referrer_id s, db_user new_user_id s with
  | Some ref, Some newu =>
      if (counted_referrals ref <? 3) && negb (counted_for_referrer newu) then
        exists s',
          handle_new_ref_join cfg referrer_id new_user_id s
            = (s', Some (Counted (REF_BONUS_JOIN cfg)))
          /\ counted_for_referrer <$> db_user new_user_id s' = Some true
          /\ counted_referrals <$> db_user referrer_id s'
             = Some (counted_referrals ref + 1)
          /\ balance <$> db_user referrer_id s'
             = Some (radd (balance ref) (REF_BONUS_JOIN cfg))
          /\ (new_user_id <> referrer_id ->
              db_user new_user_id s' = Some (set_counted_for_referrer true newu))
          /\ (forall u, u <> referrer_id -> u <> new_user_id ->
              db_user u s' = db_user u s)
          /\ deposits s' = deposits s /\ withdrawals s' = withdrawals s
      else
        handle_new_ref_join cfg referrer_id new_user_id s = (s, Some (Queued rzero))
  | _, _ => handle_new_ref_join cfg referrer_id new_user_id s = (s, None)
  end.
Proof.
  unfold handle_new_ref_join.
  destruct (db_user referrer_id s) as [ref|] eqn:Hr;
    destruct (db_user new_user_id s) as [newu|] eqn:Hn; try reflexivity.
  destruct ((counted_referrals ref <? 3) && negb (counted_for_referrer newu));
    [|reflexivity].
  assert (Hsame : new_user_id = referrer_id -> newu = ref)
    by (intros ->; congruence).
  eexists; split; [reflexivity|].
  repeat split; intros; ledger_cases; rewrite ?Hr, ?Hn; simpl;
    try rewrite (Hsame eq_refl); congruence.
Qed.

End Join.

(** ** The referral engine: an approved deposit *)

Section Deposit_approval.
Context {R : Type} `{Real R}.
Variable cfg : config R.

(** The store and the outcome of [handle_deposit_approved] on an existing
    deposit, in terms of the store on entry. *)
Lemma handle_deposit_approved_run (dep_id' now : Z) (s : db R) (dep : deposit R) :
  db_get_deposit dep_id' s = Some dep ->
  handle_deposit_approved cfg dep_id' now s
  = let uid := dep_user_id dep in
    let mult := current_multiplier cfg now in
    let s1 := db_mark_deposited uid (db_approve_deposit dep_id' mult s) in
    match db_user uid s with
    | Some u =>
        match truthy_id (referred_by u) with
        | Some ref =>
            let s2 := if counted_for_referrer u then s1
                      else db_inc_counted_referrals ref 1
                             (db_set_counted_for_referrer uid s1) in
            if is_null (dep_amount dep) then (s2, Raised)
            else
              let bonus := round (rmul (dep_amount dep) (REF_BONUS_DEPOSIT_PERCENT cfg)) 6 in
              (db_add_balance ref bonus s2,
               Returned (Some (ApprovedRefBonus bonus mult)))
        | None => (s1, Returned (Some (ApprovedNoRef rzero mult)))
        end
    | None => (s1, Returned (Some (ApprovedNoRef rzero mult)))
    end.
Proof.
  intros Hd. unfold handle_deposit_approved. rewrite Hd.
  autorewrite with ledger. rewrite decide_True by reflexivity.
  destruct (db_user (dep_user_id dep) s) as [u|]; reflexivity.
Qed.

(** X22. Approving a deposit whose amount is a number (not NULL) and whose
    owner has a referrer (a truthy [referred_by]) returns
    [ApprovedRefBonus bonus mult] with
    [bonus = round(amount * REF_BONUS_DEPOSIT_PERCENT, 6)]; the referrer's
    balance grows by [bonus] whether or not the owner was counted before;
    the owner is counted afterwards; and the referrer's [counted_referrals]
    grows by one exactly when the owner was not counted before, with no
    bound of three. *)
Theorem handle_deposit_approved_referral
    (dep_id' now : Z) (s : db R) (dep : deposit R) (u : user R) (ref : Z) :
  db_get_deposit dep_id' s = Some dep ->
  db_user (dep_user_id dep) s = Some u ->
  truthy_id (referred_by u) = Some ref ->
  is_null (dep_amount dep) = false ->
  exists s',
    handle_deposit_approved cfg dep_id' now s
      = (s', Returned (Some (ApprovedRefBonus
                               (round (rmul (dep_amount dep)
                                         (REF_BONUS_DEPOSIT_PERCENT cfg)) 6)
                               (current_multiplier cfg now))))
    /\ balance <$> db_user ref s'
       = (fun r => radd (balance r)
                     (round (rmul (dep_amount dep) (REF_BONUS_DEPOSIT_PERCENT cfg)) 6))
           <$> db_user ref s
    /\ counted_for_referrer <$> db_user (dep_user_id dep) s' = Some true
    /\ counted_referrals <$> db_user ref s'
       = (fun r => if counted_for_referrer u then counted_referrals r
                   else counted_referrals r + 1) <$> db_user ref s.
Proof.
  intros Hd Hu Hr Hnum. rewrite (handle_deposit_approved_run _ _ _ _ Hd).
  cbv zeta. rewrite Hu, Hr, Hnum.
  eexists; split; [reflexivity|].
  destruct (counted_for_referrer u) eqn:Hcnt; autorewrite with ledger;
    rewrite ?decide_True by reflexivity; rewrite ?Hu; simpl;
    (destruct (decide (ref = dep_user_id dep)) as [->|Hne];
     [ rewrite ?Hu | destruct (db_user ref s) ];
     repeat (case_decide; try congruence); simpl; rewrite ?Hcnt; auto).
Qed.


End Deposit_approval.

Lemma cb_admin_approve_deposit {R : Type} `{Real R} (cfg : config R)
    (depid now : Z) (s : db R) (dep : deposit R) :
  db_get_deposit depid s = Some dep ->
  cb_admin cfg (approve_deposit depid) now s
  = ((handle_deposit_approved cfg depid now s).1,
     match (handle_deposit_approved cfg depid now s).2 with
     | Returned res => DepositApproved res
     | Raised => HandlerRaised
     end).
Proof.
  intros Hd. unfold cb_admin. rewrite Hd.
  destruct (handle_deposit_approved cfg depid now s) as [s' []]; reflexivity.
Qed.

Lemma cb_admin_approve_deposit_store {R : Type} `{Real R} (cfg : config R)
    (depid now : Z) (s : db R) (dep : deposit R) :
  db_get_deposit depid s = Some dep ->
  (cb_admin cfg (approve_deposit depid) now s).1
  = (handle_deposit_approved cfg depid now s).1.
Proof. intros Hd. rewrite (cb_admin_approve_deposit _ _ _ _ _ Hd). reflexivity. Qed.

(** The scenario of the specification: F, referred by A who already has
    three counted referrals, has a $100 deposit approved; A gains $20 and
    a fourth counted referral. *)
Lemma handle_deposit_approved_referral_witness :
  balance <$> db_user Scenario.A Scenario.registered = Some 3%float
  /\ counted_referrals <$> db_user Scenario.A Scenario.registered = Some 3
  /\ balance <$> db_user Scenario.A Scenario.approved = Some 23%float
  /\ counted_referrals <$> db_user Scenario.A Scenario.approved = Some 4
  /\ counted_for_referrer <$> db_user Scenario.F Scenario.approved = Some true.
Proof.
  pose (dep := {| dep_id := 1; dep_user_id := Scenario.F; dep_amount := 100%float;
                  dep_chain := "TRC20"; dep_txid := "txF";
                  dep_ts := Scenario.T0 + 20 * Scenario.day;
                  dep_status := PENDING; dep_payout_mult := 0%float;
                  dep_payout_ts := 0 |}).
  pose (u := {| username := "F"; balance := 0%float; referred_by := Some Scenario.A;
                counted_for_referrer := false; counted_referrals := 0;
                total_referrals := 0; has_deposited := false |}).
  assert (Hd : db_get_deposit 1 Scenario.deposited = Some dep)
    by (vm_compute; reflexivity).
  destruct (handle_deposit_approved_referral Scenario.cfg 1
              (Scenario.T0 + 20 * Scenario.day + 3600) Scenario.deposited
              dep u Scenario.A)
    as (s' & Hrun & Hbal & Hflag & Hcnt);
    [vm_compute; reflexivity ..|].
  assert (Hs : Scenario.approved = s').
  { unfold Scenario.approved.
    rewrite (cb_admin_approve_deposit_store _ _ _ _ _ Hd), Hrun. reflexivity. }
  change (dep_user_id dep) with Scenario.F in Hflag.
  rewrite Hs.
  split; [vm_compute; reflexivity|]. split; [vm_compute; reflexivity|].
  split; [rewrite Hbal; vm_compute; reflexivity|].
  split; [rewrite Hcnt; vm_compute; reflexivity|].
  rewrite Hflag. reflexivity.
Defined.

(** C4. F, referred by A, sends [/deposit nan TRC20 txF]: [float] parses
    the text, [nan < MIN_DEPOSIT] is false, so the deposit is recorded, its
    amount stored as NULL.  The approval stamps it APPROVED, marks F as
    deposited and counted and gives A a fourth counted referral; then
    [amount * REF_BONUS_DEPOSIT_PERCENT] raises, and A's balance stays at
    3.0: no bonus is credited. *)
Theorem nan_deposit_approval_credits_nothing :
  NanDeposit.submitted.2 = DepositRecorded 1
  /\ is_null <$> (dep_amount <$> db_get_deposit 1 NanDeposit.deposited) = Some true
  /\ referred_by <$> db_user Scenario.F NanDeposit.deposited = Some (Some Scenario.A)
  /\ balance <$> db_user Scenario.A NanDeposit.deposited = Some 3%float
  /\ counted_referrals <$> db_user Scenario.A NanDeposit.deposited = Some 3
  /\ NanDeposit.approval.2 = Raised
  /\ NanDeposit.approved.2 = HandlerRaised
  /\ NanDeposit.approved.1 = NanDeposit.approval.1
  /\ dep_status <$> db_get_deposit 1 NanDeposit.approved.1 = Some APPROVED
  /\ has_deposited <$> db_user Scenario.F NanDeposit.approved.1 = Some true
  /\ counted_for_referrer <$> db_user Scenario.F NanDeposit.approved.1 = Some true
  /\ counted_referrals <$> db_user Scenario.A NanDeposit.approved.1 = Some 4
  /\ balance <$> db_user Scenario.A NanDeposit.approved.1 = Some 3%float.
Proof. repeat (split; [vm_compute; reflexivity|]). vm_compute. reflexivity. Qed.



(** ** Admin operations on records that are no longer PENDING *)

Section Deposit_rows_through_users.
Context {R : Type} `{Real R}.

Lemma db_get_deposit_add_balance (i u : Z) (a : R) (s : db R) :
  db_get_deposit i (db_add_balance u a s) = db_get_deposit i s.
Proof. reflexivity. Qed.
Lemma db_get_deposit_set_counted (i u : Z) (s : db R) :
  db_get_deposit i (db_set_counted_for_referrer u s) = db_get_deposit i s.
Proof. reflexivity. Qed.
Lemma db_get_deposit_inc_counted (i u n : Z) (s : db R) :
  db_get_deposit i (db_inc_counted_referrals u n s) = db_get_deposit i s.
Proof. reflexivity. Qed.
Lemma db_get_deposit_mark_deposited (i u : Z) (s : db R) :
  db_get_deposit i (db_mark_deposited u s) = db_get_deposit i s.
Proof. reflexivity. Qed.

End Deposit_rows_through_users.

#[local] Hint Rewrite @db_get_deposit_add_balance @db_get_deposit_set_counted
  @db_get_deposit_inc_counted @db_get_deposit_mark_deposited
  @db_get_deposit_approve : ledger.

Section Reprocessing.
Context {R : Type} `{Real R}.
Variable cfg : config R.

(** After one approval of a deposit whose amount is a number, the deposit
    is found again, with the same owner and amount, and its owner is
    counted. *)
Lemma approved_once (dep_id' now : Z) (s : db R) (dep : deposit R) (u : user R)
    (ref : Z) :
  db_get_deposit dep_id' s = Some dep ->
  db_user (dep_user_id dep) s = Some u ->
  truthy_id (referred_by u) = Some ref ->
  is_null (dep_amount dep) = false ->
  let s1 := (handle_deposit_approved cfg dep_id' now s).1 in
  db_get_deposit dep_id' s1
  = Some (set_dep_payout_mult (to_db (current_multiplier cfg now))
            (set_dep_status APPROVED dep))
  /\ (exists u1, db_user (dep_user_id dep) s1 = Some u1
                 /\ counted_for_referrer u1 = true
                 /\ has_deposited u1 = true
                 /\ referred_by u1 = referred_by u)
  /\ balance <$> db_user ref s1
     = (fun r => radd (balance r)
                   (round (rmul (dep_amount dep) (REF_BONUS_DEPOSIT_PERCENT cfg)) 6))
         <$> db_user ref s.
Proof.
  intros Hd Hu Hr Hnum s1. subst s1.
  rewrite (handle_deposit_approved_run _ _ _ _ _ Hd). cbv zeta.
  rewrite Hu, Hr, Hnum. simpl.
  pose proof (db_get_deposit_id _ _ _ Hd) as Hid.
  destruct (counted_for_referrer u) eqn:Hc;
    autorewrite with ledger; rewrite Hd; simpl;
    (replace (dep_id dep =? dep_id') with true by lia);
    (split; [reflexivity|]);
    (destruct (decide (ref = dep_user_id dep)) as [->|Hne];
     [ | destruct (db_user ref s) as [r|] eqn:Href ];
     rewrite ?Hu; repeat (case_decide; try congruence); simpl;
     (split; [eexists; split; [reflexivity|auto] | reflexivity])).
Qed.

End Reprocessing.

Section Approval_of_null_amount.
Context {R : Type} `{Real R}.
Variable cfg : config R.

(** X24. Approving a deposit whose amount is NULL and whose owner has a
    referrer raises, and the admin gets no reply; by then the deposit is
    stamped APPROVED with the multiplier, the owner is marked as deposited
    and counted, and the referrer's [counted_referrals] has grown by one if
    the owner was not counted before.  No balance changes: the bonus is
    not credited. *)
Theorem handle_deposit_approved_null_amount
    (dep_id' now : Z) (s : db R) (dep : deposit R) (u : user R) (ref : Z) :
  db_get_deposit dep_id' s = Some dep ->
  db_user (dep_user_id dep) s = Some u ->
  truthy_id (referred_by u) = Some ref ->
  is_null (dep_amount dep) = true ->
  let run := handle_deposit_approved cfg dep_id' now s in
  run.2 = Raised
  /\ cb_admin cfg (approve_deposit dep_id') now s = (run.1, HandlerRaised)
  /\ db_get_deposit dep_id' run.1
     = Some (set_dep_payout_mult (to_db (current_multiplier cfg now))
               (set_dep_status APPROVED dep))
  /\ (forall v, balance <$> db_user v run.1 = balance <$> db_user v s)
  /\ has_deposited <$> db_user (dep_user_id dep) run.1 = Some true
  /\ counted_for_referrer <$> db_user (dep_user_id dep) run.1 = Some true
  /\ counted_referrals <$> db_user ref run.1
     = (fun r => if counted_for_referrer u then counted_referrals r
                 else counted_referrals r + 1) <$> db_user ref s.
Proof.
  intros Hd Hu Hr Hnull run. subst run.
  rewrite (cb_admin_approve_deposit _ _ _ _ _ Hd).
  rewrite (handle_deposit_approved_run _ _ _ _ _ Hd). cbv zeta.
  rewrite Hu, Hr, Hnull. cbn [fst snd].
  pose proof (db_get_deposit_id _ _ _ Hd) as Hid.
  split; [reflexivity|]. split; [reflexivity|].
  destruct (counted_for_referrer u) eqn:Hc;
    (split; [autorewrite with ledger; rewrite Hd; simpl;
             replace (dep_id dep =? dep_id') with true by lia; reflexivity|]);
    (split; [intros v|]); autorewrite with ledger;
    (destruct (decide (ref = dep_user_id dep)) as [->|Hne];
     [ | try destruct (db_user ref s) as [r|] eqn:Href ]);
    rewrite ?Hu; repeat (case_decide; subst; try congruence); rewrite ?Hu; simpl;
    rewrite ?Hc; auto;
    try (destruct (db_user v s); reflexivity).
Qed.

End Approval_of_null_amount.

(** F's deposit of [nan]: the approval raises, A's balance stays at 3.0
    and A has a fourth counted referral. *)
Lemma handle_deposit_approved_null_amount_witness :
  NanDeposit.approval.2 = Raised
  /\ NanDeposit.approved.2 = HandlerRaised
  /\ balance <$> db_user Scenario.A NanDeposit.approval.1 = Some 3%float
  /\ counted_referrals <$> db_user Scenario.A NanDeposit.approval.1 = Some 4.
Proof.
  pose (dep := {| dep_id := 1; dep_user_id := Scenario.F; dep_amount := nan;
                  dep_chain := "TRC20"; dep_txid := "txF";
                  dep_ts := Scenario.T0 + 20 * Scenario.day;
                  dep_status := PENDING; dep_payout_mult := 0%float;
                  dep_payout_ts := 0 |}).
  pose (u := {| username := "F"; balance := 0%float; referred_by := Some Scenario.A;
                counted_for_referrer := false; counted_referrals := 0;
                total_referrals := 0; has_deposited := false |}).
  pose proof (handle_deposit_approved_null_amount Scenario.cfg 1
                (Scenario.T0 + 20 * Scenario.day + 3600) NanDeposit.deposited
                dep u Scenario.A) as T.
  cbv zeta in T.
  destruct T as (Hres & Hadmin & _ & Hbal & _ & _ & Hcnt);
    [vm_compute; reflexivity ..|].
  unfold NanDeposit.approval, NanDeposit.approved.
  split; [exact Hres|]. split; [rewrite Hadmin; reflexivity|].
  split; [rewrite Hbal; vm_compute; reflexivity|].
  rewrite Hcnt. vm_compute. reflexivity.
Defined.

(** ** Withdrawal approval *)

Section Withdrawal_rows.
Context {R : Type} `{Real R}.

Lemma select_withdrawal_status (i j : Z) (st : status) (s : db R) :
  select_one wd_id j (withdrawals (db_update_withdrawal_status i st s))
  = (fun w => if wd_id w =? i then set_wd_status st w else w)
      <$> select_one wd_id j (withdrawals s).
Proof.
  unfold db_update_withdrawal_status; simpl.
  apply select_one_update_where. reflexivity.
Qed.

Variable cfg : config R.

(** The approve branch of [cb_admin] on an existing request. *)
Lemma cb_admin_approve_withdraw_run (reqid now : Z) (s : db R) (w : withdrawal R) :
  select_one wd_id reqid (withdrawals s) = Some w ->
  cb_admin cfg (approve_withdraw reqid) now s
  = match db_user (wd_user_id w) s with
    | Some u =>
        if is_null (balance u) || is_null (wd_amount w) then (s, HandlerRaised)
        else if rltb (balance u) (wd_amount w) then (s, InsufficientBalance)
        else (db_update_withdrawal_status reqid PAID
                (with_users
                   (alter (fun r => set_balance (rsub (balance r) (wd_amount w)) r)
                      (wd_user_id w) (users s)) s),
              WithdrawalPaid)
    | None => (s, InsufficientBalance)
    end.
Proof.
  intros Hw. unfold cb_admin, db_user. rewrite Hw.
  destruct (users s !! wd_user_id w); reflexivity.
Qed.

(** X18. Approving a withdrawal reads the owner's balance as it is now.  If
    the owner has no row the reply is [InsufficientBalance]; if the balance
    or the requested amount is NULL the callback raises in [rr[0] < amt];
    if the balance is below the amount the reply is [InsufficientBalance];
    in these three cases the store is returned as it was.  Otherwise the
    owner's balance becomes [balance - amount], the request becomes PAID,
    and nothing else moves.  Under the order laws the new balance is never
    below zero. *)
Theorem cb_admin_approve_withdraw_spec (reqid now : Z) (s : db R) (w : withdrawal R) :
  select_one wd_id reqid (withdrawals s) = Some w ->
  let uid := wd_user_id w in
  let s' := (cb_admin cfg (approve_withdraw reqid) now s).1 in
  let reply := (cb_admin cfg (approve_withdraw reqid) now s).2 in
  match db_user uid s with
  | Some u =>
      if is_null (balance u) || is_null (wd_amount w) then
        reply = HandlerRaised /\ s' = s
      else if rltb (balance u) (wd_amount w) then
        reply = InsufficientBalance /\ s' = s
      else
        reply = WithdrawalPaid
        /\ db_user uid s' = Some (set_balance (rsub (balance u) (wd_amount w)) u)
        /\ select_one wd_id reqid (withdrawals s') = Some (set_wd_status PAID w)
        /\ (forall v, v <> uid -> db_user v s' = db_user v s)
        /\ (forall j, j <> reqid ->
              select_one wd_id j (withdrawals s') = select_one wd_id j (withdrawals s))
        /\ deposits s' = deposits s
        /\ (RealOrder R -> rltb (rsub (balance u) (wd_amount w)) rzero = false)
  | None => reply = InsufficientBalance /\ s' = s
  end.
Proof.
  intros Hw uid s' reply. subst s' reply.
  rewrite (cb_admin_approve_withdraw_run _ _ _ _ Hw). fold uid.
  destruct (db_user uid s) as [u|] eqn:Hu; [|split; reflexivity].
  destruct (is_null (balance u) || is_null (wd_amount w)); [split; reflexivity|].
  destruct (rltb (balance u) (wd_amount w)) eqn:Hlt; [split; reflexivity|].
  cbn [fst snd].
  split; [reflexivity|]. split; [|split; [|split; [|split; [|split]]]].
  - unfold db_user in *; simpl. rewrite lookup_alter_at, decide_True, Hu; done.
  - rewrite select_withdrawal_status. cbn [withdrawals with_users]. rewrite Hw; simpl.
    rewrite (select_one_key _ _ _ _ Hw), Z.eqb_refl. reflexivity.
  - intros v Hv. unfold db_user; simpl.
    rewrite lookup_alter_at, decide_False; congruence.
  - intros j Hj. rewrite select_withdrawal_status. cbn [withdrawals with_users].
    destruct (select_one wd_id j (withdrawals s)) as [w'|] eqn:Hw'; [|reflexivity].
    simpl. apply select_one_key in Hw'.
    replace (wd_id w' =? reqid) with false by lia. reflexivity.
  - reflexivity.
  - intros Hlaws. apply rsub_not_neg. exact Hlt.
Qed.

End Withdrawal_rows.

(** The specification's scenario: W, with $50, has a $50 request approved;
    the request becomes PAID and the balance, now zero, is not negative. *)
Lemma cb_admin_approve_withdraw_spec_witness :
  let run := cb_admin WithdrawScenario.cfg (approve_withdraw 1)
               (WithdrawScenario.request_time + 60) WithdrawScenario.requested in
  run.2 = WithdrawalPaid
  /\ wd_status <$> select_one wd_id 1 (withdrawals run.1) = Some PAID
  /\ (exists u, db_user WithdrawScenario.W run.1 = Some u
                /\ rltb (balance u) rzero = false).
Proof.
  intros run. subst run.
  pose (w := {| wd_id := 1; wd_user_id := WithdrawScenario.W;
                wd_amount := WithdrawScenario.dollars 50;
                wd_network := "TRC20"; wd_address := "TWaddr";
                wd_ts := WithdrawScenario.request_time; wd_status := PENDING |}).
  pose proof (cb_admin_approve_withdraw_spec WithdrawScenario.cfg 1
                (WithdrawScenario.request_time + 60) WithdrawScenario.requested w)
    as T.
  cbv zeta in T.
  destruct (db_user (wd_user_id w) WithdrawScenario.requested) as [u|] eqn:Hu;
    [|vm_compute in Hu; discriminate].
  change (is_null (balance u) || is_null (wd_amount w)) with false in T.
  assert (Hlt : rltb (balance u) (wd_amount w) = false).
  { vm_compute in Hu. injection Hu as <-. vm_compute. reflexivity. }
  rewrite Hlt in T.
  destruct T as (Hreply & Hrow & Hsel & _ & _ & _ & Hpos);
    [vm_compute; reflexivity|].
  split; [exact Hreply|]. split; [rewrite Hsel; reflexivity|].
  eexists; split; [exact Hrow|]. simpl. apply Hpos. exact exact_order.
Defined.

Section Reprocessing_admin.
Context {R : Type} `{Real R}.
Variable cfg : config R.

(** C1. No admin operation looks at the status of the record it is
    given, and none answers that the record was already processed.
    Approving a second time a deposit whose amount is a number is answered
    as an approval, stamps the deposit APPROVED with the multiplier of the
    second approval, and credits the referrer's percent bonus
    [round(amount * REF_BONUS_DEPOSIT_PERCENT, 6)] a second time; only the
    counting of the owner is not repeated.  Rejecting a deposit and
    declining a withdrawal act on a record of any status, which becomes
    REJECTED.  Approving a withdrawal acts on a request of any status:
    when the owner's balance and the amount are numbers and the balance is
    not below the amount, the request becomes PAID and the amount is
    debited. *)
Theorem admin_operations_ignore_status :
  (forall (depid now1 now2 : Z) (s : db R) (dep : deposit R) (u : user R) (ref : Z),
      db_get_deposit depid s = Some dep ->
      db_user (dep_user_id dep) s = Some u ->
      truthy_id (referred_by u) = Some ref ->
      is_null (dep_amount dep) = false ->
      let bonus := round (rmul (dep_amount dep) (REF_BONUS_DEPOSIT_PERCENT cfg)) 6 in
      let s1 := (cb_admin cfg (approve_deposit depid) now1 s).1 in
      let second := cb_admin cfg (approve_deposit depid) now2 s1 in
      second.2
      = DepositApproved (Some (ApprovedRefBonus bonus (current_multiplier cfg now2)))
      /\ balance <$> db_user ref second.1
         = (fun r => radd (radd (balance r) bonus) bonus) <$> db_user ref s
      /\ db_get_deposit depid second.1
         = Some (set_dep_payout_mult (to_db (current_multiplier cfg now2))
                   (set_dep_status APPROVED dep))
      /\ counted_referrals <$> db_user ref second.1
         = counted_referrals <$> db_user ref s1
      /\ has_deposited <$> db_user (dep_user_id dep) second.1 = Some true)
  /\ (forall (depid now : Z) (s : db R) (dep : deposit R),
        db_get_deposit depid s = Some dep ->
        let run := cb_admin cfg (reject_deposit depid) now s in
        run.2 = DepositRejected
        /\ db_get_deposit depid run.1 = Some (set_dep_status REJECTED dep)
        /\ users run.1 = users s)
  /\ (forall (reqid now : Z) (s : db R) (w : withdrawal R),
        select_one wd_id reqid (withdrawals s) = Some w ->
        let run := cb_admin cfg (decline_withdraw reqid) now s in
        run.2 = WithdrawalDeclined
        /\ select_one wd_id reqid (withdrawals run.1) = Some (set_wd_status REJECTED w)
        /\ users run.1 = users s)
  /\ (forall (reqid now : Z) (s : db R) (w : withdrawal R) (u : user R),
        select_one wd_id reqid (withdrawals s) = Some w ->
        db_user (wd_user_id w) s = Some u ->
        is_null (balance u) = false ->
        is_null (wd_amount w) = false ->
        rltb (balance u) (wd_amount w) = false ->
        let run := cb_admin cfg (approve_withdraw reqid) now s in
        run.2 = WithdrawalPaid
        /\ select_one wd_id reqid (withdrawals run.1) = Some (set_wd_status PAID w)
        /\ balance <$> db_user (wd_user_id w) run.1
           = Some (rsub (balance u) (wd_amount w))).
Proof.
  split; [|split; [|split]].
  - intros depid now1 now2 s dep u ref Hd Hu Hr Hnum bonus s1 second.
    subst bonus second s1.
    rewrite (cb_admin_approve_deposit_store _ _ _ _ _ Hd).
    destruct (approved_once cfg depid now1 s dep u ref Hd Hu Hr Hnum)
      as (Hd1 & (u1 & Hu1 & Hc1 & Hdep1 & Href1) & Hbal1).
    set (s1 := (handle_deposit_approved cfg depid now1 s).1) in *. clearbody s1.
    rewrite (cb_admin_approve_deposit _ _ _ _ _ Hd1). cbn [fst snd].
    rewrite (handle_deposit_approved_run _ _ _ _ _ Hd1). cbv zeta.
    cbn [dep_user_id dep_amount set_dep_payout_mult set_dep_status].
    rewrite Hu1, Href1, Hr, Hc1, Hnum. cbn [fst snd].
    pose proof (db_get_deposit_id _ _ _ Hd) as Hid.
    autorewrite with ledger. rewrite Hd1.
    cbn [fmap option_fmap option_map dep_id set_dep_payout_mult set_dep_status].
    replace (dep_id dep =? depid) with true by lia.
    split; [reflexivity|]. split; [|split; [reflexivity|split]].
    + destruct (decide (ref = dep_user_id dep)) as [->|Hne];
        repeat (case_decide; try congruence).
      * rewrite Hu1, Hu in *. simpl in *. congruence.
      * destruct (db_user ref s1), (db_user ref s); simpl in *; congruence.
    + destruct (decide (ref = dep_user_id dep)) as [->|Hne];
        repeat (case_decide; try congruence).
      * rewrite Hu1. reflexivity.
      * destruct (db_user ref s1); reflexivity.
    + rewrite Hu1. repeat (case_decide; try congruence); reflexivity.
  - intros depid now s dep Hd run. subst run. unfold cb_admin. rewrite Hd.
    cbn [fst snd]. rewrite db_get_deposit_reject, Hd. simpl.
    rewrite (db_get_deposit_id _ _ _ Hd), Z.eqb_refl. auto.
  - intros reqid now s w Hw run. subst run. unfold cb_admin. rewrite Hw.
    cbn [fst snd]. rewrite select_withdrawal_status, Hw. simpl.
    rewrite (select_one_key _ _ _ _ Hw), Z.eqb_refl. auto.
  - intros reqid now s w u Hw Hu Hnb Hna Hlt run. subst run.
    rewrite (cb_admin_approve_withdraw_run _ _ _ _ _ Hw), Hu, Hnb, Hna, Hlt.
    cbn [orb fst snd]. rewrite select_withdrawal_status.
    cbn [withdrawals with_users]. rewrite Hw. simpl.
    rewrite (select_one_key _ _ _ _ Hw), Z.eqb_refl.
    split; [reflexivity|]. split; [reflexivity|].
    unfold db_user in *; simpl.
    rewrite lookup_alter_at, decide_True, Hu; done.
Qed.

End Reprocessing_admin.

(** A second approval is not refused: F's deposit, already APPROVED, is
    approved again two days later.  The reply is an approval, A's balance
    goes from 23.0 to 43.0, and the stored multiplier goes from 4.0 to
    3.9. *)
Lemma second_approval_is_processed :
  dep_status <$> db_get_deposit 1 Scenario.approved = Some APPROVED
  /\ dep_payout_mult <$> db_get_deposit 1 Scenario.approved = Some 4%float
  /\ balance <$> db_user Scenario.A Scenario.approved = Some 23%float
  /\ Reapproval.again.2
     = DepositApproved (Some (ApprovedRefBonus 20%float 3.9%float))
  /\ balance <$> db_user Scenario.A Reapproval.again.1 = Some 43%float
  /\ dep_payout_mult <$> db_get_deposit 1 Reapproval.again.1 = Some 3.9%float
  /\ Reapproval.again.1 <> Scenario.approved.
Proof.
  repeat (split; [vm_compute; reflexivity|]).
  intros E.
  apply (f_equal (fun s => match balance <$> db_user Scenario.A s with
                           | Some x => PrimFloat.eqb x 23%float
                           | None => false
                           end)) in E.
  vm_compute in E. discriminate.
Qed.

(** The second approval in the scenario, through the general statement. *)
Lemma admin_operations_ignore_status_witness :
  Reapproval.again.2
  = DepositApproved (Some (ApprovedRefBonus 20%float 3.9%float))
  /\ balance <$> db_user Scenario.A Reapproval.again.1 = Some 43%float.
Proof.
  pose (dep := {| dep_id := 1; dep_user_id := Scenario.F; dep_amount := 100%float;
                  dep_chain := "TRC20"; dep_txid := "txF";
                  dep_ts := Scenario.T0 + 20 * Scenario.day;
                  dep_status := PENDING; dep_payout_mult := 0%float;
                  dep_payout_ts := 0 |}).
  pose (u := {| username := "F"; balance := 0%float; referred_by := Some Scenario.A;
                counted_for_referrer := false; counted_referrals := 0;
                total_referrals := 0; has_deposited := false |}).
  destruct (admin_operations_ignore_status Scenario.cfg) as [Htwice _].
  destruct (Htwice 1 (Scenario.T0 + 20 * Scenario.day + 3600)
              (Scenario.T0 + 22 * Scenario.day) Scenario.deposited dep u Scenario.A)
    as (Hreply & Hbal & _); [vm_compute; reflexivity ..|].
  split.
  - etransitivity; [exact Hreply|]. vm_compute. reflexivity.
  - etransitivity; [exact Hbal|]. vm_compute. reflexivity.
Defined.

(** ** The maturation sweep *)

Section Sweep.
Context {R : Type} `{Real R}.
Variable cfg : config R.

(** Whatever holds of every reading still to come holds of the next one. *)
Lemma read_clock_in (P : Z -> Prop) (last t : Z) (later later' : list Z) :
  read_clock last later = (t, later') ->
  P last -> Forall P later -> P t /\ Forall P later'.
Proof.
  destruct later as [|t0 l]; simpl; intros [= <- <-] Hl Hf.
  - split; [exact Hl | constructor].
  - apply Forall_cons in Hf. exact Hf.
Qed.

(** The loop gets as far as the first row whose amount is NULL. *)
Lemma pay_rows_prefix (rows : list (deposit R)) :
  exists paid rest,
    rows = paid ++ rest
    /\ Forall (fun d => is_null (dep_amount d) = false) paid
    /\ match rest with
       | [] => True
       | d :: _ => is_null (dep_amount d) = true
       end
    /\ forall last later s,
         pay_rows cfg last later rows s = pay_rows cfg last later paid s.
Proof.
  induction rows as [|d rows (paid & rest & E & Hnum & Hrest & Hrun)].
  - exists [], []. repeat split; constructor.
  - destruct (is_null (dep_amount d)) eqn:Hd.
    + exists [], (d :: rows). repeat split; [constructor | exact Hd |].
      intros last later s. cbn [pay_rows]. rewrite Hd.
      destruct (usable_mult d); [|destruct (read_clock last later)]; reflexivity.
    + exists (d :: paid), rest. split; [rewrite E; reflexivity|].
      split; [constructor; assumption|]. split; [exact Hrest|].
      intros last later s. cbn [pay_rows]. rewrite Hd.
      destruct (usable_mult d); [|destruct (read_clock last later) as [t l]];
        (match goal with
         | |- context [read_clock ?a ?b] => destruct (read_clock a b)
         end); apply Hrun.
Qed.

(** Paying rows whose amounts are numbers: the multipliers used, the
    balances and the deposits table afterwards.  [P] is any property of
    the clock readings. *)
Lemma pay_rows_spec (P : Z -> Prop) (rows : list (deposit R)) :
  Forall (fun d => is_null (dep_amount d) = false) rows ->
  forall (last : Z) (later : list Z) (s : db R),
  P last -> Forall P later ->
  exists ms,
    Forall2 (fun d m => if usable_mult d then m = dep_payout_mult d
                        else exists t, P t /\ m = current_multiplier cfg t) rows ms
    /\ (forall uid,
          db_user uid (pay_rows cfg last later rows s)
          = (fun r => set_balance
                        (fold_left radd
                           ((fun dm => round (rmul (dep_amount dm.1) dm.2) 6)
                              <$> filter (fun dm => dep_user_id dm.1 = uid) (zip rows ms))
                           (balance r)) r) <$> db_user uid s)
    /\ Forall2 (fun d d' =>
                  if bool_decide (dep_id d ∈ dep_id <$> rows)
                  then exists t, P t /\ d' = set_dep_payout_ts t (set_dep_status PAID d)
                  else d' = d)
         (deposits s) (deposits (pay_rows cfg last later rows s))
    /\ withdrawals (pay_rows cfg last later rows s) = withdrawals s.
Proof.
  induction 1 as [|d rows Hd Hrows IH]; intros last later s Hlast Hlater.
  - exists []. split; [constructor|]. split; [|split; [|reflexivity]].
    + intros uid. simpl. destruct (db_user uid s) as [[]|]; reflexivity.
    + simpl. induction (deposits s); constructor; auto.
  - cbn [pay_rows]. rewrite Hd.
    assert (Hm : exists t1 l1 m,
               (if usable_mult d then (last, later) else read_clock last later) = (t1, l1)
               /\ (if usable_mult d then dep_payout_mult d else current_multiplier cfg t1) = m
               /\ P t1 /\ Forall P l1
               /\ (if usable_mult d then m = dep_payout_mult d
                   else exists t, P t /\ m = current_multiplier cfg t)).
    { destruct (usable_mult d).
      - exists last, later, (dep_payout_mult d). auto.
      - destruct (read_clock last later) as [t1 l1] eqn:E.
        destruct (read_clock_in P _ _ _ _ E Hlast Hlater) as [H1 H2].
        exists t1, l1, (current_multiplier cfg t1). eauto 10. }
    destruct Hm as (t1 & l1 & m & -> & -> & Ht1 & Hl1 & Hmult).
    destruct (read_clock t1 l1) as [t2 l2] eqn:E2.
    destruct (read_clock_in P _ _ _ _ E2 Ht1 Hl1) as [Ht2 Hl2].
    set (s1 := db_mark_deposit_paid (dep_id d) t2
                 (db_add_balance (dep_user_id d)
                    (round (rmul (dep_amount d) m) 6) s)).
    destruct (IH t2 l2 s1 Ht2 Hl2) as (ms & Hms & Husers & Hdeps & Hwd).
    exists (m :: ms). split; [constructor; assumption|].
    split; [|split; [|rewrite Hwd; reflexivity]].
    + intros uid. rewrite Husers.
      change (db_user uid s1)
        with (db_user uid (db_add_balance (dep_user_id d)
                             (round (rmul (dep_amount d) m) 6) s)).
      rewrite db_user_add_balance. cbn [zip zip_with]. rewrite filter_cons.
      cbn [fst]. destruct (decide (dep_user_id d = uid)) as [E|E]; [|reflexivity].
      destruct (db_user uid s) as [u|]; reflexivity.
    + change (deposits s1)
        with ((fun x => if dep_id x =? dep_id d then paid_at t2 x else x)
                <$> deposits s) in Hdeps.
      apply Forall2_fmap_l in Hdeps.
      eapply Forall2_impl; [exact Hdeps|]. intros x y. unfold compose. cbv beta.
      rewrite fmap_cons.
      destruct (dep_id x =? dep_id d) eqn:Ex.
      * apply Z.eqb_eq in Ex.
        rewrite (bool_decide_true (dep_id x ∈ dep_id d :: (dep_id <$> rows)))
          by (rewrite Ex; apply list_elem_of_here).
        change (dep_id (paid_at t2 x)) with (dep_id x).
        destruct (bool_decide (dep_id x ∈ dep_id <$> rows)).
        -- intros (t & Ht & ->). exists t. split; [exact Ht | reflexivity].
        -- intros ->. exists t2. split; [exact Ht2 | reflexivity].
      * apply Z.eqb_neq in Ex.
        rewrite (bool_decide_ext (dep_id x ∈ dep_id d :: (dep_id <$> rows))
                   (dep_id x ∈ dep_id <$> rows)); [auto|].
        rewrite elem_of_cons. tauto.
Qed.

(** Rows of a table with distinct ids are told apart by their id. *)
Lemma same_id_same_row (l : list (deposit R)) (d d' : deposit R) :
  NoDup (dep_id <$> l) -> d ∈ l -> d' ∈ l -> dep_id d = dep_id d' -> d = d'.
Proof.
  induction l as [|x l IH]; simpl; intros Hnd Hd Hd' Hid.
  - apply elem_of_nil in Hd. contradiction.
  - apply NoDup_cons in Hnd as [Hx Hnd].
    apply elem_of_cons in Hd as [->|Hd]; apply elem_of_cons in Hd' as [->|Hd'].
    + reflexivity.
    + exfalso. apply Hx. rewrite Hid. apply list_elem_of_fmap_2. exact Hd'.
    + exfalso. apply Hx. rewrite <- Hid. apply list_elem_of_fmap_2. exact Hd.
    + auto.
Qed.

(** X17. One pass of the worker, no handler writing in between, on a
    deposits table with distinct ids; [now] is the clock reading behind
    the cutoff and [later] the readings that follow.  The rows selected
    are exactly those with status APPROVED, [payout_ts] 0 and
    [ts <= now - PAYOUT_SECONDS].  They are paid in order up to the first
    one whose amount is NULL, where the pass ends: [paid] are the rows
    before it.  Every paid row becomes PAID with, as [payout_ts], one of
    the readings, and every other row is as before.  The payout of a paid
    row is [round(amount * m, 6)] where [m] is the stored multiplier when
    it is a number, truthy and [> 0], and otherwise the current multiplier
    at one of the readings; every user's balance has received the payouts
    of their paid rows, in row order, and nothing else of the user
    changed; the withdrawals are untouched. *)
Theorem payout_sweep_spec (now : Z) (later : list Z) (s : db R) :
  NoDup (dep_id <$> deposits s) ->
  let cutoff := now - PAYOUT_SECONDS cfg in
  let rows := matured_rows cfg now s in
  let s' := payout_sweep cfg now later s in
  (forall d, d ∈ rows
             <-> d ∈ deposits s /\ dep_status d = APPROVED /\ dep_payout_ts d = 0
                 /\ dep_ts d <= cutoff)
  /\ exists paid rest,
       rows = paid ++ rest
       /\ Forall (fun d => is_null (dep_amount d) = false) paid
       /\ match rest with
          | [] => True
          | d :: _ => is_null (dep_amount d) = true
          end
       /\ Forall2 (fun d d' =>
                     (d ∈ paid
                      /\ exists t, t ∈ (now :: later)
                                   /\ d' = set_dep_payout_ts t (set_dep_status PAID d))
                     \/ ((d ∉ paid) /\ d' = d))
            (deposits s) (deposits s')
       /\ (exists ms,
             Forall2 (fun d m =>
                        if negb (is_null (dep_payout_mult d))
                           && truthy (dep_payout_mult d)
                           && rgtb (dep_payout_mult d) rzero
                        then m = dep_payout_mult d
                        else exists t, t ∈ (now :: later) /\ m = current_multiplier cfg t)
               paid ms
             /\ forall uid,
                  db_user uid s'
                  = (fun r => set_balance
                                (fold_left radd
                                   ((fun dm => round (rmul (dep_amount dm.1) dm.2) 6)
                                      <$> filter (fun dm => dep_user_id dm.1 = uid)
                                            (zip paid ms))
                                   (balance r)) r) <$> db_user uid s)
       /\ withdrawals s' = withdrawals s.
Proof.
  intros Hnd cutoff rows s'. subst s'. unfold payout_sweep. fold rows.
  assert (Hsel : forall d, d ∈ rows <-> d ∈ deposits s /\ matured cutoff d = true).
  { intros d. unfold rows, matured_rows. rewrite list_elem_of_filter. tauto. }
  split.
  { intros d. rewrite Hsel. unfold matured. split.
    - intros (Hin & Hm). apply andb_prop in Hm as [Hm Hcut].
      apply andb_prop in Hm as [Hst Hts].
      split; [exact Hin|]. split; [destruct (dep_status d); simpl in Hst; congruence|].
      split; lia.
    - intros (Hin & Hst & Hts & Hcut). split; [exact Hin|].
      rewrite Hst, Hts. simpl. lia. }
  destruct (pay_rows_prefix rows) as (paid & rest & E & Hnum & Hrest & Hrun).
  exists paid, rest. rewrite Hrun.
  destruct (pay_rows_spec (fun t => t ∈ now :: later) paid Hnum now later s)
    as (ms & Hms & Husers & Hdeps & Hwd).
  { apply list_elem_of_here. }
  { apply Forall_forall. intros t Ht. apply list_elem_of_further. exact Ht. }
  split; [exact E|]. split; [exact Hnum|]. split; [exact Hrest|].
  split; [|split; [exists ms; split; [exact Hms | exact Husers] | exact Hwd]].
  apply Forall2_same_length_lookup. split; [eapply Forall2_length; exact Hdeps|].
  intros i x y Hx Hy. pose proof (Forall2_lookup_lr _ _ _ _ _ _ Hdeps Hx Hy) as Hxy.
  cbv beta in Hxy.
  assert (Hin : x ∈ deposits s) by (eapply list_elem_of_lookup_2; exact Hx).
  assert (Hsub : forall d, d ∈ paid -> d ∈ deposits s).
  { intros d Hd. apply (Hsel d). rewrite E. apply elem_of_app. left. exact Hd. }
  destruct (bool_decide (dep_id x ∈ dep_id <$> paid)) eqn:Hb.
  - apply bool_decide_eq_true in Hb. left. split; [|exact Hxy].
    apply list_elem_of_fmap in Hb as (d & Hid & Hd).
    rewrite (same_id_same_row _ _ _ Hnd Hin (Hsub d Hd) Hid). exact Hd.
  - apply bool_decide_eq_false in Hb. right. split; [|exact Hxy].
    intros Hd. apply Hb. apply list_elem_of_fmap_2. exact Hd.
Qed.

End Sweep.

Section Sweep_blocked.
Context {R : Type} `{Real R}.
Variable cfg : config R.

(** X23. A pass of the worker whose first selected row has a NULL amount
    pays nothing: it raises at that row, before any write, and the store
    is left exactly as it was, the selected rows after it included. *)
Theorem payout_sweep_blocked (now : Z) (later : list Z) (s : db R)
    (d : deposit R) (rest : list (deposit R)) :
  matured_rows cfg now s = d :: rest ->
  is_null (dep_amount d) = true ->
  payout_sweep cfg now later s = s.
Proof.
  intros Hrows Hnull. unfold payout_sweep. rewrite Hrows. cbn [pay_rows].
  rewrite Hnull.
  destruct (usable_mult d); [|destruct (read_clock now later)]; reflexivity.
Qed.

End Sweep_blocked.

(** F's deposit of [nan], approved, is selected first in every pass from
    a day after its submission on.  B's $100 deposit behind it, approved
    and matured, is not paid: the pass changes nothing. *)
Lemma payout_sweep_blocked_witness :
  (fun d => (dep_id d, dep_status d, dep_payout_ts d))
    <$> matured_rows Scenario.cfg Blocked.sweep_time Blocked.approved
  = [(1, APPROVED, 0); (2, APPROVED, 0)]
  /\ Blocked.swept = Blocked.approved
  /\ balance <$> db_user Scenario.B Blocked.swept = Some 0%float.
Proof.
  assert (Hrows : exists d rest,
             matured_rows Scenario.cfg Blocked.sweep_time Blocked.approved = d :: rest
             /\ is_null (dep_amount d) = true).
  { eexists _, _. split; vm_compute; reflexivity. }
  destruct Hrows as (d & rest & Hrows & Hnull).
  pose proof (payout_sweep_blocked Scenario.cfg Blocked.sweep_time
                [Blocked.sweep_time + 1; Blocked.sweep_time + 2]
                Blocked.approved d rest Hrows Hnull) as Hsame.
  split; [vm_compute; reflexivity|].
  unfold Blocked.swept. rewrite Hsame.
  split; [reflexivity | vm_compute; reflexivity].
Defined.

(** The specification's scenario: a day after F's $100 deposit, approved
    at multiplier 4.0, the sweep credits F with $400 and marks the deposit
    PAID at the time of the sweep. *)
Lemma payout_sweep_spec_witness :
  NoDup (dep_id <$> deposits Scenario.approved)
  /\ balance <$> db_user Scenario.F Scenario.approved = Some 0%float
  /\ balance <$> db_user Scenario.F Maturation.swept = Some 400%float
  /\ (fun d => (dep_status d, dep_payout_ts d)) <$> deposits Maturation.swept
     = [(PAID, Maturation.sweep_time)].
Proof.
  pose (d := {| dep_id := 1; dep_user_id := Scenario.F; dep_amount := 100%float;
                dep_chain := "TRC20"; dep_txid := "txF";
                dep_ts := Scenario.T0 + 20 * Scenario.day;
                dep_status := APPROVED; dep_payout_mult := 4%float;
                dep_payout_ts := 0 |}).
  assert (Hnd : NoDup (dep_id <$> deposits Scenario.approved)).
  { vm_compute. apply NoDup_singleton. }
  assert (Hall : deposits Scenario.approved = [d]) by (vm_compute; reflexivity).
  assert (Hrows : matured_rows Scenario.cfg Maturation.sweep_time Scenario.approved = [d])
    by (vm_compute; reflexivity).
  destruct (payout_sweep_spec Scenario.cfg Maturation.sweep_time [] Scenario.approved Hnd)
    as (_ & paid & rest & E & Hnum & Hrest & Hdeps & (ms & Hms & Husers) & _).
  rewrite Hrows in E. rewrite Hall in Hdeps.
  unfold Maturation.swept.
  remember (payout_sweep Scenario.cfg Maturation.sweep_time [] Scenario.approved)
    as s' eqn:Hs'.
  clear Hs'.
  assert (Hpaid : paid = [d]).
  { destruct paid as [|p paid].
    - simpl in E. subst rest. vm_compute in Hrest. discriminate.
    - simpl in E. injection E as Hp Hnil. subst p.
      symmetry in Hnil. apply app_eq_nil in Hnil as [-> _]. reflexivity. }
  subst paid.
  split; [exact Hnd|]. split; [vm_compute; reflexivity|]. split.
  - apply Forall2_cons_inv_l in Hms as (m & ms' & Hm & Hnil & ->).
    apply Forall2_nil_inv_l in Hnil as ->.
    vm_compute in Hm. subst m.
    rewrite Husers. vm_compute. reflexivity.
  - apply Forall2_cons_inv_l in Hdeps as (d' & l' & Hd' & Hnil & ->).
    apply Forall2_nil_inv_l in Hnil as ->.
    destruct Hd' as [(_ & t & Ht & ->)|(Hnot & _)].
    + apply list_elem_of_singleton in Ht. subst t. reflexivity.
    + exfalso. apply Hnot. apply list_elem_of_here.
Defined.

(** ** What every update does to the two request tables *)

Section Table_shape.
Context {R : Type} `{Real R}.
Variable cfg : config R.

Lemma same_deposit_refl (d : deposit R) : same_deposit d d.
Proof. unfold same_deposit. auto 10. Qed.

Lemma same_withdrawal_refl (w : withdrawal R) : same_withdrawal w w.
Proof. unfold same_withdrawal. auto 10. Qed.

Lemma cmd_start_tables (user_id : Z) (name : string) (refcode : option Z) (s : db R) :
  let s' := (cmd_start cfg user_id name refcode s).1 in
  deposits s' = deposits s /\ deposits_seq s' = deposits_seq s
  /\ withdrawals s' = withdrawals s /\ withdrawals_seq s' = withdrawals_seq s.
Proof.
  unfold cmd_start, handle_new_ref_join, db_create_user.
  repeat match goal with
         | |- context [match ?x with _ => _ end] => destruct x
         end; simpl; auto.
Qed.

Lemma same_deposit_trans (a b c : deposit R) :
  same_deposit a b -> same_deposit b c -> same_deposit a c.
Proof. unfold same_deposit. intuition congruence. Qed.

(** What the worker's loop does to the tables: deposit rows keep their
    place and their submitted columns, a [payout_ts] that changes becomes
    one of the clock readings, and nothing is inserted anywhere. *)
Lemma pay_rows_tables (P : Z -> Prop) (rows : list (deposit R)) :
  forall (last : Z) (later : list Z) (s : db R),
  P last -> Forall P later ->
  exists f,
    deposits (pay_rows cfg last later rows s) = map f (deposits s)
    /\ (forall d, same_deposit d (f d))
    /\ (forall d, dep_payout_ts (f d) = dep_payout_ts d \/ P (dep_payout_ts (f d)))
    /\ deposits_seq (pay_rows cfg last later rows s) = deposits_seq s
    /\ withdrawals (pay_rows cfg last later rows s) = withdrawals s
    /\ withdrawals_seq (pay_rows cfg last later rows s) = withdrawals_seq s.
Proof.
  induction rows as [|d rows IH]; intros last later s Hlast Hlater.
  - exists (fun d => d). simpl. rewrite map_id.
    repeat split; auto using same_deposit_refl.
  - cbn [pay_rows].
    assert (Hm : exists t1 l1,
               (if usable_mult d then (last, later) else read_clock last later) = (t1, l1)
               /\ P t1 /\ Forall P l1).
    { destruct (usable_mult d).
      - exists last, later. auto.
      - destruct (read_clock last later) as [t1 l1] eqn:E.
        destruct (read_clock_in P _ _ _ _ E Hlast Hlater) as [H1 H2].
        exists t1, l1. auto. }
    destruct Hm as (t1 & l1 & -> & Ht1 & Hl1).
    destruct (is_null (dep_amount d)).
    { exists (fun d => d). rewrite map_id. repeat split; auto using same_deposit_refl. }
    destruct (read_clock t1 l1) as [t2 l2] eqn:E2.
    destruct (read_clock_in P _ _ _ _ E2 Ht1 Hl1) as [Ht2 Hl2].
    match goal with
    | |- context [pay_rows cfg t2 l2 rows ?s1] =>
        destruct (IH t2 l2 s1 Ht2 Hl2) as (f & E & Hf & Hts & Hseq & Hwd & Hwseq)
    end.
    exists (fun x => f (if dep_id x =? dep_id d then paid_at t2 x else x)).
    rewrite E, Hseq, Hwd, Hwseq.
    cbn [deposits db_mark_deposit_paid with_deposits db_add_balance with_users].
    unfold update_where. rewrite map_map.
    split; [reflexivity|]. split; [|split; [|auto]].
    + intros x. eapply same_deposit_trans; [|apply Hf].
      destruct (dep_id x =? dep_id d); [|apply same_deposit_refl].
      unfold same_deposit; simpl; auto 10.
    + intros x. destruct (Hts (if dep_id x =? dep_id d then paid_at t2 x else x))
        as [Ex|Hp]; [|right; exact Hp].
      rewrite Ex. destruct (dep_id x =? dep_id d); [right; exact Ht2 | left; reflexivity].
Qed.

Lemma handle_deposit_approved_tables (depid now : Z) (s : db R) :
  let s' := (handle_deposit_approved cfg depid now s).1 in
  deposits s'
  = update_where dep_id depid
      (fun d => set_dep_payout_mult (to_db (current_multiplier cfg now))
                  (set_dep_status APPROVED d)) (deposits s)
  /\ deposits_seq s' = deposits_seq s
  /\ withdrawals s' = withdrawals s /\ withdrawals_seq s' = withdrawals_seq s.
Proof.
  unfold handle_deposit_approved.
  destruct (db_get_deposit depid s) as [dep|] eqn:Hd.
  - repeat match goal with
           | |- context [match ?x with _ => _ end] => destruct x
           end; simpl; auto.
  - simpl. repeat split. unfold db_get_deposit, select_one in Hd.
    unfold update_where. rewrite <- (map_id (deposits s)) at 1.
    apply map_ext_in. intros d Hin.
    destruct (dep_id d =? depid) eqn:E; [|reflexivity].
    exfalso. eapply find_none in Hd; [|exact Hin]. simpl in Hd. congruence.
Qed.

(** The deposits table after an update: the old rows, each possibly with
    new status and payout columns, followed by at most one new row, which
    carries the next id. *)
Lemma handle_deposits (o : update R) (s : db R) :
  exists f new,
    deposits (handle cfg o s) = map f (deposits s) ++ new
    /\ (forall d, same_deposit d (f d))
    /\ (forall d, dep_payout_ts (f d) = dep_payout_ts d
                  \/ exists now later, o = WorkerSweep now later
                                       /\ dep_payout_ts (f d) ∈ now :: later)
    /\ (new = [] /\ deposits_seq (handle cfg o s) = deposits_seq s
        \/ exists row, new = [row] /\ dep_id row = deposits_seq s + 1
                       /\ dep_status row = PENDING /\ dep_payout_ts row = 0
                       /\ deposits_seq (handle cfg o s) = deposits_seq s + 1).
Proof.
  destruct o as [u n r|u a c t now|u addr now ud|data now|now later]; simpl.
  - exists (fun d => d), []. destruct (cmd_start_tables u n r s) as (-> & -> & _).
    rewrite map_id, app_nil_r. repeat split; auto using same_deposit_refl.
  - unfold cmd_deposit_short.
    destruct (negb (bool_decide (c ∈ DEPOSIT_CHAINS)));
      [|destruct (rltb a (MIN_DEPOSIT cfg))]; simpl.
    1,2: exists (fun d => d), []; rewrite map_id, app_nil_r;
         repeat split; auto using same_deposit_refl.
    eexists (fun d => d), [_]. rewrite map_id.
    split; [reflexivity|]. repeat split; auto using same_deposit_refl.
    right. eexists. repeat split.
  - exists (fun d => d), []. rewrite map_id, app_nil_r.
    unfold withdraw_address.
    destruct (ud_wd_amount ud), (ud_wd_network ud); simpl;
      repeat split; auto using same_deposit_refl.
  - destruct data as [depid|depid|reqid|reqid]; simpl.
    + destruct (db_get_deposit depid s) as [dep|] eqn:Hd.
      * pose proof (handle_deposit_approved_tables depid now s) as (Hdeps & Hseq & _).
        destruct (handle_deposit_approved cfg depid now s) as [s' [res|]]; simpl in *;
          (eexists _, []; rewrite app_nil_r; split; [exact Hdeps|];
           repeat split; try (destruct (dep_id d =? depid); reflexivity); auto;
           left; destruct (dep_id d =? depid); reflexivity).
      * exists (fun d => d), []. rewrite map_id, app_nil_r.
        repeat split; auto using same_deposit_refl.
    + destruct (db_get_deposit depid s) as [dep|] eqn:Hd; simpl.
      * eexists _, []. rewrite app_nil_r. split; [reflexivity|].
        repeat split; try (destruct (dep_id d =? depid); reflexivity); auto.
        left. destruct (dep_id d =? depid); reflexivity.
      * exists (fun d => d), []. rewrite map_id, app_nil_r.
        repeat split; auto using same_deposit_refl.
    + exists (fun d => d), []. rewrite map_id, app_nil_r.
      repeat match goal with
             | |- context [match ?x with _ => _ end] => destruct x
             end; simpl; repeat split; auto using same_deposit_refl.
    + exists (fun d => d), []. rewrite map_id, app_nil_r.
      repeat match goal with
             | |- context [match ?x with _ => _ end] => destruct x
             end; simpl; repeat split; auto using same_deposit_refl.
  - unfold payout_sweep.
    destruct (pay_rows_tables (fun t => t ∈ now :: later) (matured_rows cfg now s)
                now later s) as (f & E & Hf & Hts & Hseq & _).
    { apply list_elem_of_here. }
    { apply Forall_forall. intros t Ht. apply list_elem_of_further. exact Ht. }
    exists f, []. rewrite app_nil_r. split; [exact E|]. split; [exact Hf|]. split.
    + intros d. destruct (Hts d) as [Ex|Hin]; [left; exact Ex|].
      right. exists now, later. split; [reflexivity | exact Hin].
    + left. split; [reflexivity | exact Hseq].
Qed.

End Table_shape.

Section Withdrawal_shape.
Context {R : Type} `{Real R}.
Variable cfg : config R.

(** The withdrawals table after an update: the old rows, one of them
    possibly with a new status, followed by at most one new PENDING row,
    which carries the next id. *)
Lemma handle_withdrawals (o : update R) (s : db R) :
  exists f new,
    withdrawals (handle cfg o s) = map f (withdrawals s) ++ new
    /\ (forall w, same_withdrawal w (f w))
    /\ (new = [] /\ withdrawals_seq (handle cfg o s) = withdrawals_seq s
        \/ exists row, new = [row] /\ wd_id row = withdrawals_seq s + 1
                       /\ wd_status row = PENDING
                       /\ withdrawals_seq (handle cfg o s) = withdrawals_seq s + 1).
Proof.
  destruct o as [u n r|u a c t now|u addr now ud|data now|now later]; simpl.
  - exists (fun w => w), []. destruct (cmd_start_tables cfg u n r s) as (_ & _ & -> & ->).
    rewrite map_id, app_nil_r. repeat split; auto using same_withdrawal_refl.
  - exists (fun w => w), []. rewrite map_id, app_nil_r. unfold cmd_deposit_short.
    destruct (negb (bool_decide (c ∈ DEPOSIT_CHAINS)));
      [|destruct (rltb a (MIN_DEPOSIT cfg))]; simpl;
      repeat split; auto using same_withdrawal_refl.
  - unfold withdraw_address.
    destruct (ud_wd_amount ud) as [amount|], (ud_wd_network ud) as [net|]; simpl.
    2,3,4: exists (fun w => w), []; rewrite map_id, app_nil_r;
           repeat split; auto using same_withdrawal_refl.
    eexists (fun w => w), [_]. rewrite map_id.
    split; [reflexivity|]. split; [auto using same_withdrawal_refl|].
    right. eexists. repeat split.
  - destruct data as [depid|depid|reqid|reqid]; simpl.
    + exists (fun w => w), []. rewrite map_id, app_nil_r.
      destruct (db_get_deposit depid s) as [dep|] eqn:Hd.
      * pose proof (handle_deposit_approved_tables cfg depid now s) as (_ & _ & Hw & Hseq).
        destruct (handle_deposit_approved cfg depid now s) as [s' [res|]]; simpl in *;
          rewrite Hw, Hseq; repeat split; auto using same_withdrawal_refl.
      * repeat split; auto using same_withdrawal_refl.
    + exists (fun w => w), []. rewrite map_id, app_nil_r.
      destruct (db_get_deposit depid s); simpl;
        repeat split; auto using same_withdrawal_refl.
    + destruct (select_one wd_id reqid (withdrawals s)) as [row|]; simpl.
      * destruct (balance <$> users s !! wd_user_id row) as [bal|]; simpl;
          [destruct (is_null bal || is_null (wd_amount row)); simpl;
           [|destruct (rltb bal (wd_amount row)); simpl]|].
        3: { eexists _, []. rewrite app_nil_r. split; [reflexivity|].
             split; [|auto]. intros w. cbv beta.
             destruct (wd_id w =? reqid); [|apply same_withdrawal_refl].
             unfold same_withdrawal; simpl; auto 10. }
        all: exists (fun w => w), []; rewrite map_id, app_nil_r;
             repeat split; auto using same_withdrawal_refl.
      * exists (fun w => w), []. rewrite map_id, app_nil_r.
        repeat split; auto using same_withdrawal_refl.
    + destruct (select_one wd_id reqid (withdrawals s)) as [row|]; simpl.
      * eexists _, []. rewrite app_nil_r. split; [reflexivity|].
        split; [|auto]. intros w. cbv beta.
        destruct (wd_id w =? reqid); [|apply same_withdrawal_refl].
        unfold same_withdrawal; simpl; auto 10.
      * exists (fun w => w), []. rewrite map_id, app_nil_r.
        repeat split; auto using same_withdrawal_refl.
  - exists (fun w => w), []. rewrite map_id, app_nil_r. unfold payout_sweep.
    destruct (pay_rows_tables cfg (fun _ => True) (matured_rows cfg now s) now later s)
      as (f & _ & _ & _ & _ & -> & ->); [exact I | apply Forall_forall; auto |].
    repeat split; auto using same_withdrawal_refl.
Qed.

End Withdrawal_shape.

(** ** Invariants of the request tables *)

Section Table_invariants.
Context {R : Type} `{Real R}.
Variable cfg : config R.

Lemma fmap_same_key {A} (key : A -> Z) (f : A -> A) (l : list A) :
  (forall r, key (f r) = key r) -> key <$> map f l = key <$> l.
Proof.
  intros Hf. induction l as [|x l IH]; simpl; [reflexivity|].
  rewrite Hf. f_equal. exact IH.
Qed.

(** Appending the next id to a table in good order keeps it in good order. *)
Lemma ids_extend (ids new : list Z) (n n' : Z) :
  NoDup ids -> Forall (fun i => i <= n) ids ->
  (new = [] /\ n' = n \/ new = [n + 1] /\ n' = n + 1) ->
  NoDup (ids ++ new) /\ Forall (fun i => i <= n') (ids ++ new).
Proof.
  intros Hnd Hle [[-> ->]|[-> ->]].
  - rewrite app_nil_r. auto.
  - split.
    + apply NoDup_app. split; [exact Hnd|]. split; [|apply NoDup_singleton].
      intros i Hi Hi'. apply list_elem_of_singleton in Hi'. subst i.
      rewrite Forall_forall in Hle. specialize (Hle _ Hi). lia.
    + apply Forall_app. split.
      * eapply Forall_impl; [exact Hle|]. intros i Hi. simpl in Hi. lia.
      * apply Forall_singleton. lia.
Qed.

Lemma handle_wf (o : update R) (s : db R) : wf s -> wf (handle cfg o s).
Proof.
  intros (Hd & Hdle & Hw & Hwle).
  destruct (handle_deposits cfg o s) as (f & new & Ed & Hf & _ & Hnew).
  destruct (handle_withdrawals cfg o s) as (g & wnew & Ew & Hg & Hwnew).
  unfold wf. rewrite Ed, Ew, !fmap_app.
  rewrite (fmap_same_key dep_id f) by (intros d; apply Hf).
  rewrite (fmap_same_key wd_id g) by (intros w; apply Hg).
  assert (Hn : dep_id <$> new = [] /\ deposits_seq (handle cfg o s) = deposits_seq s
               \/ dep_id <$> new = [deposits_seq s + 1]
                  /\ deposits_seq (handle cfg o s) = deposits_seq s + 1).
  { destruct Hnew as [[-> E]|(row & -> & Eid & _ & _ & E)]; [left|right]; simpl;
      rewrite ?Eid; auto. }
  assert (Hm : wd_id <$> wnew = [] /\ withdrawals_seq (handle cfg o s) = withdrawals_seq s
               \/ wd_id <$> wnew = [withdrawals_seq s + 1]
                  /\ withdrawals_seq (handle cfg o s) = withdrawals_seq s + 1).
  { destruct Hwnew as [[-> E]|(row & -> & Eid & _ & E)]; [left|right]; simpl;
      rewrite ?Eid; auto. }
  destruct (ids_extend _ _ _ _ Hd Hdle Hn) as [? ?].
  destruct (ids_extend _ _ _ _ Hw Hwle Hm) as [? ?]. auto.
Qed.

Lemma wf_empty_db : wf (empty_db : db R).
Proof. unfold wf, empty_db; simpl. repeat split; constructor. Qed.

Lemma run_preserves_wf (ops : list (update R)) (s : db R) :
  wf s -> wf (run cfg ops s).
Proof.
  revert s. induction ops as [|o ops IH]; intros s Hs; simpl; [exact Hs|].
  apply IH. apply handle_wf. exact Hs.
Qed.

(** X1. The ids of the two AUTOINCREMENT tables stay distinct and bounded
    by the last id handed out, through every sequence of updates; the
    empty database starts that way. *)
Theorem run_wf (ops : list (update R)) (s : db R) :
  wf (empty_db : db R) /\ (wf s -> wf (run cfg ops s)).
Proof. split; [apply wf_empty_db | apply run_preserves_wf]. Qed.

End Table_invariants.

(** After the scenario's nine updates the deposit ids are distinct. *)
Lemma run_wf_witness : wf History.final /\ deposits_seq History.final = 1.
Proof.
  destruct (run_wf Scenario.cfg History.updates empty_db) as [Hempty Hrun].
  split; [exact (Hrun Hempty)|]. vm_compute. reflexivity.
Defined.

(** ** Deposits are only ever added to, and paid once *)

Section Deposit_history.
Context {R : Type} `{Real R}.
Variable cfg : config R.

Lemma Forall2_map_self {A} (Rel : A -> A -> Prop) (f : A -> A) (l : list A) :
  (forall x, Rel x (f x)) -> Forall2 Rel l (map f l).
Proof. intros Hf. induction l; simpl; constructor; auto. Qed.

Lemma keeps_paid_trans (a b c : deposit R) :
  keeps_paid a b -> keeps_paid b c -> keeps_paid a c.
Proof.
  intros [Hab Pab] [Hbc Pbc]. split; [eapply same_deposit_trans; eauto|auto].
Qed.

(** A relation that every update establishes between each old row and the
    row in its place holds between the rows of a store and the first rows
    of the store any sequence of updates leads to. *)
Lemma run_deposits_related (P : update R -> Prop) (Rel : deposit R -> deposit R -> Prop) :
  (forall d, Rel d d) ->
  (forall a b c, Rel a b -> Rel b c -> Rel a c) ->
  (forall o s, P o ->
     exists l new, deposits (handle cfg o s) = l ++ new
                   /\ Forall2 Rel (deposits s) l) ->
  forall ops s, Forall P ops ->
    exists l new, deposits (run cfg ops s) = l ++ new /\ Forall2 Rel (deposits s) l.
Proof.
  intros Hrefl Htrans Hstep ops. induction ops as [|o ops IH]; intros s Hops; simpl.
  - exists (deposits s), []. rewrite app_nil_r. split; [reflexivity|].
    apply Forall2_same_length_lookup_2; [reflexivity|].
    intros i x y Hx Hy. rewrite Hx in Hy. injection Hy as <-. apply Hrefl.
  - apply Forall_cons in Hops as [Ho Hops].
    destruct (Hstep o s Ho) as (l1 & new1 & E1 & R1).
    destruct (IH (handle cfg o s) Hops) as (l2 & new2 & E2 & R2).
    rewrite E1 in R2. apply Forall2_app_inv_l in R2 as (l2a & l2b & Ra & Rb & ->).
    exists l2a, (l2b ++ new2). rewrite E2, app_assoc. split; [reflexivity|].
    clear - Htrans R1 Ra. revert l2a Ra.
    induction R1 as [|x y l l' Hxy R1 IH]; intros l2a Ra.
    + apply Forall2_nil_inv_l in Ra as ->. constructor.
    + apply Forall2_cons_inv_l in Ra as (z & l2' & Hyz & Ra & ->).
      constructor; [eapply Htrans; eauto | apply IH; exact Ra].
Qed.

(** X2. No sequence of updates deletes or reorders deposit rows, or changes
    the id, owner, amount, chain, txid or submission time of one: the
    table afterwards is the old rows, in order and with those columns as
    they were, followed by the rows added since. *)
Theorem run_deposits_only_grow (ops : list (update R)) (s : db R) :
  exists l new,
    deposits (run cfg ops s) = l ++ new /\ Forall2 same_deposit (deposits s) l.
Proof.
  apply (run_deposits_related (fun _ => True)).
  - apply same_deposit_refl.
  - apply same_deposit_trans.
  - intros o s' _. destruct (handle_deposits cfg o s') as (f & new & E & Hf & _).
    exists (map f (deposits s')), new. split; [exact E|].
    apply Forall2_map_self. exact Hf.
  - apply Forall_forall. trivial.
Qed.

Lemma sweep_times_nonzero (ops : list (update R)) :
  Forall (fun t => t <> 0) (sweep_times ops) ->
  Forall (fun o => forall now later,
                     o = WorkerSweep now later -> Forall (fun t => t <> 0) (now :: later))
    ops.
Proof.
  unfold sweep_times.
  induction ops as [|o ops IH]; intros Hall; [constructor|].
  rewrite bind_cons in Hall. apply Forall_app in Hall as [Ho Hall].
  constructor; [|apply IH; exact Hall].
  intros now later ->. exact Ho.
Qed.

(** X3. A deposit that has been paid ([payout_ts] not 0) is never selected
    by the worker again, whatever updates follow (re-approvals by the admin
    included), provided the worker's clock never reads 0: its [payout_ts]
    stays non-zero, and the worker's SELECT asks for [payout_ts = 0]. *)
Theorem paid_deposit_stays_paid (ops : list (update R)) (s : db R) (d d' : deposit R) :
  wf s ->
  d ∈ deposits s ->
  dep_payout_ts d <> 0 ->
  Forall (fun t => t <> 0) (sweep_times ops) ->
  d' ∈ deposits (run cfg ops s) ->
  dep_id d' = dep_id d ->
  same_deposit d d' /\ dep_payout_ts d' <> 0
  /\ forall now, d' ∉ matured_rows cfg now (run cfg ops s).
Proof.
  intros Hwf Hd Hpaid Hops Hd' Hid.
  destruct (run_deposits_related
              (fun o => forall now later,
                          o = WorkerSweep now later ->
                          Forall (fun t => t <> 0) (now :: later)) keeps_paid)
    with (ops := ops) (s := s) as (l & new & E & Hrel).
  - intros x. split; [apply same_deposit_refl|auto].
  - apply keeps_paid_trans.
  - intros o s' Ho. destruct (handle_deposits cfg o s') as (f & new & E & Hf & Hts & _).
    exists (map f (deposits s')), new. split; [exact E|].
    apply Forall2_map_self. intros x. split; [apply Hf|].
    intros Hx. destruct (Hts x) as [->|(now & later & -> & Hin)]; [exact Hx|].
    specialize (Ho now later eq_refl). rewrite Forall_forall in Ho.
    apply Ho. exact Hin.
  - apply sweep_times_nonzero. exact Hops.
  - apply list_elem_of_lookup in Hd as [i Hi].
    destruct (Forall2_lookup_l _ _ _ _ _ Hrel Hi) as (d1 & Hd1 & [Hsame Hkeep]).
    assert (Hin1 : d1 ∈ deposits (run cfg ops s)).
    { rewrite E. apply elem_of_app. left. eapply list_elem_of_lookup_2. exact Hd1. }
    destruct (run_preserves_wf cfg ops s Hwf) as (Hnd & _).
    assert (d' = d1).
    { apply (same_id_same_row _ _ _ Hnd Hd' Hin1).
      destruct Hsame as [-> _]. exact Hid. }
    subst d1. split; [exact Hsame|]. split; [auto|].
    intros now Hm. unfold matured_rows in Hm. apply list_elem_of_filter in Hm as [Hm _].
    unfold matured in Hm. apply andb_prop in Hm as [Hm _].
    apply andb_prop in Hm as [_ Hm]. apply Z.eqb_eq in Hm.
    exact (Hkeep Hpaid Hm).
Qed.

End Deposit_history.

(** F's deposit, paid by the first sweep, is approved once more and the
    worker sweeps again: the row keeps its [payout_ts], the second sweep
    selects nothing, and F's balance is still the $400 of the one payout. *)
Lemma paid_deposit_stays_paid_witness :
  (fun d => (dep_status d, dep_payout_ts d)) <$> deposits History.final
  = [(PAID, Maturation.sweep_time)]
  /\ (fun d => (dep_status d, dep_payout_ts d)) <$> deposits Afterwards.final
     = [(APPROVED, Maturation.sweep_time)]
  /\ (forall now, matured_rows Scenario.cfg now Afterwards.final = [])
  /\ balance <$> db_user Scenario.F Afterwards.final = Some 400%float.
Proof.
  pose (d := {| dep_id := 1; dep_user_id := Scenario.F; dep_amount := 100%float;
                dep_chain := "TRC20"; dep_txid := "txF";
                dep_ts := Scenario.T0 + 20 * Scenario.day;
                dep_status := PAID; dep_payout_mult := 4%float;
                dep_payout_ts := Maturation.sweep_time |}).
  pose (d' := set_dep_payout_mult 3.95%float (set_dep_status APPROVED d)).
  assert (Hfinal : deposits History.final = [d]) by (vm_compute; reflexivity).
  assert (Hafter : deposits Afterwards.final = [d']) by (vm_compute; reflexivity).
  assert (Hwf : wf History.final).
  { apply run_preserves_wf. apply wf_empty_db. }
  assert (Erun : run Scenario.cfg Afterwards.updates History.final = Afterwards.final)
    by (unfold Afterwards.final; reflexivity).
  destruct (paid_deposit_stays_paid Scenario.cfg Afterwards.updates History.final d d')
    as (_ & _ & Hnever).
  - exact Hwf.
  - rewrite Hfinal. apply list_elem_of_here.
  - vm_compute. discriminate.
  - vm_compute. repeat constructor. discriminate.
  - rewrite Erun, Hafter. apply list_elem_of_here.
  - reflexivity.
  - rewrite Erun in Hnever.
    split; [rewrite Hfinal; reflexivity|]. split; [rewrite Hafter; reflexivity|].
    split; [|vm_compute; reflexivity].
    intros now. unfold matured_rows. rewrite Hafter, filter_cons, filter_nil.
    destruct (decide (matured (now - PAYOUT_SECONDS Scenario.cfg) d' = true)) as [Hm|];
      [|reflexivity].
    exfalso. apply (Hnever now). unfold matured_rows.
    rewrite Hafter, filter_cons, filter_nil.
    rewrite decide_True by exact Hm. apply list_elem_of_here.
Defined.

(** ** What no update undoes in the users table *)

Section User_history.
Context {R : Type} `{Real R}.
Variable cfg : config R.

Lemma user_kept_refl (u : user R) : user_kept u u.
Proof. unfold user_kept. repeat split; auto; lia. Qed.

Lemma user_kept_trans (a b c : user R) :
  user_kept a b -> user_kept b c -> user_kept a c.
Proof.
  unfold user_kept. intros (E1 & D1 & C1 & N1 & T1) (E2 & D2 & C2 & N2 & T2).
  repeat split; auto; try congruence; lia.
Qed.

Lemma users_kept_refl (m : gmap Z (user R)) : users_kept m m.
Proof. intros v u Hv. exists u. split; [exact Hv|apply user_kept_refl]. Qed.

Lemma users_kept_trans (m1 m2 m3 : gmap Z (user R)) :
  users_kept m1 m2 -> users_kept m2 m3 -> users_kept m1 m3.
Proof.
  intros H12 H23 v u Hv. destruct (H12 v u Hv) as (u2 & Hv2 & K2).
  destruct (H23 v u2 Hv2) as (u3 & Hv3 & K3).
  exists u3. split; [exact Hv3|eapply user_kept_trans; eauto].
Qed.

Lemma users_kept_alter (f : user R -> user R) (k : Z) (m m' : gmap Z (user R)) :
  (forall u, user_kept u (f u)) -> users_kept m m' -> users_kept m (alter f k m').
Proof.
  intros Hf Hm v u Hv. destruct (Hm v u Hv) as (u' & Hv' & K).
  rewrite lookup_alter_at. destruct (decide (k = v)) as [->|_].
  - rewrite Hv'. eexists. split; [reflexivity|].
    eapply user_kept_trans; [exact K|apply Hf].
  - eauto.
Qed.

Lemma users_kept_insert (k : Z) (x : user R) (m : gmap Z (user R)) :
  m !! k = None -> users_kept m (<[k := x]> m).
Proof.
  intros Hk v u Hv. exists u. split; [|apply user_kept_refl].
  rewrite lookup_insert_ne; [exact Hv|]. intros ->. congruence.
Qed.

(** Discharges [users_kept] for a store written by the [db_*] helpers. *)
Ltac users_kept_step :=
  repeat first
    [ apply users_kept_refl
    | apply users_kept_insert; assumption
    | apply users_kept_alter;
      [ intros ?; unfold user_kept; simpl; repeat split; auto; lia | ] ].

Lemma handle_new_ref_join_kept (referrer_id new_user_id : Z) (s : db R) :
  users_kept (users s) (users (handle_new_ref_join cfg referrer_id new_user_id s).1).
Proof.
  unfold handle_new_ref_join.
  destruct (db_user referrer_id s) as [ref|]; [|apply users_kept_refl].
  destruct (db_user new_user_id s) as [newu|]; [|apply users_kept_refl].
  destruct ((counted_referrals ref <? 3) && negb (counted_for_referrer newu));
    simpl; users_kept_step.
Qed.

Lemma cmd_start_kept (user_id : Z) (name : string) (refcode : option Z) (s : db R) :
  users_kept (users s) (users (cmd_start cfg user_id name refcode s).1).
Proof.
  unfold cmd_start.
  assert (Hc : users_kept (users s)
                 (users (db_update_username user_id name
                           (db_create_user user_id name refcode s)))).
  { unfold db_update_username, db_create_user.
    destruct (users s !! user_id) eqn:Hu; destruct (truthy_id refcode);
      simpl; users_kept_step. }
  destruct (truthy_id refcode) as [r|]; [|exact Hc].
  eapply users_kept_trans; [exact Hc|apply handle_new_ref_join_kept].
Qed.

Lemma handle_deposit_approved_kept (depid now : Z) (s : db R) :
  users_kept (users s) (users (handle_deposit_approved cfg depid now s).1).
Proof.
  unfold handle_deposit_approved.
  destruct (db_get_deposit depid s) as [dep|]; [|apply users_kept_refl].
  cbv zeta.
  destruct (db_user _ _) as [u|]; [destruct (truthy_id (referred_by u)) as [ref|];
    [destruct (counted_for_referrer u); destruct (is_null (dep_amount dep))|]|];
    simpl; users_kept_step.
Qed.

Lemma pay_rows_kept (rows : list (deposit R)) :
  forall (last : Z) (later : list Z) (s : db R),
  users_kept (users s) (users (pay_rows cfg last later rows s)).
Proof.
  induction rows as [|d rows IH]; intros last later s; [apply users_kept_refl|].
  cbn [pay_rows].
  destruct (if usable_mult d then (last, later) else read_clock last later) as [t1 l1].
  destruct (is_null (dep_amount d)); [apply users_kept_refl|].
  destruct (read_clock t1 l1) as [t2 l2].
  eapply users_kept_trans; [|apply IH]. simpl. users_kept_step.
Qed.

Lemma handle_kept (o : update R) (s : db R) :
  users_kept (users s) (users (handle cfg o s)).
Proof.
  destruct o as [u n r|u a c t now|u addr now ud|data now|now later]; simpl.
  - apply cmd_start_kept.
  - unfold cmd_deposit_short.
    destruct (negb (bool_decide (c ∈ DEPOSIT_CHAINS)));
      [|destruct (rltb a (MIN_DEPOSIT cfg))]; simpl; apply users_kept_refl.
  - unfold withdraw_address.
    destruct (ud_wd_amount ud), (ud_wd_network ud); simpl; apply users_kept_refl.
  - destruct data as [depid|depid|reqid|reqid]; simpl.
    + destruct (db_get_deposit depid s) as [dep|]; [|apply users_kept_refl].
      pose proof (handle_deposit_approved_kept depid now s) as Hk.
      destruct (handle_deposit_approved cfg depid now s) as [s' []]; exact Hk.
    + destruct (db_get_deposit depid s); simpl; apply users_kept_refl.
    + destruct (select_one wd_id reqid (withdrawals s)) as [row|];
        [|apply users_kept_refl].
      destruct (balance <$> users s !! wd_user_id row) as [bal|];
        [destruct (is_null bal || is_null (wd_amount row));
         [|destruct (rltb bal (wd_amount row))]|]; simpl; users_kept_step.
    + destruct (select_one wd_id reqid (withdrawals s)); simpl; apply users_kept_refl.
  - apply pay_rows_kept.
Qed.

(** X4. Through every sequence of updates a registered user stays
    registered and keeps the referrer recorded at registration; the
    [has_deposited] and [counted_for_referrer] flags, once set, stay set;
    and [counted_referrals] and [total_referrals] never decrease. *)
Theorem run_keeps_users (ops : list (update R)) (s : db R) (v : Z) (u : user R) :
  db_user v s = Some u ->
  exists u', db_user v (run cfg ops s) = Some u' /\ user_kept u u'.
Proof.
  revert s u. induction ops as [|o ops IH]; intros s u Hv; simpl.
  - exists u. split; [exact Hv|apply user_kept_refl].
  - destruct (handle_kept o s v u Hv) as (u1 & Hv1 & K1).
    destruct (IH (handle cfg o s) u1 Hv1) as (u2 & Hv2 & K2).
    exists u2. split; [exact Hv2|eapply user_kept_trans; eauto].
Qed.

End User_history.

(** In the scenario, A is still registered at the end, still without a
    referrer, and has not lost a counted referral. *)
Lemma run_keeps_users_witness :
  exists u', db_user Scenario.A History.final = Some u'
             /\ referred_by u' = None /\ 3 <= counted_referrals u'.
Proof.
  pose (u := {| username := "A"; balance := 3%float; referred_by := None;
                counted_for_referrer := false; counted_referrals := 3;
                total_referrals := 5; has_deposited := false |}).
  pose (ops := [ DepositCmd Scenario.F 100%float "TRC20" "txF"
                   (Scenario.T0 + 20 * Scenario.day);
                 AdminCallback (approve_deposit 1)
                   (Scenario.T0 + 20 * Scenario.day + 3600);
                 WorkerSweep Maturation.sweep_time [] ] : list (update float)).
  assert (Hu : db_user Scenario.A Scenario.registered = Some u)
    by (vm_compute; reflexivity).
  assert (Erun : run Scenario.cfg ops Scenario.registered = History.final)
    by (vm_compute; reflexivity).
  destruct (run_keeps_users Scenario.cfg ops Scenario.registered Scenario.A u Hu)
    as (u' & Hu' & Href & _ & _ & Hcnt & _).
  rewrite Erun in Hu'. exists u'. split; [exact Hu'|]. split; [exact Href|exact Hcnt].
Defined.

(** ** Joins alone count at most three referrals *)

Section Join_cap.
Context {R : Type} `{Real R}.
Variable cfg : config R.

Lemma capped_alter_same (f : user R -> user R) (k : Z) (m : gmap Z (user R)) :
  (forall u, counted_referrals (f u) = counted_referrals u) ->
  capped m -> capped (alter f k m).
Proof.
  intros Hf Hm v u. rewrite lookup_alter_at.
  destruct (decide (k = v)) as [->|_]; [|apply Hm].
  destruct (m !! v) as [u0|] eqn:Hv; simpl; [|discriminate].
  intros [= <-]. rewrite Hf. eapply Hm. exact Hv.
Qed.

Lemma capped_insert (k : Z) (x : user R) (m : gmap Z (user R)) :
  counted_referrals x <= 3 -> capped m -> capped (<[k := x]> m).
Proof.
  intros Hx Hm v u. rewrite lookup_insert.
  destruct (decide (k = v)) as [->|_]; [|apply Hm]. intros [= <-]. exact Hx.
Qed.

Lemma handle_new_ref_join_capped (referrer_id new_user_id : Z) (s : db R) :
  capped (users s) ->
  capped (users (handle_new_ref_join cfg referrer_id new_user_id s).1).
Proof.
  intros Hs. unfold handle_new_ref_join.
  destruct (db_user referrer_id s) as [ref|] eqn:Href; [|exact Hs].
  destruct (db_user new_user_id s) as [newu|] eqn:Hnew; [|exact Hs].
  destruct ((counted_referrals ref <? 3) && negb (counted_for_referrer newu)) eqn:Hg;
    [|exact Hs].
  apply andb_prop in Hg as [Hlt _]. apply Z.ltb_lt in Hlt.
  cbn [fst]. unfold db_add_balance; cbn [users with_users].
  apply capped_alter_same; [reflexivity|].
  unfold db_inc_counted_referrals, db_set_counted_for_referrer; cbn [users with_users].
  intros v u. rewrite lookup_alter_at.
  destruct (decide (referrer_id = v)) as [->|_].
  - rewrite lookup_alter_at. unfold db_user in Href.
    destruct (decide (new_user_id = v)) as [->|_]; rewrite Href; simpl;
      intros [= <-]; simpl; lia.
  - apply capped_alter_same; [reflexivity|exact Hs].
Qed.

Lemma cmd_start_capped (user_id : Z) (name : string) (refcode : option Z) (s : db R) :
  capped (users s) -> capped (users (cmd_start cfg user_id name refcode s).1).
Proof.
  intros Hs. unfold cmd_start.
  assert (Hc : capped (users (db_update_username user_id name
                                (db_create_user user_id name refcode s)))).
  { unfold db_update_username, db_create_user.
    destruct (users s !! user_id) eqn:Hu; destruct (truthy_id refcode);
      cbn [users with_users];
      repeat first [ exact Hs
                   | apply capped_alter_same; [reflexivity|]
                   | apply capped_insert; [simpl; lia|] ]. }
  destruct (truthy_id refcode) as [r|]; [|exact Hc].
  apply handle_new_ref_join_capped. exact Hc.
Qed.

(** X5. The immediate counting at [/start] stops at three: from a store in
    which nobody has more than three counted referrals (the empty
    database, say), no sequence of [/start] updates gives anybody a fourth. *)
Theorem starts_count_at_most_three (ops : list (update R)) (s : db R) :
  Forall (fun o => exists user_id name refcode, o = Start user_id name refcode) ops ->
  capped (users s) ->
  capped (users (run cfg ops s)).
Proof.
  revert s. induction ops as [|o ops IH]; intros s Hops Hs; simpl; [exact Hs|].
  apply Forall_cons in Hops as [(u & n & r & ->) Hops].
  apply IH; [exact Hops|]. simpl. apply cmd_start_capped. exact Hs.
Qed.

End Join_cap.

(** Five users open the bot with A's code: A has three counted
    referrals, not five. *)
Lemma starts_count_at_most_three_witness :
  counted_referrals <$> db_user Scenario.A Scenario.registered = Some 3
  /\ total_referrals <$> db_user Scenario.A Scenario.registered = Some 5
  /\ forall v u, db_user v Scenario.registered = Some u -> counted_referrals u <= 3.
Proof.
  split; [vm_compute; reflexivity|]. split; [vm_compute; reflexivity|].
  pose (ops := [ Start Scenario.A "A" None;
                 Start Scenario.B "B" (Some Scenario.A);
                 Start Scenario.C "C" (Some Scenario.A);
                 Start Scenario.D "D" (Some Scenario.A);
                 Start Scenario.E "E" (Some Scenario.A);
                 Start Scenario.F "F" (Some Scenario.A) ] : list (update float)).
  assert (Erun : run Scenario.cfg ops empty_db = Scenario.registered)
    by (vm_compute; reflexivity).
  rewrite <- Erun.
  apply (starts_count_at_most_three Scenario.cfg ops empty_db).
  - subst ops. repeat (constructor; [eauto|]). constructor.
  - intros v u Hv. unfold empty_db in Hv. simpl in Hv.
    rewrite lookup_empty in Hv. discriminate.
Defined.

(** ** Registration *)

Section Registration.
Context {R : Type} `{Real R}.
Variable cfg : config R.

(** The row [/start] leaves for the caller before the referral is looked
    at: the existing row under the new name, or a fresh row. *)
Lemma db_user_after_create (user_id : Z) (name : string) (refcode : option Z)
    (s : db R) (v : Z) :
  db_user v (db_update_username user_id name (db_create_user user_id name refcode s))
  = let base := if decide (user_id = v)
                then Some (match db_user v s with
                           | Some u => set_username name u
                           | None => new_user name refcode
                           end)
                else db_user v s in
    match truthy_id refcode with
    | Some r =>
        if decide (r = v)
        then (fun u => set_total_referrals (total_referrals u + 1) u) <$> base
        else base
    | None => base
    end.
Proof.
  unfold db_update_username, db_create_user, db_user. cbv zeta.
  destruct (truthy_id refcode) as [r|]; cbn [users with_users];
    rewrite ?lookup_alter_at;
    destruct (users s !! user_id) as [u0|] eqn:Hu;
    repeat (rewrite ?lookup_alter_at, ?lookup_insert; case_decide; subst);
    rewrite ?lookup_alter_at, ?lookup_insert, ?Hu; simpl;
    repeat (case_decide; try congruence); rewrite ?Hu; try reflexivity;
    destruct (users s !! v); reflexivity.
Qed.

(** X6. [/start <code>] by a user other than the code's owner, the owner
    being registered.  The caller's [referred_by] becomes the code only if
    the caller is new: an existing row keeps the referrer it had.  The
    owner's [total_referrals] grows by one either way.  The join is counted
    (caller marked, owner's [counted_referrals] and balance credited) when
    the owner has fewer than three counted referrals and the caller is not
    counted yet, and queued otherwise, whether or not the owner is the
    caller's recorded referrer. *)
Theorem cmd_start_with_code (user_id r : Z) (name : string) (s : db R) (owner : user R) :
  r <> 0 -> r <> user_id ->
  db_user r s = Some owner ->
  let s' := (cmd_start cfg user_id name (Some r) s).1 in
  let res := (cmd_start cfg user_id name (Some r) s).2 in
  let was_counted := match db_user user_id s with
                     | Some u => counted_for_referrer u
                     | None => false
                     end in
  referred_by <$> db_user user_id s'
  = Some (match db_user user_id s with
          | Some u => referred_by u
          | None => Some r
          end)
  /\ total_referrals <$> db_user r s' = Some (total_referrals owner + 1)
  /\ if (counted_referrals owner <? 3) && negb was_counted then
       res = Some (Counted (REF_BONUS_JOIN cfg))
       /\ counted_for_referrer <$> db_user user_id s' = Some true
       /\ counted_referrals <$> db_user r s' = Some (counted_referrals owner + 1)
       /\ balance <$> db_user r s' = Some (radd (balance owner) (REF_BONUS_JOIN cfg))
     else
       res = Some (Queued rzero)
       /\ counted_for_referrer <$> db_user user_id s' = Some was_counted
       /\ counted_referrals <$> db_user r s' = Some (counted_referrals owner)
       /\ balance <$> db_user r s' = Some (balance owner).
Proof.
  intros Hr0 Hne Howner s' res was_counted. subst s' res.
  unfold cmd_start. cbn [truthy_id]. replace (r =? 0) with false by lia.
  set (u1 := match db_user user_id s with
             | Some u => set_username name u
             | None => new_user name (Some r)
             end).
  assert (H1u : db_user user_id
                  (db_update_username user_id name
                     (db_create_user user_id name (Some r) s)) = Some u1).
  { rewrite db_user_after_create. cbn [truthy_id].
    replace (r =? 0) with false by lia. cbv zeta.
    rewrite (decide_True (P := user_id = user_id)) by reflexivity.
    rewrite (decide_False (P := r = user_id)) by congruence.
    reflexivity. }
  assert (H1r : db_user r
                  (db_update_username user_id name
                     (db_create_user user_id name (Some r) s))
                = Some (set_total_referrals (total_referrals owner + 1) owner)).
  { rewrite db_user_after_create. cbn [truthy_id].
    replace (r =? 0) with false by lia. cbv zeta.
    rewrite (decide_True (P := r = r)) by reflexivity.
    rewrite (decide_False (P := user_id = r)) by congruence.
    rewrite Howner. reflexivity. }
  assert (Hc1 : counted_for_referrer u1 = was_counted).
  { subst u1 was_counted. destruct (db_user user_id s); reflexivity. }
  assert (Hr1 : referred_by u1 = match db_user user_id s with
                                 | Some u => referred_by u
                                 | None => Some r
                                 end).
  { subst u1. destruct (db_user user_id s); reflexivity. }
  clearbody u1 was_counted.
  set (s1 := db_update_username user_id name (db_create_user user_id name (Some r) s)) in *.
  clearbody s1.
  unfold handle_new_ref_join. rewrite H1r, H1u.
  cbn [counted_referrals set_total_referrals]. rewrite Hc1.
  destruct ((counted_referrals owner <? 3) && negb was_counted); cbn [fst snd];
    autorewrite with ledger; rewrite ?H1r, ?H1u;
    repeat (case_decide; try congruence); simpl; rewrite ?Hr1, ?Hc1; auto 10.
Qed.

(** X7. [/start <own id>] by a new user: nothing stops a user from being
    their own referrer.  The new row records the user as referred by
    themselves, already counted, with one counted and one total referral,
    and the join bonus on its balance. *)
Theorem cmd_start_own_code (user_id : Z) (name : string) (s : db R) :
  user_id <> 0 ->
  db_user user_id s = None ->
  cmd_start cfg user_id name (Some user_id) s
  = ((cmd_start cfg user_id name (Some user_id) s).1, Some (Counted (REF_BONUS_JOIN cfg)))
  /\ db_user user_id (cmd_start cfg user_id name (Some user_id) s).1
     = Some {| username := name; balance := radd rzero (REF_BONUS_JOIN cfg);
               referred_by := Some user_id; counted_for_referrer := true;
               counted_referrals := 1; total_referrals := 1;
               has_deposited := false |}
  /\ forall v, v <> user_id ->
       db_user v (cmd_start cfg user_id name (Some user_id) s).1 = db_user v s.
Proof.
  intros H0 Hnew.
  unfold cmd_start. cbn [truthy_id]. replace (user_id =? 0) with false by lia.
  unfold handle_new_ref_join. rewrite !db_user_after_create.
  cbn [truthy_id]. replace (user_id =? 0) with false by lia. cbv zeta.
  rewrite !decide_True by reflexivity. rewrite Hnew.
  cbn [fmap option_fmap option_map new_user set_total_referrals
       counted_referrals counted_for_referrer Z.ltb Z.compare Z.add andb negb
       Pos.compare Pos.compare_cont].
  cbn [fst snd]. split; [reflexivity|]. split.
  - autorewrite with ledger. rewrite !db_user_after_create.
    cbn [truthy_id]. replace (user_id =? 0) with false by lia. cbv zeta.
    rewrite !decide_True by reflexivity. rewrite Hnew. reflexivity.
  - intros v Hv. autorewrite with ledger. rewrite !db_user_after_create.
    cbn [truthy_id]. replace (user_id =? 0) with false by lia. cbv zeta.
    repeat (case_decide; try congruence).
Qed.

End Registration.

(** A, who registered without a code and already has three counted
    referrals of their own, opens the bot again with B's code: B is paid
    the join bonus and gets a counted referral, while A's row still names
    no referrer. *)
Lemma cmd_start_with_code_witness :
  Restart.again.2 = Some (Counted 1%float)
  /\ referred_by <$> db_user Scenario.A Restart.again.1 = Some None
  /\ balance <$> db_user Scenario.B Restart.again.1 = Some 1%float
  /\ counted_referrals <$> db_user Scenario.B Restart.again.1 = Some 1
  /\ total_referrals <$> db_user Scenario.B Restart.again.1 = Some 1.
Proof.
  pose (uA := {| username := "A"; balance := 3%float; referred_by := None;
                 counted_for_referrer := false; counted_referrals := 3;
                 total_referrals := 5; has_deposited := false |}).
  pose (uB := {| username := "B"; balance := 0%float; referred_by := Some Scenario.A;
                 counted_for_referrer := true; counted_referrals := 0;
                 total_referrals := 0; has_deposited := false |}).
  assert (HB : db_user Scenario.B Scenario.registered = Some uB)
    by (vm_compute; reflexivity).
  pose proof (cmd_start_with_code Scenario.cfg Scenario.A Scenario.B "A"
                Scenario.registered uB ltac:(vm_compute; discriminate)
                ltac:(vm_compute; discriminate) HB) as T.
  cbv zeta in T.
  replace (db_user Scenario.A Scenario.registered) with (Some uA) in T
    by (vm_compute; reflexivity).
  cbv beta iota in T.
  assert (Hg : (counted_referrals uB <? 3) && negb (counted_for_referrer uA) = true)
    by reflexivity.
  rewrite Hg in T. destruct T as (Href & Htot & Hres & _ & Hcnt & Hbal).
  unfold Restart.again.
  split; [exact Hres|]. split; [exact Href|].
  split; [rewrite Hbal; vm_compute; reflexivity|].
  split; [rewrite Hcnt; reflexivity|]. rewrite Htot. reflexivity.
Defined.

(** S opens the bot for the first time with S's own id as the code. *)
Lemma cmd_start_own_code_witness :
  db_user SelfReferral.S SelfReferral.registered
  = Some {| username := "S"; balance := 1%float;
            referred_by := Some SelfReferral.S; counted_for_referrer := true;
            counted_referrals := 1; total_referrals := 1;
            has_deposited := false |}.
Proof.
  destruct (cmd_start_own_code Scenario.cfg SelfReferral.S "S" empty_db)
    as (_ & Hrow & _).
  - vm_compute. discriminate.
  - reflexivity.
  - unfold SelfReferral.registered. rewrite Hrow. vm_compute. reflexivity.
Defined.

Section Registration_plain.
Context {R : Type} `{Real R}.
Variable cfg : config R.

(** X8. [/start] without a code (or with code 0).  A new user gets the
    default row: zero balance, no flags, no referrals.  A registered user
    keeps their row, balance and flags included, with only the name
    refreshed.  No other user and no table changes, and there is no
    referral result. *)
Theorem cmd_start_without_code (user_id : Z) (name : string) (refcode : option Z)
    (s : db R) :
  truthy_id refcode = None ->
  let s' := (cmd_start cfg user_id name refcode s).1 in
  (cmd_start cfg user_id name refcode s).2 = None
  /\ db_user user_id s'
     = Some (match db_user user_id s with
             | Some u => set_username name u
             | None => new_user name refcode
             end)
  /\ (forall v, v <> user_id -> db_user v s' = db_user v s)
  /\ deposits s' = deposits s /\ withdrawals s' = withdrawals s.
Proof.
  intros Hcode s'. subst s'. unfold cmd_start. rewrite Hcode. cbn [fst snd].
  split; [reflexivity|]. split; [|split; [|split]].
  - rewrite db_user_after_create, Hcode. cbv zeta.
    rewrite decide_True by reflexivity. reflexivity.
  - intros v Hv. rewrite db_user_after_create, Hcode. cbv zeta.
    rewrite decide_False by congruence. reflexivity.
  - unfold db_create_user. rewrite Hcode. reflexivity.
  - unfold db_create_user. rewrite Hcode. reflexivity.
Qed.

(** X9. Approving a deposit whose owner names a referrer that has no row
    (the owner registered with a code nobody owns): the owner is marked
    counted, and nobody's balance or [counted_referrals] changes, because
    the UPDATEs meant for the referrer match no row.  When the amount is a
    number the result still announces the referral bonus
    [round(amount * REF_BONUS_DEPOSIT_PERCENT, 6)]; when the amount is NULL
    the call raises instead. *)
Theorem handle_deposit_approved_missing_referrer
    (dep_id' now : Z) (s : db R) (dep : deposit R) (u : user R) (ref : Z) :
  db_get_deposit dep_id' s = Some dep ->
  db_user (dep_user_id dep) s = Some u ->
  truthy_id (referred_by u) = Some ref ->
  db_user ref s = None ->
  let s' := (handle_deposit_approved cfg dep_id' now s).1 in
  (handle_deposit_approved cfg dep_id' now s).2
  = (if is_null (dep_amount dep) then Raised
     else Returned (Some (ApprovedRefBonus
                            (round (rmul (dep_amount dep)
                                      (REF_BONUS_DEPOSIT_PERCENT cfg)) 6)
                            (current_multiplier cfg now))))
  /\ counted_for_referrer <$> db_user (dep_user_id dep) s' = Some true
  /\ (forall v, balance <$> db_user v s' = balance <$> db_user v s)
  /\ (forall v, counted_referrals <$> db_user v s' = counted_referrals <$> db_user v s).
Proof.
  intros Hd Hu Hr Hnone s'. subst s'.
  assert (Hne : ref <> dep_user_id dep) by (intros ->; congruence).
  rewrite (handle_deposit_approved_run _ _ _ _ _ Hd). cbv zeta. rewrite Hu, Hr.
  destruct (is_null (dep_amount dep)); cbn [fst snd]; (split; [reflexivity|]);
    destruct (counted_for_referrer u) eqn:Hc;
    (split; [|split]; [| intros v ..]; autorewrite with ledger;
     repeat (case_decide; subst; try congruence);
     rewrite ?Hu, ?Hnone; simpl; rewrite ?Hc; try reflexivity;
     destruct (db_user v s); reflexivity).
Qed.

End Registration_plain.

(** G, registered with the code 999 that nobody owns, has a $100 deposit
    approved: the result announces a $20 bonus and no balance moves. *)
Lemma handle_deposit_approved_missing_referrer_witness :
  Orphan.registered.2 = None
  /\ referred_by <$> db_user Orphan.G Orphan.deposited = Some (Some Orphan.nobody)
  /\ Orphan.approved.2 = Returned (Some (ApprovedRefBonus 20%float 5%float))
  /\ forall v, balance <$> db_user v Orphan.approved.1
              = balance <$> db_user v Orphan.deposited.
Proof.
  pose (dep := {| dep_id := 1; dep_user_id := Orphan.G; dep_amount := 100%float;
                  dep_chain := "BEP20"; dep_txid := "txG";
                  dep_ts := Scenario.T0 + 3600;
                  dep_status := PENDING; dep_payout_mult := 0%float;
                  dep_payout_ts := 0 |}).
  pose (u := {| username := "G"; balance := 0%float;
                referred_by := Some Orphan.nobody;
                counted_for_referrer := false; counted_referrals := 0;
                total_referrals := 0; has_deposited := false |}).
  destruct (handle_deposit_approved_missing_referrer Scenario.cfg 1
              (Scenario.T0 + 7200) Orphan.deposited dep u Orphan.nobody)
    as (Hres & _ & Hbal & _); [vm_compute; reflexivity ..|].
  split; [vm_compute; reflexivity|]. split; [vm_compute; reflexivity|].
  unfold Orphan.approved. split; [|exact Hbal].
  rewrite Hres. vm_compute. reflexivity.
Defined.

(** B, already registered and counted, sends a plain [/start] under a new
    name: the row is the old one with the new name. *)
Lemma cmd_start_without_code_witness :
  db_user Scenario.B (cmd_start Scenario.cfg Scenario.B "Bea" None Scenario.registered).1
  = Some {| username := "Bea"; balance := 0%float; referred_by := Some Scenario.A;
            counted_for_referrer := true; counted_referrals := 0;
            total_referrals := 0; has_deposited := false |}.
Proof.
  destruct (cmd_start_without_code Scenario.cfg Scenario.B "Bea" None
              Scenario.registered eq_refl) as (_ & Hrow & _).
  rewrite Hrow. vm_compute. reflexivity.
Defined.

(** ** The pending lists of [/requests] *)

Section Pending.
Context {R : Type} `{Real R}.
Variable cfg : config R.

Lemma filter_all {A} (P : A -> Prop) `{forall x, Decision (P x)} (l : list A) :
  (forall x, x ∈ l -> P x) -> filter P l = l.
Proof.
  induction l as [|x l IH]; intros Hall; [reflexivity|].
  rewrite filter_cons, decide_True by (apply Hall, list_elem_of_here).
  f_equal. apply IH. intros y Hy. apply Hall. apply list_elem_of_further. exact Hy.
Qed.

Lemma select_one_none {A} (key : A -> Z) (id : Z) (l : list A) (x : A) :
  select_one key id l = None -> x ∈ l -> key x <> id.
Proof.
  unfold select_one. intros Hnone Hx. apply list_elem_of_In in Hx.
  pose proof (find_none _ _ Hnone x Hx) as E. simpl in E. lia.
Qed.

(** Rows whose status an update moves away from PENDING leave the pending
    list; the rest of the list is as it was. *)
Lemma pending_after_update {A} (key : A -> Z) (st : A -> status) (f : A -> A)
    (id : Z) (l : list A) :
  (forall r, status_eqb (st (f r)) PENDING = false) ->
  filter (fun r => status_eqb (st r) PENDING = true) (update_where key id f l)
  = filter (fun r => key r <> id) (filter (fun r => status_eqb (st r) PENDING = true) l).
Proof.
  intros Hf. unfold update_where. induction l as [|x l IH]; [reflexivity|].
  cbn [map]. rewrite !filter_cons.
  destruct (key x =? id) eqn:E.
  - apply Z.eqb_eq in E. rewrite decide_False by (rewrite Hf; discriminate).
    destruct (decide (status_eqb (st x) PENDING = true)).
    + rewrite filter_cons, decide_False by (intros Hn; apply Hn; exact E). exact IH.
    + exact IH.
  - apply Z.eqb_neq in E.
    destruct (decide (status_eqb (st x) PENDING = true)).
    + rewrite filter_cons, decide_True by exact E. f_equal. exact IH.
    + exact IH.
Qed.

Lemma pending_without_absent_id {A} (key : A -> Z) (st : A -> status) (id : Z)
    (l : list A) :
  select_one key id l = None ->
  filter (fun r => key r <> id) (filter (fun r => status_eqb (st r) PENDING = true) l)
  = filter (fun r => status_eqb (st r) PENDING = true) l.
Proof.
  intros Hnone. apply filter_all. intros x Hx.
  apply list_elem_of_filter in Hx as [_ Hx]. eapply select_one_none; eauto.
Qed.

(** The pending deposits after the admin approved or rejected [depid]. *)
Lemma pending_after_deposit_decision (depid now : Z) (approve : bool) (s : db R) :
  let data := if approve then approve_deposit depid else reject_deposit depid in
  let s' := (cb_admin cfg data now s).1 in
  db_get_pending_deposits s'
  = filter (fun d => dep_id d <> depid) (db_get_pending_deposits s)
  /\ db_get_pending_withdrawals s' = db_get_pending_withdrawals s.
Proof.
  intros data s'. subst s' data. unfold db_get_pending_deposits, db_get_pending_withdrawals.
  destruct approve; cbn [cb_admin].
  - destruct (db_get_deposit depid s) as [dep|] eqn:Hd.
    + pose proof (handle_deposit_approved_tables cfg depid now s) as (Hdeps & _ & Hw & _).
      destruct (handle_deposit_approved cfg depid now s) as [s1 [res|]]; cbn [fst] in *;
        rewrite Hdeps, Hw; (split; [|reflexivity]);
        apply pending_after_update; reflexivity.
    + cbn [fst]. split; [|reflexivity].
      symmetry. apply pending_without_absent_id. exact Hd.
  - destruct (db_get_deposit depid s) as [dep|] eqn:Hd; cbn [fst].
    + unfold db_reject_deposit. cbn [deposits withdrawals with_deposits].
      split; [|reflexivity]. apply pending_after_update. reflexivity.
    + split; [|reflexivity]. symmetry. apply pending_without_absent_id. exact Hd.
Qed.

(** X10. After the admin approves or rejects deposit [depid] (an approval
    that raises included), the pending deposits of [/requests] are those
    before, in the same order, without [depid], and the pending
    withdrawals are the same.  The admin is shown the two lists, unless
    one of these rows has a NULL amount, in which case the command raises;
    someone who is not the admin is shown nothing. *)
Theorem cmd_requests_after_deposit_decision
    (ADMIN_ID user_id depid now : Z) (approve : bool) (s : db R) :
  let data := if approve then approve_deposit depid else reject_deposit depid in
  let s' := (cb_admin cfg data now s).1 in
  let deps := filter (fun d => dep_id d <> depid) (db_get_pending_deposits s) in
  let wds := db_get_pending_withdrawals s in
  cmd_requests ADMIN_ID user_id s'
  = if user_id =? ADMIN_ID
    then if existsb (fun d => is_null (dep_amount d)) deps
            || existsb (fun w => is_null (wd_amount w)) wds
         then Raised
         else Returned (Some (deps, wds))
    else Returned None.
Proof.
  intros data s' deps wds. unfold cmd_requests.
  destruct (user_id =? ADMIN_ID); [|reflexivity]. cbn [negb]. cbv zeta.
  subst s' data deps wds.
  destruct (pending_after_deposit_decision depid now approve s) as [-> ->].
  reflexivity.
Qed.

(** X11. After the admin declines withdrawal [reqid], or approves it with
    the reply "paid", the pending withdrawals are those listed before
    without [reqid]; after an approval refused for insufficient balance
    (or for an unknown id) the list is unchanged, so the request can be
    approved later.  The pending deposits are the same throughout. *)
Theorem pending_after_withdrawal_decision (reqid now : Z) (approve : bool) (s : db R) :
  let data := if approve then approve_withdraw reqid else decline_withdraw reqid in
  let s' := (cb_admin cfg data now s).1 in
  let reply := (cb_admin cfg data now s).2 in
  db_get_pending_deposits s' = db_get_pending_deposits s
  /\ db_get_pending_withdrawals s'
     = match reply with
       | WithdrawalPaid | WithdrawalDeclined =>
           filter (fun w => wd_id w <> reqid) (db_get_pending_withdrawals s)
       | _ => db_get_pending_withdrawals s
       end.
Proof.
  intros data s' reply. subst s' reply data.
  unfold db_get_pending_deposits, db_get_pending_withdrawals.
  destruct approve; cbn [cb_admin].
  - destruct (select_one wd_id reqid (withdrawals s)) as [row|] eqn:Hw;
      [|split; reflexivity].
    destruct (balance <$> users s !! wd_user_id row) as [bal|];
      [destruct (is_null bal || is_null (wd_amount row));
       [|destruct (rltb bal (wd_amount row))]|]; cbn [fst snd];
      try (split; reflexivity).
    split; [reflexivity|].
    unfold db_update_withdrawal_status. cbn [withdrawals with_withdrawals with_users].
    apply pending_after_update. reflexivity.
  - destruct (select_one wd_id reqid (withdrawals s)) as [row|] eqn:Hw;
      cbn [fst snd]; [|split; reflexivity].
    split; [reflexivity|].
    unfold db_update_withdrawal_status. cbn [withdrawals with_withdrawals].
    apply pending_after_update. reflexivity.
Qed.

End Pending.

(** ** Submitting a deposit *)

Section Deposit_submission.
Context {R : Type} `{Real R}.
Variable cfg : config R.

Lemma select_one_app {A} (key : A -> Z) (id : Z) (l : list A) (r : A) :
  select_one key id (l ++ [r])
  = match select_one key id l with
    | Some x => Some x
    | None => if key r =? id then Some r else None
    end.
Proof.
  unfold select_one. induction l as [|x l IH]; simpl.
  - destruct (key r =? id); reflexivity.
  - destruct (key x =? id); [reflexivity|exact IH].
Qed.

Lemma select_one_beyond {A} (key : A -> Z) (id n : Z) (l : list A) :
  Forall (fun i => i <= n) (key <$> l) -> n < id -> select_one key id l = None.
Proof.
  intros Hle Hid. unfold select_one. induction l as [|x l IH]; [reflexivity|].
  apply Forall_cons in Hle as [Hx Hle]. simpl.
  destruct (key x =? id) eqn:E; [apply Z.eqb_eq in E; lia|]. apply IH. exact Hle.
Qed.

(** X12. [/deposit]: the chain is checked first, then the amount is
    refused when it is below the minimum ([nan] is not, so it is accepted);
    a refused deposit leaves the store as it was.  An accepted one is
    answered with the next id, and under that id the admin finds a PENDING
    row with the submitted data, the amount as the REAL column stores it
    (NULL for [nan], [0.0] for [-0.0]), multiplier 0 and [payout_ts] 0,
    appended to the pending list; the rows under all other ids, and every
    user, are as before (no balance moves at submission). *)
Theorem cmd_deposit_short_spec (user_id : Z) (amount : R) (chain txid : string)
    (now : Z) (s : db R) :
  wf s ->
  let s' := (cmd_deposit_short cfg user_id amount chain txid now s).1 in
  let reply := (cmd_deposit_short cfg user_id amount chain txid now s).2 in
  let row := {| dep_id := deposits_seq s + 1; dep_user_id := user_id;
                dep_amount := to_db amount; dep_chain := chain; dep_txid := txid;
                dep_ts := now; dep_status := PENDING; dep_payout_mult := rzero;
                dep_payout_ts := 0 |} in
  if negb (bool_decide (chain ∈ DEPOSIT_CHAINS)) then reply = BadChain /\ s' = s
  else if rltb amount (MIN_DEPOSIT cfg) then reply = BelowMinDeposit /\ s' = s
  else
    reply = DepositRecorded (deposits_seq s + 1)
    /\ db_get_deposit (deposits_seq s + 1) s' = Some row
    /\ (forall j, j <> deposits_seq s + 1 -> db_get_deposit j s' = db_get_deposit j s)
    /\ db_get_pending_deposits s' = db_get_pending_deposits s ++ [row]
    /\ users s' = users s /\ withdrawals s' = withdrawals s.
Proof.
  intros (_ & Hle & _) s' reply row. subst s' reply. unfold cmd_deposit_short.
  destruct (negb (bool_decide (chain ∈ DEPOSIT_CHAINS))); [split; reflexivity|].
  destruct (rltb amount (MIN_DEPOSIT cfg)); [split; reflexivity|].
  cbn [db_insert_deposit fst snd]. fold row.
  split; [reflexivity|].
  unfold db_get_deposit, db_get_pending_deposits. cbn [deposits users withdrawals].
  split; [|split; [|split; [|split; reflexivity]]].
  - rewrite select_one_app.
    rewrite (select_one_beyond dep_id _ (deposits_seq s)) by (exact Hle || lia).
    cbn [dep_id row]. rewrite Z.eqb_refl. reflexivity.
  - intros j Hj. rewrite select_one_app.
    destruct (select_one dep_id j (deposits s)); [reflexivity|].
    cbn [dep_id row]. replace (deposits_seq s + 1 =? j) with false by lia. reflexivity.
  - rewrite filter_app. f_equal.
Qed.

End Deposit_submission.

(** F's [/deposit nan TRC20 txF] is recorded under id 1, with a NULL
    amount, and no user's row moves. *)
Lemma cmd_deposit_short_spec_witness :
  NanDeposit.submitted.2 = DepositRecorded 1
  /\ dep_status <$> db_get_deposit 1 NanDeposit.deposited = Some PENDING
  /\ is_null <$> (dep_amount <$> db_get_deposit 1 NanDeposit.deposited) = Some true
  /\ users NanDeposit.deposited = users Scenario.registered.
Proof.
  assert (Hwf : wf Scenario.registered).
  { unfold wf. vm_compute. repeat split; constructor. }
  pose proof (cmd_deposit_short_spec Scenario.cfg Scenario.F nan "TRC20" "txF"
                (Scenario.T0 + 20 * Scenario.day) Scenario.registered Hwf) as T.
  cbv zeta in T.
  assert (Hchain : negb (bool_decide ("TRC20"%string ∈ DEPOSIT_CHAINS)) = false)
    by (vm_compute; reflexivity).
  assert (Hmin : rltb nan (MIN_DEPOSIT Scenario.cfg) = false)
    by (vm_compute; reflexivity).
  rewrite Hchain, Hmin in T.
  destruct T as (Hreply & Hrow & _ & _ & Husers & _).
  unfold NanDeposit.deposited, NanDeposit.submitted.
  split; [rewrite Hreply; vm_compute; reflexivity|].
  replace (deposits_seq Scenario.registered + 1) with 1 in Hrow
    by (vm_compute; reflexivity).
  split; [rewrite Hrow; reflexivity|].
  split; [rewrite Hrow; vm_compute; reflexivity | exact Husers].
Defined.

(** ** The multiplier over time *)

Section Multiplier.
Context {R : Type} `{Real R}.
Variable cfg : config R.

Lemma days_since_launch_mono (now now' : Z) :
  now <= now' -> days_since_launch cfg now <= days_since_launch cfg now'.
Proof.
  intros Hle. unfold days_since_launch.
  apply Z.max_le_compat_l. apply Z.div_le_mono; lia.
Qed.

(** X13. The day count behind the multiplier is never negative: at any
    time before the end of the launch day, times before the launch
    included, it is 0 and the multiplier is the launch-day multiplier.
    From the launch on, each further 86400 seconds add one day, and the
    count never decreases as time passes. *)
Theorem days_since_launch_spec (now : Z) :
  0 <= days_since_launch cfg now
  /\ (now < launch_ts cfg + 86400 ->
      days_since_launch cfg now = 0
      /\ current_multiplier cfg now = current_multiplier cfg (launch_ts cfg))
  /\ (forall k, launch_ts cfg <= now -> 0 <= k ->
        days_since_launch cfg (now + 86400 * k) = days_since_launch cfg now + k)
  /\ (forall now', now <= now' ->
        days_since_launch cfg now <= days_since_launch cfg now').
Proof.
  split; [unfold days_since_launch; lia|]. split; [|split].
  - intros Hlt.
    assert (E : days_since_launch cfg now = 0).
    { unfold days_since_launch.
      destruct (Z_lt_le_dec (now - launch_ts cfg) 0) as [Hneg|Hpos].
      - assert ((now - launch_ts cfg) / 86400 < 0) by (apply Z.div_lt_upper_bound; lia).
        lia.
      - rewrite Z.div_small by lia. reflexivity. }
    split; [exact E|]. unfold current_multiplier. rewrite E.
    unfold days_since_launch. rewrite Z.sub_diag. reflexivity.
  - intros k Hnow Hk. unfold days_since_launch.
    replace (now + 86400 * k - launch_ts cfg) with (now - launch_ts cfg + k * 86400) by lia.
    rewrite Z.div_add by lia.
    assert (0 <= (now - launch_ts cfg) / 86400) by (apply Z.div_pos; lia). lia.
  - apply days_since_launch_mono.
Qed.

(** X14. When the decay is not negative, the multiplier never increases as
    time passes, and at no time is it below [round(PAYOUT_MULT_MIN, 4)]:
    in any arithmetic with the order laws, [<] never holds between an
    earlier multiplier and a later one, nor between a multiplier and the
    rounded minimum. *)
Theorem current_multiplier_never_increases `{!RealOrder R} (now now' : Z) :
  rltb (PAYOUT_DECAY_PER_DAY cfg) rzero = false ->
  now <= now' ->
  rltb (current_multiplier cfg now) (current_multiplier cfg now') = false
  /\ rltb (current_multiplier cfg now) (round (PAYOUT_MULT_MIN cfg) 4) = false.
Proof.
  intros Hdecay Hle. unfold current_multiplier. cbv zeta.
  pose proof (days_since_launch_mono now now' Hle) as Hdays.
  set (d := days_since_launch cfg now) in *.
  set (d' := days_since_launch cfg now') in *.
  pose proof (rmul_of_int_mono (PAYOUT_DECAY_PER_DAY cfg) d d' Hdecay Hdays) as Hmul.
  pose proof (rsub_mono (PAYOUT_MULT_START cfg) _ _ Hmul) as Hsub.
  set (m := rsub (PAYOUT_MULT_START cfg) (rmul (PAYOUT_DECAY_PER_DAY cfg) (of_int d))) in *.
  set (m' := rsub (PAYOUT_MULT_START cfg) (rmul (PAYOUT_DECAY_PER_DAY cfg) (of_int d'))) in *.
  split; apply round_mono.
  - destruct (rltb m' (PAYOUT_MULT_MIN cfg)) eqn:E';
      destruct (rltb m (PAYOUT_MULT_MIN cfg)) eqn:E.
    + apply rltb_irrefl.
    + exact E.
    + destruct (rltb (PAYOUT_MULT_MIN cfg) m') eqn:E''; [|reflexivity].
      rewrite (rltb_trans _ _ _ E E'') in Hsub. discriminate.
    + exact Hsub.
  - destruct (rltb m (PAYOUT_MULT_MIN cfg)) eqn:E; [apply rltb_irrefl|exact E].
Qed.

End Multiplier.

(** On binary64 with the default configuration: five days before the
    launch the multiplier is the launch-day 5.0, and a hundred days after
    the launch it is the minimum 2.0. *)
Lemma days_since_launch_spec_witness :
  days_since_launch Scenario.cfg (Scenario.T0 - 5 * Scenario.day) = 0
  /\ current_multiplier Scenario.cfg (Scenario.T0 - 5 * Scenario.day) = 5%float
  /\ days_since_launch Scenario.cfg (Scenario.T0 + 86400 * 100) = 100
  /\ current_multiplier Scenario.cfg (Scenario.T0 + 86400 * 100) = 2%float.
Proof.
  destruct (days_since_launch_spec Scenario.cfg (Scenario.T0 - 5 * Scenario.day))
    as (_ & Hbefore & _).
  destruct Hbefore as [Hday Hmult]; [vm_compute; reflexivity|].
  destruct (days_since_launch_spec Scenario.cfg Scenario.T0) as (_ & _ & Hlater & _).
  split; [exact Hday|]. split; [rewrite Hmult; vm_compute; reflexivity|].
  split; [|vm_compute; reflexivity].
  rewrite Hlater; [vm_compute; reflexivity | vm_compute; discriminate | lia].
Defined.

(** On exact rationals with the default configuration: the multiplier ten
    days after the launch is not below the multiplier fifty days after,
    which is not below the minimum; a hundred days after the launch the
    multiplier is 2. *)
Lemma current_multiplier_never_increases_witness :
  rltb (current_multiplier WithdrawScenario.cfg (Scenario.T0 + 10 * Scenario.day))
       (current_multiplier WithdrawScenario.cfg (Scenario.T0 + 50 * Scenario.day))
  = false
  /\ this (current_multiplier WithdrawScenario.cfg (Scenario.T0 + 10 * Scenario.day))
     = (9 # 2)%Q
  /\ this (current_multiplier WithdrawScenario.cfg (Scenario.T0 + 100 * Scenario.day))
     = (2 # 1)%Q.
Proof.
  destruct (current_multiplier_never_increases WithdrawScenario.cfg
              (Scenario.T0 + 10 * Scenario.day) (Scenario.T0 + 50 * Scenario.day))
    as [Hmono _].
  - vm_compute. reflexivity.
  - vm_compute. discriminate.
  - split; [exact Hmono|]. split; vm_compute; reflexivity.
Defined.

(** ** The withdraw conversation *)

Section Withdraw_request.
Context {R : Type} `{Real R}.
Variable cfg : config R.

(** X15. A withdraw conversation run without interruption never changes
    a user or a deposit: no balance is debited at request time.  For a
    caller with an approved deposit whose balance is NULL, entering a
    number makes the amount step raise in [row[2] < MIN_WITHDRAW], and
    nothing is written.  Otherwise the conversation ends in a reply.  It
    appends a PENDING row, with the network and address given, the amount
    as the REAL column stores it and the next id, exactly when the caller
    is registered, the amount parses, and the four gates pass (an approved
    deposit, balance not below MIN_WITHDRAW, counted referrals not below
    the minimum, amount not above the balance); otherwise the store is
    returned as it was and the reply is not a submission. *)
Theorem withdraw_request_spec (user_id : Z) (text : option R) (net addr : string)
    (now : Z) (s : db R) :
  match db_user user_id s, text with
  | Some row, Some amount =>
      if has_deposited row && is_null (balance row) then
        withdraw_request cfg user_id text net addr now s = None
      else
        exists s' st reply,
          withdraw_request cfg user_id text net addr now s = Some (s', st, reply)
          /\ users s' = users s /\ deposits s' = deposits s
          /\ if withdraw_gates cfg row amount then
               reply = RequestSubmitted (withdrawals_seq s + 1) /\ st = CONV_END
               /\ withdrawals s'
                  = withdrawals s
                    ++ [{| wd_id := withdrawals_seq s + 1; wd_user_id := user_id;
                           wd_amount := to_db amount; wd_network := net;
                           wd_address := addr; wd_ts := now; wd_status := PENDING |}]
             else s' = s /\ forall id, reply <> RequestSubmitted id
  | _, _ =>
      exists st reply,
        withdraw_request cfg user_id text net addr now s = Some (s, st, reply)
        /\ forall id, reply <> RequestSubmitted id
  end.
Proof.
  unfold withdraw_request, cmd_withdraw_start, withdraw_amount, withdraw_gates.
  destruct (db_user user_id s) as [row|] eqn:Hrow.
  2: { do 2 eexists. split; [reflexivity|]. discriminate. }
  destruct text as [amount|].
  2: { destruct (has_deposited row); cbn [negb];
         do 2 eexists; (split; [reflexivity|]); discriminate. }
  destruct (has_deposited row); cbn [negb andb].
  2: { do 3 eexists. split; [reflexivity|]. repeat split; discriminate. }
  destruct (is_null (balance row)); [reflexivity|].
  destruct (rltb (balance row) (MIN_WITHDRAW cfg)); cbn [negb andb].
  { do 3 eexists. split; [reflexivity|]. repeat split; discriminate. }
  destruct (counted_referrals row <? MIN_COUNTED_REFERRALS_FOR_WITHDRAW cfg);
    cbn [negb andb].
  { do 3 eexists. split; [reflexivity|]. repeat split; discriminate. }
  destruct (rgtb amount (balance row)); cbn [negb andb].
  { do 3 eexists. split; [reflexivity|]. repeat split; discriminate. }
  do 3 eexists. split; [reflexivity|]. repeat split.
Qed.

(** X16. A request that passed the gates is approved whenever the store
    has not changed in between, the balance and the amount being numbers
    and the amount stored as entered (any number but [-0.0]): the
    approval's only test, balance below amount, is the request's last
    gate again.  The balance becomes [balance - amount] and the request
    PAID.  Neither step looks at the sign of the amount. *)
Theorem withdraw_request_then_approve (user_id : Z) (amount : R) (net addr : string)
    (now now' : Z) (s : db R) (row : user R) :
  wf s ->
  db_user user_id s = Some row ->
  is_null (balance row) = false ->
  is_null amount = false ->
  to_db amount = amount ->
  withdraw_gates cfg row amount = true ->
  exists s1,
    withdraw_request cfg user_id (Some amount) net addr now s
    = Some (s1, CONV_END, RequestSubmitted (withdrawals_seq s + 1))
    /\ (cb_admin cfg (approve_withdraw (withdrawals_seq s + 1)) now' s1).2
       = WithdrawalPaid
    /\ balance <$> db_user user_id
                     (cb_admin cfg (approve_withdraw (withdrawals_seq s + 1)) now' s1).1
       = Some (rsub (balance row) amount)
    /\ wd_status <$> select_one wd_id (withdrawals_seq s + 1)
                       (withdrawals
                          (cb_admin cfg (approve_withdraw (withdrawals_seq s + 1)) now' s1).1)
       = Some PAID.
Proof.
  intros (_ & _ & _ & Hle) Hrow Hnb Hna Hstored Hgates.
  unfold withdraw_request, cmd_withdraw_start, withdraw_amount.
  unfold withdraw_gates in Hgates.
  apply andb_prop in Hgates as [Hgates Hgt]. apply andb_prop in Hgates as [Hgates Hcnt].
  apply andb_prop in Hgates as [Hdep Hmin].
  apply negb_true_iff in Hgt, Hcnt, Hmin.
  rewrite Hrow, Hdep. cbn [negb]. rewrite Hnb, Hmin, Hcnt, Hgt.
  cbn [withdraw_network withdraw_address ud_wd_amount ud_wd_network
       empty_user_data db_insert_withdrawal].
  rewrite Hstored.
  eexists. split; [reflexivity|].
  set (w := {| wd_id := withdrawals_seq s + 1; wd_user_id := user_id;
               wd_amount := amount; wd_network := net; wd_address := addr;
               wd_ts := now; wd_status := PENDING |}).
  set (s1 := {| users := users s; deposits := deposits s;
                deposits_seq := deposits_seq s;
                withdrawals := withdrawals s ++ [w];
                withdrawals_seq := withdrawals_seq s + 1 |}).
  assert (Hw : select_one wd_id (withdrawals_seq s + 1) (withdrawals s1) = Some w).
  { subst s1. cbn [withdrawals]. rewrite select_one_app.
    rewrite (select_one_beyond wd_id _ (withdrawals_seq s)) by (exact Hle || lia).
    subst w. cbn [wd_id]. rewrite Z.eqb_refl. reflexivity. }
  assert (Hu : db_user (wd_user_id w) s1 = Some row) by exact Hrow.
  rewrite (cb_admin_approve_withdraw_run _ _ _ _ _ Hw), Hu.
  unfold rgtb in Hgt. cbn [wd_amount w]. rewrite Hnb, Hna, Hgt. cbn [orb fst snd].
  split; [reflexivity|]. split.
  - unfold db_user, db_update_withdrawal_status.
    cbn [users with_withdrawals with_users wd_user_id w].
    rewrite lookup_alter_at, decide_True by reflexivity.
    unfold db_user in Hrow. subst s1. cbn [users]. rewrite Hrow. reflexivity.
  - rewrite select_withdrawal_status. cbn [withdrawals with_users].
    rewrite Hw. cbn [fmap option_fmap option_map wd_id w]. rewrite Z.eqb_refl.
    reflexivity.
Qed.

End Withdraw_request.

(** N's request for minus ten dollars is submitted, approved and PAID, and
    N's balance goes from 50.0 to 60.0. *)
Lemma withdraw_request_then_approve_witness :
  balance <$> db_user NegativeWithdrawal.N NegativeWithdrawal.funded = Some 50%float
  /\ NegativeWithdrawal.approved.2 = WithdrawalPaid
  /\ balance <$> db_user NegativeWithdrawal.N NegativeWithdrawal.approved.1
     = Some 60%float.
Proof.
  pose (row := {| username := "N"; balance := 50%float; referred_by := None;
                  counted_for_referrer := false; counted_referrals := 5;
                  total_referrals := 5; has_deposited := true |}).
  destruct (withdraw_request_then_approve Scenario.cfg NegativeWithdrawal.N
              (-10)%float "TRC20" "TNaddr" NegativeWithdrawal.request_time
              (NegativeWithdrawal.request_time + 60) NegativeWithdrawal.funded row)
    as (s1 & Hreq & Hreply & Hbal & _).
  - unfold wf. vm_compute. repeat split; constructor.
  - vm_compute. reflexivity.
  - vm_compute. reflexivity.
  - vm_compute. reflexivity.
  - vm_compute. reflexivity.
  - vm_compute. reflexivity.
  - change (withdrawals_seq NegativeWithdrawal.funded + 1) with 1 in *.
    split; [vm_compute; reflexivity|].
    unfold NegativeWithdrawal.approved, NegativeWithdrawal.requested.
    rewrite Hreq. split; [exact Hreply|].
    rewrite Hbal. vm_compute. reflexivity.
Defined.

Section Withdraw_request_of_null_amount.
Context {R : Type} `{Real R}.
Variable cfg : config R.

(** X25. A request whose amount the column stores as NULL ([nan]) and
    that passes the gates ([nan > balance] is false) is submitted like
    any other.  From then on its approval raises in [rr[0] < amt] and
    leaves the store as it is, so the request stays PENDING, and
    [/requests] raises for the admin as long as it is pending. *)
Theorem withdraw_request_null_amount (ADMIN_ID user_id : Z) (amount : R)
    (net addr : string) (now now' : Z) (s : db R) (row : user R) :
  wf s ->
  db_user user_id s = Some row ->
  is_null (balance row) = false ->
  is_null (to_db amount) = true ->
  withdraw_gates cfg row amount = true ->
  exists s1,
    withdraw_request cfg user_id (Some amount) net addr now s
    = Some (s1, CONV_END, RequestSubmitted (withdrawals_seq s + 1))
    /\ cb_admin cfg (approve_withdraw (withdrawals_seq s + 1)) now' s1
       = (s1, HandlerRaised)
    /\ wd_status <$> select_one wd_id (withdrawals_seq s + 1) (withdrawals s1)
       = Some PENDING
    /\ cmd_requests ADMIN_ID ADMIN_ID s1 = Raised.
Proof.
  intros (_ & _ & _ & Hle) Hrow Hnb Hnull Hgates.
  unfold withdraw_request, cmd_withdraw_start, withdraw_amount.
  unfold withdraw_gates in Hgates.
  apply andb_prop in Hgates as [Hgates Hgt]. apply andb_prop in Hgates as [Hgates Hcnt].
  apply andb_prop in Hgates as [Hdep Hmin].
  apply negb_true_iff in Hgt, Hcnt, Hmin.
  rewrite Hrow, Hdep. cbn [negb]. rewrite Hnb, Hmin, Hcnt, Hgt.
  cbn [withdraw_network withdraw_address ud_wd_amount ud_wd_network
       empty_user_data db_insert_withdrawal].
  eexists. split; [reflexivity|].
  set (w := {| wd_id := withdrawals_seq s + 1; wd_user_id := user_id;
               wd_amount := to_db amount; wd_network := net; wd_address := addr;
               wd_ts := now; wd_status := PENDING |}).
  set (s1 := {| users := users s; deposits := deposits s;
                deposits_seq := deposits_seq s;
                withdrawals := withdrawals s ++ [w];
                withdrawals_seq := withdrawals_seq s + 1 |}).
  assert (Hw : select_one wd_id (withdrawals_seq s + 1) (withdrawals s1) = Some w).
  { subst s1. cbn [withdrawals]. rewrite select_one_app.
    rewrite (select_one_beyond wd_id _ (withdrawals_seq s)) by (exact Hle || lia).
    subst w. cbn [wd_id]. rewrite Z.eqb_refl. reflexivity. }
  assert (Hu : db_user (wd_user_id w) s1 = Some row) by exact Hrow.
  split; [|split].
  - rewrite (cb_admin_approve_withdraw_run _ _ _ _ _ Hw), Hu.
    cbn [wd_amount w]. rewrite Hnb, Hnull. reflexivity.
  - rewrite Hw. reflexivity.
  - unfold cmd_requests. rewrite Z.eqb_refl. cbn [negb]. cbv zeta.
    unfold db_get_pending_withdrawals. subst s1. cbn [withdrawals].
    rewrite filter_app, existsb_app, filter_cons, filter_nil.
    rewrite decide_True by reflexivity.
    cbn [existsb wd_amount w]. rewrite Hnull. cbn [orb].
    rewrite !orb_true_r. reflexivity.
Qed.

End Withdraw_request_of_null_amount.

(** N asks to withdraw [nan]: the request is submitted under id 1, its
    approval raises and leaves N's balance at 50.0, and [/requests]
    raises. *)
Lemma withdraw_request_null_amount_witness :
  NanWithdrawal.requested.2 = RequestSubmitted 1
  /\ NanWithdrawal.approved.2 = HandlerRaised
  /\ balance <$> db_user NegativeWithdrawal.N NanWithdrawal.approved.1 = Some 50%float
  /\ cmd_requests 1 1 NanWithdrawal.requested.1.1 = Raised.
Proof.
  pose (row := {| username := "N"; balance := 50%float; referred_by := None;
                  counted_for_referrer := false; counted_referrals := 5;
                  total_referrals := 5; has_deposited := true |}).
  destruct (withdraw_request_null_amount Scenario.cfg 1 NegativeWithdrawal.N
              nan "TRC20" "TNaddr" NegativeWithdrawal.request_time
              (NegativeWithdrawal.request_time + 60) NegativeWithdrawal.funded row)
    as (s1 & Hreq & Happ & _ & Hlist).
  - unfold wf. vm_compute. repeat split; constructor.
  - vm_compute. reflexivity.
  - vm_compute. reflexivity.
  - vm_compute. reflexivity.
  - vm_compute. reflexivity.
  - change (withdrawals_seq NegativeWithdrawal.funded + 1) with 1 in *.
    assert (Hs1 : NanWithdrawal.requested = (s1, CONV_END, RequestSubmitted 1)).
    { unfold NanWithdrawal.requested, NanWithdrawal.request. rewrite Hreq. reflexivity. }
    unfold NanWithdrawal.approved. rewrite Hs1. cbn [fst snd]. rewrite Happ.
    cbn [fst snd]. split; [reflexivity|]. split; [reflexivity|].
    split; [|exact Hlist].
    apply (f_equal (fun o => match o with Some (x, _, _) => Some x | None => None end))
      in Hreq.
    vm_compute in Hreq. injection Hreq as <-. vm_compute. reflexivity.
Defined.

(** ** Updates that move no money *)

Section Quiet_updates.
Context {R : Type} `{Real R}.
Variable cfg : config R.

(** X21. Submitting a deposit, submitting a withdrawal request, rejecting
    a deposit and declining a withdrawal leave the users table exactly as
    it was: what [/balance] shows (balance and counted referrals) is the
    same before and after, for every user. *)
Theorem quiet_updates_keep_balances (o : update R) (s : db R) (v : Z) :
  writes_no_user o = true ->
  users (handle cfg o s) = users s
  /\ cmd_balance v (handle cfg o s) = cmd_balance v s.
Proof.
  intros Hq.
  assert (Hu : users (handle cfg o s) = users s).
  { destruct o as [u n r|u a c t now|u addr now ud|data now|now later];
      try discriminate; cbn [handle].
    - unfold cmd_deposit_short.
      destruct (negb (bool_decide (c ∈ DEPOSIT_CHAINS)));
        [|destruct (rltb a (MIN_DEPOSIT cfg))]; reflexivity.
    - unfold withdraw_address.
      destruct (ud_wd_amount ud), (ud_wd_network ud); reflexivity.
    - destruct data as [depid|depid|reqid|reqid]; try discriminate; cbn [cb_admin].
      + destruct (db_get_deposit depid s); reflexivity.
      + destruct (select_one wd_id reqid (withdrawals s)); reflexivity. }
  split; [exact Hu|]. unfold cmd_balance, db_user. rewrite Hu. reflexivity.
Qed.

End Quiet_updates.

(** Rejecting F's deposit instead of approving it leaves A's balance and
    counted referrals as [/balance] showed them. *)
Lemma quiet_updates_keep_balances_witness :
  cmd_balance Scenario.A
    (handle Scenario.cfg (AdminCallback (reject_deposit 1) (Scenario.T0 + 21 * Scenario.day))
       Scenario.deposited)
  = Returned (Some (3%float, 3)).
Proof.
  destruct (quiet_updates_keep_balances Scenario.cfg
              (AdminCallback (reject_deposit 1) (Scenario.T0 + 21 * Scenario.day))
              Scenario.deposited Scenario.A eq_refl) as [_ Hbal].
  rewrite Hbal. vm_compute. reflexivity.
Defined.

(** ** What happens to amounts that are not finite numbers *)

(** Each conjunct by evaluation. *)
Ltac evaluate :=
  repeat match goal with |- _ /\ _ => split end; vm_compute; reflexivity.

(** C3. After F's deposit of [nan] was approved (its amount is NULL), B's
    $100 deposit is approved at multiplier 4.0.  Two days later both rows
    are selected, the [nan] row first; the pass raises there and
    pays nothing: B's deposit is still APPROVED with [payout_ts] 0 and
    B's balance is still 0.0, and a pass thirty days later does the
    same. *)
Theorem nan_deposit_blocks_payouts :
  (fun d => (dep_id d, dep_status d, is_null (dep_amount d), dep_payout_ts d))
    <$> deposits Blocked.approved
  = [(1, APPROVED, true, 0); (2, APPROVED, false, 0)]
  /\ (fun d => (dep_amount d, dep_payout_mult d)) <$> db_get_deposit 2 Blocked.approved
     = Some (100%float, 4%float)
  /\ dep_id <$> matured_rows Scenario.cfg Blocked.sweep_time Blocked.approved = [1; 2]
  /\ Blocked.swept = Blocked.approved
  /\ (fun d => (dep_status d, dep_payout_ts d)) <$> db_get_deposit 2 Blocked.swept
     = Some (APPROVED, 0)
  /\ balance <$> db_user Scenario.B Blocked.swept = Some 0%float
  /\ payout_sweep Scenario.cfg (Blocked.sweep_time + 30 * Scenario.day) [] Blocked.swept
     = Blocked.swept.
Proof. evaluate. Qed.

(** C2. N, with $50, asks to withdraw [nan]: [nan > balance] is false, so
    the request is submitted, its amount stored as NULL.  When the admin
    approves it, [rr[0] < amt] raises: the balance is not below the
    amount, yet nothing is debited and the request is not marked PAID; it
    stays PENDING. *)
Theorem nan_withdrawal_is_never_paid :
  NanWithdrawal.requested.2 = RequestSubmitted 1
  /\ (fun w => (wd_user_id w, is_null (wd_amount w), wd_status w))
       <$> select_one wd_id 1 (withdrawals NanWithdrawal.requested.1.1)
     = Some (NegativeWithdrawal.N, true, PENDING)
  /\ NanWithdrawal.approved.2 = HandlerRaised
  /\ NanWithdrawal.approved.1 = NanWithdrawal.requested.1.1
  /\ wd_status <$> select_one wd_id 1 (withdrawals NanWithdrawal.approved.1)
     = Some PENDING
  /\ balance <$> db_user NegativeWithdrawal.N NanWithdrawal.approved.1 = Some 50%float.
Proof. evaluate. Qed.

(** C7. P has five counted referrals and an approved deposit of [inf],
    paid by the worker, so P's balance is [inf].  P's request for [inf]
    passes the gates and its approval leaves the balance at [inf - inf],
    which the column stores as NULL.  From then on P passes the first
    gate, and the amount step raises in [row[2] < MIN_WITHDRAW]: the
    request fails although none of the four conditions holds, and
    [/balance] raises as well. *)
Theorem null_balance_request_raises :
  (fun u => (balance u, counted_referrals u, has_deposited u))
    <$> db_user LostBalance.P LostBalance.paid
  = Some (infinity, 5, true)
  /\ (fun r => r.2) <$> LostBalance.requested = Some (RequestSubmitted 1)
  /\ LostBalance.approved.2 = WithdrawalPaid
  /\ (fun u => (is_null (balance u), counted_referrals u, has_deposited u))
       <$> db_user LostBalance.P LostBalance.approved.1
     = Some (true, 5, true)
  /\ cmd_withdraw_start LostBalance.P LostBalance.approved.1 = (W_ASK_AMOUNT, EnterAmount)
  /\ withdraw_amount Scenario.cfg LostBalance.P (Some 10%float) LostBalance.approved.1
       empty_user_data = None
  /\ LostBalance.next_request = None
  /\ cmd_balance LostBalance.P LostBalance.approved.1 = Raised.
Proof. evaluate. Qed.

(** C10. N has $50, five counted referrals and an approved deposit, and
    asks to withdraw minus ten dollars.  No step checks the sign: the
    request passes the four gates and is stored PENDING with amount
    -10.0; its approval passes the balance test ([50.0 < -10.0] is
    false), marks it PAID, and [balance - amount] raises N's balance from
    50.0 to 60.0. *)
Theorem negative_withdrawal_raises_balance :
  (fun u => (balance u, counted_referrals u, has_deposited u))
    <$> db_user NegativeWithdrawal.N NegativeWithdrawal.funded
  = Some (50%float, 5, true)
  /\ rltb (-10)%float 0%float = true
  /\ (fun r => (withdrawals r.1.1, r.1.2, r.2)) <$> NegativeWithdrawal.requested
     = Some ([{| wd_id := 1; wd_user_id := NegativeWithdrawal.N;
                 wd_amount := (-10)%float; wd_network := "TRC20";
                 wd_address := "TNaddr";
                 wd_ts := NegativeWithdrawal.request_time; wd_status := PENDING |}],
             CONV_END, RequestSubmitted 1)
  /\ (fun r => balance <$> db_user NegativeWithdrawal.N r.1.1)
       <$> NegativeWithdrawal.requested
     = Some (Some 50%float)
  /\ NegativeWithdrawal.approved.2 = WithdrawalPaid
  /\ wd_status <$> select_one wd_id 1 (withdrawals NegativeWithdrawal.approved.1)
     = Some PAID
  /\ balance <$> db_user NegativeWithdrawal.N NegativeWithdrawal.approved.1
     = Some 60%float
  /\ rltb 50%float 60%float = true.
Proof. evaluate. Qed.

(** ** Counting happens once per user *)

Section Counting.
Context {R : Type} `{Real R}.
Variable cfg : config R.

Lemma total_insert_fresh (f : user R -> Z) (k : Z) (x : user R) (m : gmap Z (user R)) :
  m !! k = None -> total f (<[k:=x]> m) = f x + total f m.
Proof.
  intros Hk. unfold total. rewrite map_fold_insert_L; [reflexivity| |exact Hk].
  intros. lia.
Qed.

Lemma total_alter (f : user R -> Z) (g : user R -> user R) (k : Z)
    (m : gmap Z (user R)) :
  total f (alter g k m)
  = total f m + match m !! k with Some x => f (g x) - f x | None => 0 end.
Proof.
  destruct (m !! k) as [x|] eqn:Hk.
  - rewrite (alter_alt_Some _ _ _ _ Hk), <- insert_delete_eq.
    rewrite <- (insert_delete_id m k x Hk) at 2.
    rewrite !total_insert_fresh by (rewrite lookup_delete, decide_True; reflexivity).
    lia.
  - rewrite alter_alt, Hk. lia.
Qed.

(** A column update that leaves [f] alone leaves its sum alone. *)
Lemma total_alter_same (f : user R -> Z) (g : user R -> user R) (k : Z)
    (m : gmap Z (user R)) :
  (forall x, f (g x) = f x) -> total f (alter g k m) = total f m.
Proof.
  intros Hg. rewrite total_alter. destruct (m !! k); rewrite ?Hg; lia.
Qed.

(** A column update that touches neither [counted_for_referrer] nor
    [counted_referrals] leaves both counts alone. *)
Lemma counts_alter_same (g : user R -> user R) (k : Z) (m : gmap Z (user R)) :
  (forall x, counted_for_referrer (g x) = counted_for_referrer x) ->
  (forall x, counted_referrals (g x) = counted_referrals x) ->
  counted_users (alter g k m) = counted_users m
  /\ counted_total (alter g k m) = counted_total m.
Proof.
  intros G1 G2. unfold counted_users, counted_total.
  rewrite !total_alter_same; [auto | exact G2 | intros x; rewrite G1; reflexivity].
Qed.

Lemma db_create_user_counts (user_id : Z) (name : string) (ref : option Z) (s : db R) :
  counted_users (users (db_create_user user_id name ref s)) = counted_users (users s)
  /\ counted_total (users (db_create_user user_id name ref s)) = counted_total (users s).
Proof.
  unfold db_create_user, counted_users, counted_total.
  destruct (users s !! user_id) eqn:Hu; destruct (truthy_id ref); cbn [users with_users];
    rewrite ?total_alter_same by reflexivity;
    rewrite ?total_insert_fresh by exact Hu; split; reflexivity.
Qed.

(** A counted join marks one user and records one counted referral. *)
Lemma handle_new_ref_join_counts (referrer_id new_user_id : Z) (s : db R) :
  let s' := (handle_new_ref_join cfg referrer_id new_user_id s).1 in
  counted_total (users s') - counted_total (users s)
  = counted_users (users s') - counted_users (users s)
  /\ 0 <= counted_users (users s') - counted_users (users s) <= 1.
Proof.
  unfold handle_new_ref_join.
  destruct (db_user referrer_id s) as [ref|] eqn:Hr;
    destruct (db_user new_user_id s) as [newu|] eqn:Hn; cbn [fst]; try lia.
  destruct (counted_referrals ref <? 3); cbn [andb fst]; [|lia].
  destruct (counted_for_referrer newu) eqn:Hc; cbn [negb fst]; [lia|].
  unfold db_add_balance, db_inc_counted_referrals, db_set_counted_for_referrer,
    counted_users, counted_total.
  cbn [users with_users]. unfold db_user in *.
  rewrite !total_alter, !lookup_alter_at.
  destruct (decide (new_user_id = referrer_id)) as [->|Hne];
    [assert (newu = ref) by congruence; subst newu|];
    repeat (case_decide; try congruence);
    rewrite ?Hr, ?Hn; cbn; rewrite ?Hc; cbn;
    destruct (counted_for_referrer ref); lia.
Qed.

Lemma cmd_start_counts (user_id : Z) (name : string) (refcode : option Z) (s : db R) :
  let s' := (cmd_start cfg user_id name refcode s).1 in
  counted_total (users s') - counted_total (users s)
  = counted_users (users s') - counted_users (users s)
  /\ 0 <= counted_users (users s') - counted_users (users s) <= 1.
Proof.
  unfold cmd_start.
  set (s1 := db_update_username user_id name (db_create_user user_id name refcode s)).
  assert (E : counted_users (users s1) = counted_users (users s)
              /\ counted_total (users s1) = counted_total (users s)).
  { destruct (db_create_user_counts user_id name refcode s) as [E1 E2].
    subst s1. unfold db_update_username. cbn [users with_users].
    destruct (counts_alter_same (set_username name) user_id
                (users (db_create_user user_id name refcode s)))
      as [-> ->]; [reflexivity ..|]. auto. }
  destruct E as [E1 E2].
  destruct (truthy_id refcode) as [r|]; cbn [fst]; [|lia].
  pose proof (handle_new_ref_join_counts r user_id s1) as E. cbv zeta in E. lia.
Qed.

(** An approval marks the owner if the owner was not marked, and records
    a counted referral only then, and only if the referrer has a row. *)
Lemma handle_deposit_approved_counts (depid now : Z) (s : db R) :
  let s' := (handle_deposit_approved cfg depid now s).1 in
  0 <= counted_total (users s') - counted_total (users s)
    <= counted_users (users s') - counted_users (users s)
  /\ counted_users (users s') - counted_users (users s) <= 1.
Proof.
  destruct (db_get_deposit depid s) as [dep|] eqn:Hd.
  2: { unfold handle_deposit_approved. rewrite Hd. cbn [fst]. lia. }
  rewrite (handle_deposit_approved_run _ _ _ _ _ Hd). cbv zeta.
  set (s1 := db_mark_deposited (dep_user_id dep)
               (db_approve_deposit depid (current_multiplier cfg now) s)).
  assert (K : counted_users (users s1) = counted_users (users s)
              /\ counted_total (users s1) = counted_total (users s)).
  { subst s1. unfold db_mark_deposited, db_approve_deposit. cbn [users with_users with_deposits].
    apply counts_alter_same; reflexivity. }
  destruct K as [K1 K2].
  destruct (db_user (dep_user_id dep) s) as [u|] eqn:Hu; [|cbn [fst]; lia].
  destruct (truthy_id (referred_by u)) as [ref|]; [|cbn [fst]; lia].
  set (s2 := if counted_for_referrer u then s1
             else db_inc_counted_referrals ref 1
                    (db_set_counted_for_referrer (dep_user_id dep) s1)).
  assert (E : 0 <= counted_total (users s2) - counted_total (users s)
                <= counted_users (users s2) - counted_users (users s)
              /\ counted_users (users s2) - counted_users (users s) <= 1).
  { subst s2. destruct (counted_for_referrer u) eqn:Hc; [lia|].
    assert (Hu1 : users s1 !! dep_user_id dep = Some (set_has_deposited true u)).
    { subst s1. change (users _ !! _) with
        (db_user (dep_user_id dep)
           (db_mark_deposited (dep_user_id dep)
              (db_approve_deposit depid (current_multiplier cfg now) s))).
      autorewrite with ledger. rewrite decide_True by reflexivity.
      rewrite Hu. reflexivity. }
    clearbody s1.
    unfold db_inc_counted_referrals, db_set_counted_for_referrer, counted_users,
      counted_total in *.
    cbn [users with_users].
    rewrite !total_alter, !lookup_alter_at, Hu1.
    destruct (decide (dep_user_id dep = ref)) as [E|E];
      [rewrite <- E, Hu1 | destruct (users s1 !! ref)]; cbn; rewrite ?Hc; cbn; lia. }
  destruct (is_null (dep_amount dep)); cbn [fst]; [exact E|].
  unfold db_add_balance. cbn [users with_users].
  destruct (counts_alter_same
              (fun x => set_balance
                          (radd (balance x)
                             (round (rmul (dep_amount dep) (REF_BONUS_DEPOSIT_PERCENT cfg)) 6))
                          x) ref (users s2)) as [-> ->]; [reflexivity ..|].
  exact E.
Qed.

Lemma pay_rows_counts (rows : list (deposit R)) :
  forall (last : Z) (later : list Z) (s : db R),
  counted_users (users (pay_rows cfg last later rows s)) = counted_users (users s)
  /\ counted_total (users (pay_rows cfg last later rows s)) = counted_total (users s).
Proof.
  induction rows as [|d rows IH]; intros last later s; [split; reflexivity|].
  cbn [pay_rows].
  destruct (if usable_mult d then (last, later) else read_clock last later) as [t1 l1].
  destruct (is_null (dep_amount d)); [split; reflexivity|].
  destruct (read_clock t1 l1) as [t2 l2].
  match goal with
  | |- context [pay_rows cfg t2 l2 rows ?s1] => destruct (IH t2 l2 s1) as [-> ->]
  end.
  unfold db_mark_deposit_paid, db_add_balance.
  cbn [users with_users with_deposits].
  apply counts_alter_same; reflexivity.
Qed.

(** An update marks at most one user as counted, and records a counted
    referral only when it marks one. *)
Lemma handle_counts (o : update R) (s : db R) :
  0 <= counted_total (users (handle cfg o s)) - counted_total (users s)
    <= counted_users (users (handle cfg o s)) - counted_users (users s)
  /\ counted_users (users (handle cfg o s)) - counted_users (users s) <= 1.
Proof.
  destruct o as [u n r|u a c t now|u addr now ud|data now|now later]; cbn [handle].
  - pose proof (cmd_start_counts u n r s) as E. cbv zeta in E. lia.
  - unfold cmd_deposit_short.
    destruct (negb (bool_decide (c ∈ DEPOSIT_CHAINS)));
      [|destruct (rltb a (MIN_DEPOSIT cfg))]; cbn [fst db_insert_deposit users]; lia.
  - unfold withdraw_address.
    destruct (ud_wd_amount ud), (ud_wd_network ud); cbn [db_insert_withdrawal users]; lia.
  - destruct data as [depid|depid|reqid|reqid]; cbn [cb_admin].
    + destruct (db_get_deposit depid s) as [dep|]; cbn [fst]; [|lia].
      pose proof (handle_deposit_approved_counts depid now s) as E. cbv zeta in E.
      destruct (handle_deposit_approved cfg depid now s) as [s' []]; exact E.
    + destruct (db_get_deposit depid s); cbn [fst db_reject_deposit users with_deposits]; lia.
    + destruct (select_one wd_id reqid (withdrawals s)) as [row|]; cbn [fst]; [|lia].
      destruct (balance <$> users s !! wd_user_id row) as [bal|]; cbn [fst]; [|lia].
      destruct (is_null bal || is_null (wd_amount row)); cbn [fst]; [lia|].
      destruct (rltb bal (wd_amount row)); cbn [fst]; [lia|].
      unfold db_update_withdrawal_status.
      cbn [users with_withdrawals with_users].
      destruct (counts_alter_same
                  (fun u => set_balance (rsub (balance u) (wd_amount row)) u)
                  (wd_user_id row) (users s)) as [-> ->]; [reflexivity ..|].
      lia.
    + destruct (select_one wd_id reqid (withdrawals s));
        cbn [fst db_update_withdrawal_status users with_withdrawals]; lia.
  - unfold payout_sweep.
    destruct (pay_rows_counts (matured_rows cfg now s) now later s) as [-> ->]. lia.
Qed.

(** C8. Through any sequence of updates, joins and deposit approvals
    among them, a user once marked as counted stays marked, so the flag
    goes from false to true at most once per user.  Each update marks at
    most one user, and the counted referrals of all referrers together
    never decrease and grow by no more than the number of users newly
    marked: no counted referral is recorded without a user being marked
    for it. *)
Theorem counted_at_most_once (ops : list (update R)) (s : db R) :
  let s' := run cfg ops s in
  (forall v u, db_user v s = Some u -> counted_for_referrer u = true ->
     counted_for_referrer <$> db_user v s' = Some true)
  /\ 0 <= counted_total (users s') - counted_total (users s)
       <= counted_users (users s') - counted_users (users s)
  /\ counted_users (users s') - counted_users (users s) <= Z.of_nat (length ops).
Proof.
  cbv zeta. revert s. induction ops as [|o ops IH]; intros s.
  - cbn [run fold_left length]. split; [|lia].
    intros v u Hv Hc. rewrite Hv. simpl. rewrite Hc. reflexivity.
  - change (run cfg (o :: ops) s) with (run cfg ops (handle cfg o s)).
    destruct (IH (handle cfg o s)) as (Hflag & Hle & Hlen).
    pose proof (handle_counts o s) as Hstep.
    split.
    + intros v u Hv Hc. destruct (handle_kept cfg o s v u Hv) as (u1 & Hv1 & K1).
      apply (Hflag v u1 Hv1). destruct K1 as (_ & _ & K & _). auto.
    + cbn [length]. lia.
Qed.

End Counting.

(** In the scenario, B was counted at registration and is still counted
    at the end; after registration one more user is counted (F, at the
    approval of the deposit) and one more counted referral is recorded. *)
Lemma counted_at_most_once_witness :
  counted_for_referrer <$> db_user Scenario.B History.final = Some true
  /\ counted_total (users History.final) - counted_total (users Scenario.registered) = 1
  /\ counted_users (users History.final) - counted_users (users Scenario.registered) = 1.
Proof.
  pose (u := {| username := "B"; balance := 0%float; referred_by := Some Scenario.A;
                counted_for_referrer := true; counted_referrals := 0;
                total_referrals := 0; has_deposited := false |}).
  pose (ops := [ DepositCmd Scenario.F 100%float "TRC20" "txF"
                   (Scenario.T0 + 20 * Scenario.day);
                 AdminCallback (approve_deposit 1)
                   (Scenario.T0 + 20 * Scenario.day + 3600);
                 WorkerSweep Maturation.sweep_time [] ] : list (update float)).
  assert (Hu : db_user Scenario.B Scenario.registered = Some u)
    by (vm_compute; reflexivity).
  assert (Erun : run Scenario.cfg ops Scenario.registered = History.final)
    by (vm_compute; reflexivity).
  pose proof (counted_at_most_once Scenario.cfg ops Scenario.registered) as Hrun.
  cbv zeta in Hrun. rewrite Erun in Hrun. destruct Hrun as (Hflag & _ & _).
  split; [exact (Hflag Scenario.B u Hu eq_refl)|].
  split; vm_compute; reflexivity.
Defined.
